(** * jwreftools / nircam_grism_reffiles.py

    A shallow embedding of the NIRCam grism reference-file generator:
    the text reader [dict_from_file], the beam aggregator
    [split_order_info], the per-order model builder of
    [create_grism_specwcs] and the wavelength-range emitters
    [create_wfss_wavelengthrange] and [create_tsgrism_wavelengthrange].

    Conventions of the embedding.
    - Python [str] is [string]; the text is taken to be ASCII, so [\s],
      [\d] and [str.upper] are their ASCII versions.
    - Python numbers are [pynum]: an [int] is an integer of any size and
      a [float] is an IEEE 754 binary64 value, with the arithmetic of
      [SpecFloat] (round to nearest, ties to even).  [eval] gives an [int]
      for a token without dot and exponent and the nearest [float]
      otherwise.  The interpreter's optional limit on the number of digits
      of an integer conversion is not modelled.
    - A Python [dict] is an association list in insertion order: iteration
      order decides which beam is processed first and which range key is
      [mlist[0]].
    - A raised exception is the [Raise] case of [result]; the local
      variables [zero] and [one] of [split_order_info], which Python leaves
      unbound until their first assignment, are an explicit pair of options
      threaded through the loops.
    - [print] diagnostics are not modelled. *)

From Stdlib Require Import List String Ascii Bool Arith ZArith Lia.
From Stdlib Require Import Permutation Sorted SpecFloat.
Import ListNotations.

Open Scope nat_scope.
Open Scope string_scope.
Open Scope list_scope.

(* ================================================================== *)
(** ** Exceptions and results *)

Inductive exn : Type :=
| ValueError (msg : string)
| KeyError (key : string)
| IndexError
| TypeError
| ZeroDivisionError
| OverflowError
| UnboundLocalError (var : string)
| EvalError (src : string)        (* SyntaxError or NameError out of eval *)
| FileNotFoundError (name : string)
| ValidationError.

Inductive result (A : Type) : Type :=
| Ok (a : A)
| Raise (e : exn).

Arguments Ok {A} a.
Arguments Raise {A} e.

Definition bind {A B : Type} (m : result A) (k : A -> result B) : result B :=
  match m with
  | Ok a => k a
  | Raise e => Raise e
  end.

Notation "x <- m ;; k" := (bind m (fun x => k))
  (at level 61, m at next level, right associativity).
Notation "' p <- m ;; k" := (bind m (fun x => match x with p => k end))
  (at level 61, p pattern, m at next level, right associativity).

Definition of_option {A : Type} (e : exn) (o : option A) : result A :=
  match o with
  | Some a => Ok a
  | None => Raise e
  end.

(* ================================================================== *)
(** ** Characters and strings *)

Module Str.

Definition code (c : ascii) : nat := nat_of_ascii c.

Definition between (lo hi : nat) (c : ascii) : bool :=
  Nat.leb lo (code c) && Nat.leb (code c) hi.

Definition is_upper (c : ascii) : bool := between 65 90 c.
Definition is_lower (c : ascii) : bool := between 97 122 c.
(** [[a-zA-Z]] *)
Definition is_letter (c : ascii) : bool := is_upper c || is_lower c.
(** [\d] *)
Definition is_digit (c : ascii) : bool := between 48 57 c.
(** [\s], also the set removed by [str.strip()] *)
Definition is_space (c : ascii) : bool :=
  between 9 13 c || between 28 32 c.

Definition upper_char (c : ascii) : ascii :=
  if is_lower c then ascii_of_nat (code c - 32) else c.

(** [s.upper()] *)
Fixpoint upper (s : string) : string :=
  match s with
  | EmptyString => EmptyString
  | String c r => String (upper_char c) (upper r)
  end.

Fixpoint drop_while (p : ascii -> bool) (s : string) : string :=
  match s with
  | EmptyString => EmptyString
  | String c r => if p c then drop_while p r else s
  end.

Fixpoint rev_acc (s acc : string) : string :=
  match s with
  | EmptyString => acc
  | String c r => rev_acc r (String c acc)
  end.

Definition rev (s : string) : string := rev_acc s EmptyString.

(** [s.strip()] *)
Definition strip (s : string) : string :=
  rev (drop_while is_space (rev (drop_while is_space s))).

Fixpoint all_chars (p : ascii -> bool) (s : string) : bool :=
  match s with
  | EmptyString => true
  | String c r => p c && all_chars p r
  end.

(** [s[-1]] *)
Fixpoint last_char (s : string) : option ascii :=
  match s with
  | EmptyString => None
  | String c EmptyString => Some c
  | String _ r => last_char r
  end.

(** [s[i]] for [i >= 0] *)
Fixpoint nth_char (i : nat) (s : string) : option ascii :=
  match s, i with
  | EmptyString, _ => None
  | String c _, O => Some c
  | String _ r, S j => nth_char j r
  end.

(** [s[-i]] for [i >= 1] *)
Definition nth_from_end (i : nat) (s : string) : option ascii :=
  match i with
  | O => None
  | S j => nth_char j (rev s)
  end.

(** [s.split(sep)] for a one-character separator: never empty. *)
Fixpoint split_aux (sep : ascii) (s cur : string) : list string :=
  match s with
  | EmptyString => [rev cur]
  | String c r =>
      if Ascii.eqb c sep then rev cur :: split_aux sep r EmptyString
      else split_aux sep r (String c cur)
  end.

Definition split (sep : ascii) (s : string) : list string :=
  split_aux sep s EmptyString.

(** [sub in s] *)
Fixpoint contains (sub s : string) : bool :=
  prefix sub s ||
  match s with
  | EmptyString => false
  | String _ r => contains sub r
  end.

(** [s.replace(pat, "")] for a non-empty [pat]: every non-overlapping
    occurrence, scanning from the left.  [skip] counts the characters of
    an occurrence still to be swallowed. *)
Fixpoint remove_all_aux (pat s : string) (skip : nat) : string :=
  match s with
  | EmptyString => EmptyString
  | String c r =>
      match skip with
      | S k => remove_all_aux pat r k
      | O =>
          if prefix pat s then remove_all_aux pat r (length pat - 1)
          else String c (remove_all_aux pat r 0)
      end
  end.

Definition remove_all (pat s : string) : string :=
  match pat with
  | EmptyString => s
  | _ => remove_all_aux pat s 0
  end.

End Str.

(* ================================================================== *)
(** ** Numbers *)

(** Python's [float]: IEEE 754 binary64. *)
Module Double.

Definition prec : Z := 53.
Definition emax : Z := 1024.

Definition t : Type := spec_float.

Definition zero : t := S754_zero false.

Definition add : t -> t -> t := SFadd prec emax.
Definition mul : t -> t -> t := SFmul prec emax.
Definition div : t -> t -> t := SFdiv prec emax.
Definition opp : t -> t := SFopp.

(** [x == y]: the two zeros are equal, a NaN equals nothing. *)
Definition eqb : t -> t -> bool := SFeqb.

(** The double nearest to [p/q], with the sign [neg]. *)
Definition ratio (neg : bool) (p q : positive) : t :=
  div (S754_finite neg p 0) (S754_finite false q 0).

(** The double nearest to [n/d]. *)
Definition of_frac (n : Z) (d : positive) : t :=
  match n with
  | Z0 => zero
  | Zpos p => ratio false p d
  | Zneg p => ratio true p d
  end.

Definition of_Z (n : Z) : t := of_frac n 1.

Definition one : t := of_Z 1.

(** Neither an infinity nor a NaN. *)
Definition is_finite (x : t) : bool :=
  match x with
  | S754_zero _ | S754_finite _ _ _ => true
  | S754_infinity _ | S754_nan => false
  end.

End Double.

(** A Python number: an [int] or a [float]. *)
Inductive pynum : Type :=
| Int (n : Z)
| Flt (x : Double.t).

(* ================================================================== *)
(** ** Values and dictionaries *)

(** What a configuration value can be: a string, a number, or the
    2-tuple built from a [key min max] line or from a [_0]/[_1] pair. *)
Inductive pyval : Type :=
| PStr (s : string)
| PNum (n : pynum)
| PTuple (a b : pyval).

Module Dict.

Section Ops.
Context {V : Type}.

Definition t := list (string * V).

Definition empty : t := [].

Definition keys (d : t) : list string := map fst d.

Fixpoint lookup (k : string) (d : t) : option V :=
  match d with
  | [] => None
  | (k', v) :: r => if String.eqb k k' then Some v else lookup k r
  end.

(** [k in d] *)
Definition mem (k : string) (d : t) : bool :=
  match lookup k d with Some _ => true | None => false end.

(** [d[k]] *)
Definition get (k : string) (d : t) : result V :=
  of_option (KeyError k) (lookup k d).

(** [d[k] = v]: an existing key keeps its position, a new one is
    appended. *)
Fixpoint set (k : string) (v : V) (d : t) : t :=
  match d with
  | [] => [(k, v)]
  | (k', v') :: r =>
      if String.eqb k k' then (k', v) :: r else (k', v') :: set k v r
  end.

Fixpoint remove (k : string) (d : t) : t :=
  match d with
  | [] => []
  | (k', v') :: r =>
      if String.eqb k k' then r else (k', v') :: remove k r
  end.

(** [del d[k]] *)
Definition del (k : string) (d : t) : result t :=
  if mem k d then Ok (remove k d) else Raise (KeyError k).

(** [d.update(o)] *)
Definition update (d o : t) : t :=
  fold_left (fun acc kv => set (fst kv) (snd kv) acc) o d.

End Ops.

Arguments t V : clear implicits.

End Dict.

(* ================================================================== *)
(** ** Python builtins applied to strings: [eval] and [int] *)

Module Py.

Definition newline : ascii := ascii_of_nat 10.

Definition is_sign (c : ascii) : bool :=
  Ascii.eqb c "+" || Ascii.eqb c "-".

Definition is_e (c : ascii) : bool :=
  Ascii.eqb c "e" || Ascii.eqb c "E".

Definition digit_value (c : ascii) : Z := Z.of_nat (Str.code c - 48).

Fixpoint digits_value (s : string) (acc : Z) : Z :=
  match s with
  | EmptyString => acc
  | String c r => digits_value r (10 * acc + digit_value c)
  end.

(** The longest prefix of digits, and what follows it. *)
Fixpoint span_digits (s : string) : string * string :=
  match s with
  | EmptyString => (EmptyString, EmptyString)
  | String c r =>
      if Str.is_digit c
      then let '(d, rest) := span_digits r in (String c d, rest)
      else (EmptyString, s)
  end.

(** [(?:[+\-])?]: whether a minus sign was read, and the rest. *)
Definition take_sign (s : string) : bool * string :=
  match s with
  | String c r => if is_sign c then (Ascii.eqb c "-", r) else (false, s)
  | EmptyString => (false, s)
  end.

(** The pieces of a token of the grammar: an optional sign, digits, an
    optional dot, digits, and an optional exponent made of [e] or [E], an
    optional sign and digits.  Every run of digits may be empty. *)
Record literal : Type := mkLiteral {
  lit_neg : bool;
  lit_int : string;
  lit_dot : bool;
  lit_frac : string;
  lit_exp : option (bool * string)
}.

Definition parse_literal (s : string) : option literal :=
  let '(neg, s1) := take_sign s in
  let '(ip, s2) := span_digits s1 in
  let '(dot, s3) :=
    match s2 with
    | String c r => if Ascii.eqb c "." then (true, r) else (false, s2)
    | EmptyString => (false, s2)
    end in
  let '(fp, s4) := span_digits s3 in
  match s4 with
  | EmptyString => Some (mkLiteral neg ip dot fp None)
  | String c r =>
      if is_e c then
        let '(eneg, r1) := take_sign r in
        let '(ed, r2) := span_digits r1 in
        match r2 with
        | EmptyString => Some (mkLiteral neg ip dot fp (Some (eneg, ed)))
        | _ => None
        end
      else None
  end.

(** [numbers.fullmatch(val)], where [numbers] is the pattern
    sign? digits* dot? digits* (e-or-E sign? digits* end)? anchored at the
    start: truthy when the whole token is in the grammar. *)
Definition numbers_fullmatch (val : string) : bool :=
  match parse_literal val with
  | Some _ => true
  | None => false
  end.

(** A token of the grammar is a Python literal when it has a digit
    before the exponent, the exponent (if any) has a digit, and an
    integer has no leading zero unless it is all zeros. *)
Definition well_formed (l : literal) : bool :=
  match lit_dot l, lit_exp l with
  | false, None =>
      match lit_int l with
      | EmptyString => false
      | String "0" r => Str.all_chars (Ascii.eqb "0") r
      | _ => true
      end
  | _, None =>
      negb (String.eqb (lit_int l) "") || negb (String.eqb (lit_frac l) "")
  | _, Some (_, ed) =>
      (negb (String.eqb (lit_int l) "") || negb (String.eqb (lit_frac l) ""))
      && negb (String.eqb ed "")
  end.

Definition pow10 (n : Z) : positive := Z.to_pos (Z.pow 10 n).

(** The number a literal denotes: an [int] when it has neither dot nor
    exponent, and otherwise the [float] nearest to its decimal value. *)
Definition literal_value (l : literal) : pynum :=
  let mant := digits_value (lit_int l ++ lit_frac l) 0 in
  match lit_dot l, lit_exp l with
  | false, None => Int (if lit_neg l then (- mant)%Z else mant)
  | _, _ =>
      let e :=
        match lit_exp l with
        | None => 0%Z
        | Some (eneg, ed) =>
            let v := digits_value ed 0 in if eneg then (- v)%Z else v
        end in
      let scale := (e - Z.of_nat (String.length (lit_frac l)))%Z in
      Flt match mant with
          | Zpos p =>
              if (0 <=? scale)%Z
              then Double.ratio (lit_neg l) (p * pow10 scale) 1
              else Double.ratio (lit_neg l) p (pow10 (- scale))
          | _ => S754_zero (lit_neg l)
          end
  end.

(** [eval(s)] on the strings that reach it in this module: tokens of the
    numeric grammar and single characters.  Anything that is not a
    signed numeric literal makes [eval] raise (SyntaxError, or NameError
    for a name such as [e5], none of which is bound here). *)
Definition eval (s : string) : result pynum :=
  match parse_literal s with
  | Some l => if well_formed l then Ok (literal_value l)
              else Raise (EvalError s)
  | None => Raise (EvalError s)
  end.

(** Digits with single underscores between them. *)
Fixpoint int_body (s : string) (after_digit : bool) (acc : Z) : option Z :=
  match s with
  | EmptyString => if after_digit then Some acc else None
  | String c r =>
      if Str.is_digit c then int_body r true (10 * acc + digit_value c)
      else if Ascii.eqb c "_" && after_digit then int_body r false acc
      else None
  end.

Definition quote : ascii := "'".
Definition dquote : ascii := ascii_of_nat 34.
Definition backslash : ascii := ascii_of_nat 92.

Definition hex_digit (n : nat) : ascii :=
  match get n "0123456789abcdef" with
  | Some c => c
  | None => "0"
  end.

(** How [repr] shows one character inside the quotes [q]. *)
Definition repr_char (q c : ascii) : string :=
  if Ascii.eqb c backslash then String backslash (String backslash "")
  else if Ascii.eqb c q then String backslash (String q "")
  else if Ascii.eqb c (ascii_of_nat 9) then String backslash "t"
  else if Ascii.eqb c (ascii_of_nat 10) then String backslash "n"
  else if Ascii.eqb c (ascii_of_nat 13) then String backslash "r"
  else if Str.between 32 126 c
          || (Str.between 161 255 c && negb (Nat.eqb (Str.code c) 173))
  then String c ""
  else String backslash
         (String "x"
            (String (hex_digit (Str.code c / 16))
               (String (hex_digit (Str.code c mod 16)) ""))).

Fixpoint repr_body (q : ascii) (s : string) : string :=
  match s with
  | EmptyString => EmptyString
  | String c r => (repr_char q c ++ repr_body q r)%string
  end.

Definition has (c : ascii) (s : string) : bool :=
  negb (Str.all_chars (fun x => negb (Ascii.eqb x c)) s).

(** [repr(s)]: single quotes, unless the text has a single quote and no
    double quote. *)
Definition repr (s : string) : string :=
  let q := if has quote s && negb (has dquote s) then dquote else quote in
  String q (repr_body q s ++ String q "").

(** The white space [int()] skips at both ends of an ASCII string. *)
Definition is_blank (c : ascii) : bool :=
  Str.between 9 13 c || Ascii.eqb c " ".

(** [int(s)] *)
Definition int (s : string) : result Z :=
  let trimmed :=
    Str.rev (Str.drop_while is_blank (Str.rev (Str.drop_while is_blank s))) in
  let '(neg, body) := take_sign trimmed in
  match int_body body false 0 with
  | Some n => Ok (if neg then (- n)%Z else n)
  | None =>
      Raise (ValueError
               ("invalid literal for int() with base 10: " ++ repr s))
  end.

(** [n == k] for an integer [k] *)
Definition eq_int (n : pynum) (k : Z) : bool :=
  match n with
  | Int z => Z.eqb z k
  | Flt x => Double.eqb x (Double.of_Z k)
  end.

(** The least magnitude of an integer that is too large for a [float]:
    from here on the nearest double would be [2^1024]. *)
Definition float_limit : Z := (2 ^ 1024 - 2 ^ 970)%Z.

(** [float(n)], the conversion arithmetic applies to an [int] operand *)
Definition float (n : pynum) : result Double.t :=
  match n with
  | Flt x => Ok x
  | Int z =>
      if (float_limit <=? Z.abs z)%Z then Raise OverflowError
      else Ok (Double.of_Z z)
  end.

(** The numbers [float()] accepts: every [float], and the integers
    below the limit. *)
Definition representable (n : pynum) : bool :=
  match n with
  | Flt _ => true
  | Int z => (Z.abs z <? float_limit)%Z
  end.

(** [-n] *)
Definition neg (n : pynum) : pynum :=
  match n with
  | Int z => Int (- z)
  | Flt x => Flt (Double.opp x)
  end.

(** [a / b].  Two integers give the double nearest to their quotient, or
    [OverflowError] when that is out of range; otherwise both operands
    are converted to [float] first.  (The converted divisor is zero
    exactly when the divisor is.) *)
Definition truediv (a b : pynum) : result Double.t :=
  match a, b with
  | Int x, Int y =>
      if Z.eqb y 0 then Raise ZeroDivisionError
      else if (float_limit * Z.abs y <=? Z.abs x)%Z then Raise OverflowError
      else Ok match x with
              | Z0 => S754_zero (Z.ltb y 0)
              | _ => Double.ratio (xorb (Z.ltb x 0) (Z.ltb y 0))
                       (Z.to_pos (Z.abs x)) (Z.to_pos (Z.abs y))
              end
  | _, _ =>
      x <- float a ;;
      y <- float b ;;
      if eq_int b 0 then Raise ZeroDivisionError else Ok (Double.div x y)
  end.

End Py.

(* ================================================================== *)
(** ** split_order_info *)

Definition beamdict := Dict.t (Dict.t pyval).

(** [token = re.compile('^[a-zA-Z]*_(?:[+\-]){0,1}[a-zA-Z0-9]{0,1}_*')];
    [token.match(key)] anchors at the start only.  The function returns
    what is left after the matched prefix. *)
Definition token_prefix (key : string) : option string :=
  match Str.drop_while Str.is_letter key with
  | String u r =>
      if Ascii.eqb u "_" then
        let r1 := snd (Py.take_sign r) in
        let r2 :=
          match r1 with
          | String c r' =>
              if Str.is_letter c || Str.is_digit c then r' else r1
          | EmptyString => r1
          end in
        Some (Str.drop_while (Ascii.eqb "_") r2)
      else None
  | EmptyString => None
  end.

Definition token_match (key : string) : bool :=
  match token_prefix key with Some _ => true | None => false end.

(** [rangekey = re.compile('^[a-zA-Z]*_[0-1]{1,1}$')]; [$] also matches
    just before a final newline. *)
Definition rangekey_match (k : string) : bool :=
  match Str.drop_while Str.is_letter k with
  | String u (String d rest) =>
      Ascii.eqb u "_"
      && (Ascii.eqb d "0" || Ascii.eqb d "1")
      && (String.eqb rest "" || String.eqb rest (String Py.newline ""))
  | _ => false
  end.

(** [key.split("_")[1].upper()] *)
Definition beam_of (key : string) : result string :=
  b <- of_option IndexError (nth_error (Str.split "_" key) 1) ;;
  Ok (Str.upper b).

(** [k.split("_")[0]] *)
Definition root_of (k : string) : string :=
  hd "" (Str.split "_" k).

(** First loop: collect the beams in order of first appearance. *)
Fixpoint prefetch_beams (ks : list string) (beams : list string)
  : result (list string) :=
  match ks with
  | [] => Ok beams
  | key :: r =>
      if token_match key then
        b <- beam_of key ;;
        if existsb (String.eqb b) beams then prefetch_beams r beams
        else prefetch_beams r (beams ++ [b])
      else prefetch_beams r beams
  end.

(** [for b in beams: rdict[b] = dict()] *)
Definition init_rdict (beams : list string) : beamdict :=
  fold_left (fun rd b => Dict.set b Dict.empty rd) beams Dict.empty.

(** Second loop: file every beam-qualified key, without its beam, under
    its beam.  (A dictionary has each key once, so walking its items is
    walking its keys and reading [keydict[key]].) *)
Fixpoint assign_keys (items : Dict.t pyval) (rdict : beamdict)
  : result beamdict :=
  match items with
  | [] => Ok rdict
  | (key, v) :: r =>
      if token_match key then
        b <- beam_of key ;;
        let newkey := Str.remove_all ("_" ++ b) key in
        d <- Dict.get b rdict ;;
        assign_keys r (Dict.set b (Dict.set newkey v d) rdict)
      else assign_keys r rdict
  end.

(** The function's local variables [zero] and [one]: [None] while
    unbound. *)
Definition locals : Type := option pyval * option pyval.

Definition unbound : locals := (None, None).

(** [for mk in mlist: ...] *)
Fixpoint bind_members (d : Dict.t pyval) (mlist : list string) (st : locals)
  : result locals :=
  match mlist with
  | [] => Ok st
  | mk :: r =>
      c <- of_option IndexError (Str.last_char mk) ;;
      n <- Py.eval (String c "") ;;
      if Py.eq_int n 0 then
        v <- Dict.get mk d ;;
        bind_members d r (Some v, snd st)
      else if Py.eq_int n 1 then
        v <- Dict.get mk d ;;
        bind_members d r (fst st, Some v)
      else Raise (ValueError ("Unexpected range variable " ++ mk))
  end.

(** [(zero, one)]: reading an unbound local raises. *)
Definition read_pair (st : locals) : result pyval :=
  z <- of_option (UnboundLocalError "zero") (fst st) ;;
  o <- of_option (UnboundLocalError "one") (snd st) ;;
  Ok (PTuple z o).

(** [for k in rkeys: ...] *)
Fixpoint fold_ranges (d : Dict.t pyval) (rkeys ks : list string)
  (odict : Dict.t pyval) (st : locals) : result (Dict.t pyval * locals) :=
  match ks with
  | [] => Ok (odict, st)
  | k :: r =>
      let mlist := filter (fun m => Str.contains (root_of k) m) rkeys in
      m0 <- of_option IndexError (nth_error mlist 0) ;;
      let root := root_of m0 in
      if negb (Dict.mem root odict) then
        st' <- bind_members d mlist st ;;
        tup <- read_pair st' ;;
        fold_ranges d rkeys r (Dict.set root tup odict) st'
      else fold_ranges d rkeys r odict st
  end.

(** [for k in rkeys: del d[k]] *)
Fixpoint del_keys (ks : list string) (d : Dict.t pyval)
  : result (Dict.t pyval) :=
  match ks with
  | [] => Ok d
  | k :: r => d' <- Dict.del k d ;; del_keys r d'
  end.

(** The body of [for b, d in rdict.items()]. *)
Definition fold_beam (d : Dict.t pyval) (st : locals)
  : result (Dict.t pyval * locals) :=
  let rkeys := filter rangekey_match (Dict.keys d) in
  '(odict, st') <- fold_ranges d rkeys rkeys Dict.empty st ;;
  d' <- del_keys rkeys (Dict.update d odict) ;;
  Ok (d', st').

Fixpoint fold_beams (rd : beamdict) (st : locals) : result beamdict :=
  match rd with
  | [] => Ok []
  | (b, d) :: r =>
      '(d', st') <- fold_beam d st ;;
      r' <- fold_beams r st' ;;
      Ok ((b, d') :: r')
  end.

(** What a caller can hand over: a dictionary, or an object of another
    type. *)
Inductive argument : Type :=
| Mapping (d : Dict.t pyval)
| NotADict.

Definition split_order_info (keydict : argument) : result beamdict :=
  match keydict with
  | NotADict => Raise (ValueError "Expected an input dictionary")
  | Mapping keydict =>
      beams <- prefetch_beams (Dict.keys keydict) [] ;;
      rdict <- assign_keys keydict (init_rdict beams) ;;
      fold_beams rdict unbound
  end.

(* ================================================================== *)
(** ** dict_from_file *)

(** [empty = re.compile("(^\s*$)")] *)
Definition empty_match (line : string) : bool :=
  Str.all_chars Str.is_space line.

(** [letters = re.compile("(^[a-zA-Z])")] *)
Definition letters_match (s : string) : bool :=
  match s with
  | String c _ => Str.is_letter c
  | EmptyString => false
  end.

Definition is_digit_opt (o : option ascii) : bool :=
  match o with
  | Some c => Str.is_digit c
  | None => false
  end.

Definition head_char (s : string) : option ascii :=
  match s with
  | String c _ => Some c
  | EmptyString => None
  end.

(** The second alternative of [token]: a comma with no digit just before
    it and no digit just after it. *)
Definition comma_sep (prev : option ascii) (c : ascii) (rest : string)
  : bool :=
  Ascii.eqb c "," && negb (is_digit_opt prev)
  && negb (is_digit_opt (head_char rest)).

(** [re.split(token, s, maxsplit)] with [token] the pattern
    "whitespace run, or comma not next to a digit".  [prev] is the
    character before the position, [in_ws] tells that the position is
    inside a whitespace run already matched, [budget] is the number of
    splits still allowed and [cur] the piece being read, reversed. *)
Fixpoint re_split_aux (prev : option ascii) (in_ws : bool) (budget : nat)
  (s cur : string) : list string :=
  match s with
  | EmptyString => [Str.rev cur]
  | String c r =>
      if in_ws && Str.is_space c then re_split_aux (Some c) true budget r cur
      else
        match budget with
        | O => [(Str.rev cur ++ s)%string]
        | S b =>
            if Str.is_space c
            then Str.rev cur :: re_split_aux (Some c) true b r ""
            else if comma_sep prev c r
            then Str.rev cur :: re_split_aux (Some c) false b r ""
            else re_split_aux (Some c) false budget r (String c cur)
        end
  end.

Definition re_split (s : string) (maxsplit : nat) : list string :=
  re_split_aux None false maxsplit s "".

(** The part of the loop body that sets [key] and [value]; [None] is
    Python's [None]. *)
Definition read_line (line : string)
  : result (option string * option pyval) :=
  if negb (empty_match line) then
    if letters_match line then
      match re_split (Str.strip line) 3 with
      | [key; val] =>
          let value := if letters_match val then Some (PStr val) else None in
          if Py.numbers_fullmatch val then
            n <- Py.eval val ;; Ok (Some key, Some (PNum n))
          else Ok (Some key, value)
      | [key; val1; val2] =>
          if Py.numbers_fullmatch val1 && Py.numbers_fullmatch val2 then
            n1 <- Py.eval val1 ;;
            n2 <- Py.eval val2 ;;
            Ok (Some key, Some (PTuple (PNum n1) (PNum n2)))
          else Raise (ValueError ("Min/max values expected for " ++ key))
      | _ => Ok (None, None)
      end
    else Ok (None, None)
  else Ok (None, None).

(** [if key and (value is not None): if "FILTER" not in key and
    "SENSITIVITY" not in key: content[key] = value] *)
Definition store (content : Dict.t pyval) (key : option string)
  (value : option pyval) : Dict.t pyval :=
  match key, value with
  | Some k, Some v =>
      if negb (String.eqb k "") then
        if negb (Str.contains "FILTER" k) && negb (Str.contains "SENSITIVITY" k)
        then Dict.set k v content
        else content
      else content
  | _, _ => content
  end.

Definition process_line (content : Dict.t pyval) (line : string)
  : result (Dict.t pyval) :=
  '(key, value) <- read_line line ;;
  Ok (store content key value).

Fixpoint read_lines (lines : list string) (content : Dict.t pyval)
  : result (Dict.t pyval) :=
  match lines with
  | [] => Ok content
  | line :: r => content' <- process_line content line ;; read_lines r content'
  end.

(** The files that can be opened for reading: a name gives the list
    [fh.readlines()] returns, each line with its line end. *)
Definition filesystem : Type := string -> option (list string).

Definition dict_from_file (fs : filesystem) (filename : string)
  : result (Dict.t pyval) :=
  lines <- of_option (FileNotFoundError filename) (fs filename) ;;
  read_lines lines Dict.empty.

(* ================================================================== *)
(** ** common_reference_file_keywords *)

Record instrument : Type := mkInstrument {
  inst_name : string;
  inst_filter : option string;
  inst_pupil : option string;
  inst_module : option string
}.

Record keywords : Type := mkKeywords {
  kw_author : string;
  kw_description : option string;
  kw_exposure_type : string;
  kw_instrument : instrument;
  kw_pedigree : string;
  kw_reftype : string;
  kw_telescope : string;
  kw_title : option string;
  kw_useafter : string;
  kw_extra : list (string * string)       (* **kwargs *)
}.

Definition common_reference_file_keywords
  (reftype title description exp_type : option string) (author : string)
  (useafter : string) (module fname pupil : option string)
  (kwargs : list (string * string)) : result keywords :=
  match exp_type with
  | None => Raise (ValueError "exp_type not set")
  | Some et =>
      match reftype with
      | None => Raise (ValueError "Expected reftype value")
      | Some rt =>
          Ok (mkKeywords author description et
                (mkInstrument "NIRCAM" fname pupil module)
                "ground" rt "JWST" title useafter kwargs)
      end
  end.

Definition default_useafter : string := "2014-01-01T00:00:00".

Record software : Type := mkSoftware {
  sw_name : string;
  sw_author : string;
  sw_homepage : string;
  sw_version : string
}.

Record history_entry : Type := mkHistory {
  h_description : string;
  h_time : string;
  h_software : software
}.

(* ================================================================== *)
(** ** create_grism_specwcs *)

(** [astropy.modeling.models.Polynomial1D] of degree 1. *)
Record Polynomial1D : Type := mkPoly {
  degree : nat;
  c0 : Double.t;
  c1 : Double.t
}.

(** Calling the model: [c0 + c1 * x], in double arithmetic. *)
Definition evaluate (p : Polynomial1D) (x : Double.t) : Double.t :=
  Double.add (c0 p) (Double.mul (c1 p) x).

Record NIRCAMGrismModel : Type := mkGrism {
  meta : keywords;
  p_exptype : option string;
  input_units : string;
  output_units : string;
  displ : list Polynomial1D;
  dispx : list Polynomial1D;
  dispy : list Polynomial1D;
  invdispx : list Polynomial1D;
  invdispy : list Polynomial1D;
  invdispl : list Polynomial1D;
  orders : list Z;
  history : list history_entry
}.

(** [v[i]] for [i] in 0, 1 *)
Definition subscript (v : pyval) (i : nat) : result pyval :=
  match v with
  | PTuple a b =>
      match i with
      | 0 => Ok a
      | 1 => Ok b
      | _ => Raise IndexError
      end
  | PStr s => c <- of_option IndexError (Str.nth_char i s) ;; Ok (PStr (String c ""))
  | PNum _ => Raise TypeError
  end.

(** [a, b = v] *)
Definition unpack2 (v : pyval) : result (pyval * pyval) :=
  match v with
  | PTuple a b => Ok (a, b)
  | PStr (String a (String b EmptyString)) =>
      Ok (PStr (String a ""), PStr (String b ""))
  | PStr EmptyString =>
      Raise (ValueError "not enough values to unpack (expected 2, got 0)")
  | PStr (String _ EmptyString) =>
      Raise (ValueError "not enough values to unpack (expected 2, got 1)")
  | PStr _ => Raise (ValueError "too many values to unpack (expected 2)")
  | PNum _ => Raise TypeError
  end.

(** [v == 0] *)
Definition is_zero (v : pyval) : bool :=
  match v with
  | PNum n => Py.eq_int n 0
  | _ => false
  end.

(** Arithmetic and model parameters want numbers. *)
Definition number (v : pyval) : result pynum :=
  match v with
  | PNum n => Ok n
  | _ => Raise TypeError
  end.

(** [Polynomial1D(1, c0=a0, c1=a1)]; the model class takes numbers as
    parameters, which it stores as doubles, and rejects anything else. *)
Definition forward_poly (a0 a1 : pyval) : result Polynomial1D :=
  n0 <- number a0 ;;
  n1 <- number a1 ;;
  x0 <- Py.float n0 ;;
  x1 <- Py.float n1 ;;
  Ok (mkPoly 1 x0 x1).

(** [if a1 == 0: Polynomial1D(1, c0=0, c1=0)
     else: Polynomial1D(1, c0=-a0/a1, c1=1./a1)] *)
Definition inverse_poly (a0 a1 : pyval) : result Polynomial1D :=
  if is_zero a1 then Ok (mkPoly 1 Double.zero Double.zero)
  else
    n0 <- number a0 ;;
    n1 <- number a1 ;;
    q0 <- Py.truediv (Py.neg n0) n1 ;;
    q1 <- Py.truediv (Flt Double.one) n1 ;;
    Ok (mkPoly 1 q0 q1).

(** The six lists the loop over the orders appends to. *)
Record models : Type := mkModels {
  m_invdispl : list Polynomial1D;
  m_invdispx : list Polynomial1D;
  m_invdispy : list Polynomial1D;
  m_displ : list Polynomial1D;
  m_dispx : list Polynomial1D;
  m_dispy : list Polynomial1D
}.

Definition no_models : models := mkModels [] [] [] [] [] [].

(** The body of [for order in orders], on [beamdict[order]]. *)
Definition order_models (d : Dict.t pyval) (m : models) : result models :=
  vl <- Dict.get "DISPL" d ;;
  l0 <- subscript vl 0 ;;
  l1 <- subscript vl 1 ;;
  il <- inverse_poly l0 l1 ;;
  fl <- forward_poly l0 l1 ;;
  vx <- Dict.get "DISPX" d ;;
  '(x0, x1) <- unpack2 vx ;;
  fx <- forward_poly x0 x1 ;;
  ix <- inverse_poly x0 x1 ;;
  vy <- Dict.get "DISPY" d ;;
  '(y0, y1) <- unpack2 vy ;;
  fy <- forward_poly y0 y1 ;;
  iy <- inverse_poly y0 y1 ;;
  Ok (mkModels (m_invdispl m ++ [il]) (m_invdispx m ++ [ix])
        (m_invdispy m ++ [iy]) (m_displ m ++ [fl]) (m_dispx m ++ [fx])
        (m_dispy m ++ [fy])).

Fixpoint all_models (bd : beamdict) (m : models) : result models :=
  match bd with
  | [] => Ok m
  | (_, d) :: r => m' <- order_models d m ;; all_models r m'
  end.

(** [oo = [int(o) for o in beamdict]] *)
Fixpoint int_orders (beams : list string) : result (list Z) :=
  match beams with
  | [] => Ok []
  | o :: r => n <- Py.int o ;; ns <- int_orders r ;; Ok (n :: ns)
  end.

(** The filter, pupil and module, read off a file name such as
    [NIRCAM_F444W_modB_R.conf] when not given. *)
Definition names_from (conffile : string) (filter pupil module : option string)
  : result (string * string * string) :=
  f <- match filter with
       | Some f => Ok f
       | None => of_option IndexError (nth_error (Str.split "_" conffile) 1)
       end ;;
  let stem := hd "" (Str.split "." conffile) in
  p <- match pupil with
       | Some p => Ok p
       | None =>
           c <- of_option IndexError (Str.nth_from_end 1 stem) ;;
           Ok ("GRISM" ++ String c "")%string
       end ;;
  m <- match module with
       | Some m => Ok m
       | None =>
           c <- of_option IndexError (Str.nth_from_end 3 stem) ;;
           Ok (String c "")
       end ;;
  Ok (f, p, m).

Definition tsgrism_filters : list string :=
  ["F277W"; "F322W2"; "F356W"; "F444W"].

Section Grism.

(** The clock reading [datetime.datetime.utcnow()] and the data model's
    own [validate()] are outside this module. *)
Variable utcnow : string.
Variable validate : NIRCAMGrismModel -> result unit.

(** Everything up to, and not including, [ref.to_asdf(outname)]: the
    output name and the reference object.  (The [temp]/[etoken] block of
    the source builds a dictionary of empty dictionaries and loops over
    their items, which changes nothing.) *)
Definition grism_specwcs_ref (fs : filesystem) (conffile : string)
  (filter pupil module : option string) (author history : string)
  (outname : option string) : result (string * NIRCAMGrismModel) :=
  let outname :=
    match outname with
    | None => "nircam_wfss_specwcs.asdf"
    | Some o => o
    end in
  let history :=
    if String.eqb history "" then ("Created from " ++ conffile)%string
    else history in
  '(filter, pupil, module) <- names_from conffile filter pupil module ;;
  ref_kw <- common_reference_file_keywords
              (Some "specwcs") (Some "NIRCAM Grism Parameters")
              (Some (pupil ++ " dispersion models")%string)
              (Some "NRC_WFSS") author default_useafter
              (Some module) (Some filter) (Some pupil)
              [("model_type", "NIRCAMGrismModel"); ("filename", outname)] ;;
  conf <- dict_from_file fs conffile ;;
  beamdict <- split_order_info (Mapping conf) ;;
  m <- all_models beamdict no_models ;;
  oo <- int_orders (Dict.keys beamdict) ;;
  let pexp :=
    if String.eqb module "A" && String.eqb pupil "GRISMR"
       && existsb (String.eqb filter) tsgrism_filters
    then Some "NRC_WFSS|NRC_TSGRISM"
    else None in
  let software :=
    mkSoftware "nircam_grism_reffiles.py" author
      "https://github.com/spacetelescope/jwreftools" "0.8.0" in
  Ok (outname,
      mkGrism ref_kw pexp "micron" "micron"
        (m_displ m) (m_dispx m) (m_dispy m)
        (m_invdispx m) (m_invdispy m) (m_invdispl m)
        oo [mkHistory history utcnow software]).

(** The call: its outcome and the files it wrote.  The file is written
    by [ref.to_asdf(outname)] and the object validated afterwards. *)
Definition create_grism_specwcs (fs : filesystem) (conffile : string)
  (filter pupil module : option string) (author history : string)
  (outname : option string)
  : result unit * list (string * NIRCAMGrismModel) :=
  match grism_specwcs_ref fs conffile filter pupil module author history
          outname with
  | Raise e => (Raise e, [])
  | Ok (name, ref) => (validate ref, [(name, ref)])
  end.

End Grism.

(* ================================================================== *)
(** ** create_wfss_wavelengthrange *)

(** [(order, filter, wave min, wave max)] *)
Definition range_entry : Type := Z * string * Double.t * Double.t.

Definition entry_order (e : range_entry) : Z := fst (fst (fst e)).
Definition entry_filter (e : range_entry) : string := snd (fst (fst e)).

Record WavelengthrangeModel : Type := mkWavelengthrange {
  wr_meta : keywords;
  wr_p_exptype : string;
  wr_input_units : string;
  wr_output_units : string;
  wavelengthrange : list range_entry;
  extract_orders : list (string * list Z);
  order : list Z;
  waverange_selector : list string;
  wr_history : list history_entry
}.

(** [sorted(set(xs))]: the distinct elements in increasing order. *)
Section SortedSet.
Context {A : Type} (eqb leb : A -> A -> bool).

Fixpoint insert (x : A) (l : list A) : list A :=
  match l with
  | [] => [x]
  | y :: r =>
      if eqb x y then l
      else if leb x y then x :: l
      else y :: insert x r
  end.

Definition sorted_set (xs : list A) : list A :=
  fold_left (fun acc x => insert x acc) xs [].

End SortedSet.

(** The float literal with the digits [n], the last [digits] of them
    after the dot. *)
Definition dec (n : Z) (digits : nat) : Double.t :=
  Double.of_frac n (Z.to_pos (Z.pow 10 (Z.of_nat digits))).

(** The built-in table of the wide-field mode. *)
Definition wfss_wavelengthrange : list range_entry :=
  [ (1, "F250M", dec 2500411072 9, dec 4800260833 9);
    (1, "F277W", dec 2500411072 9, dec 3807062006 9);
    (1, "F300M", dec 2684896869 9, dec 4025318456 9);
    (1, "F322W2", dec 25011293930000003 16, dec 4215842089 9);
    (1, "F335M", dec 301459734 8, dec 4260432726 9);
    (1, "F356W", dec 3001085025 9, dec 4302320901 9);
    (1, "F360M", dec 3178096344 9, dec 400099629 8);
    (1, "F410M", dec 36267051809999997 16, dec 45644598 7);
    (1, "F430M", dec 404828939 8, dec 4511761774 9);
    (1, "F444W", dec 3696969216 9, dec 4899565197 9);
    (1, "F460M", dec 3103778615 9, dec 4881999188 9);
    (1, "F480M", dec 45158154679999996 16, dec 4899565197 9);
    (2, "F250M", dec 2500411072 9, dec 2667345336 9);
    (2, "F277W", dec 2500411072 9, dec 32642254050000004 16);
    (2, "F300M", dec 26659796289999997 16, dec 32997071729999994 16);
    (2, "F322W2", dec 25011293930000003 16, dec 4136119434 9);
    (2, "F335M", dec 254572003 8, dec 36780519760000003 16);
    (2, "F356W", dec 2529505253 9, dec 4133416971 9);
    (2, "F360M", dec 2557881113 9, dec 483740855 8);
    (2, "F410M", dec 25186954019999996 16, dec 4759037127 9);
    (2, "F430M", dec 25362614100000003 16, dec 4541488865 9);
    (2, "F444W", dec 25011293930000003 16, dec 4899565197 9);
    (2, "F460M", dec 2575447122 9, dec 4883350419 9);
    (2, "F480M", dec 2549773725 9, dec 4899565197 9) ]%Z.

Section Wavelengthrange.

Variable utcnow : string.
Variable validate : WavelengthrangeModel -> result unit.

(** The reference object at the point of [ref.validate()]. *)
Definition wfss_wavelengthrange_ref (outname history author : string)
  (wavelengthrange : option (list range_entry))
  (extract_orders : option (list (string * list Z)))
  : result WavelengthrangeModel :=
  ref_kw <- common_reference_file_keywords
              (Some "wavelengthrange") (Some "NIRCAM WFSS reference file")
              (Some "NIRCAM Grism-Filter Wavelength Ranges")
              (Some "NRC_WFSS") author default_useafter
              None None (Some "ANY")
              [("model_type", "WavelengthrangeModel"); ("filename", outname)] ;;
  let wavelengthrange :=
    match wavelengthrange with
    | None => wfss_wavelengthrange
    | Some w => w
    end in
  let orders := sorted_set Z.eqb Z.leb (map entry_order wavelengthrange) in
  let filters :=
    sorted_set String.eqb String.leb (map entry_filter wavelengthrange) in
  let extract_orders :=
    match extract_orders with
    | None => map (fun f => (f, orders)) filters
    | Some e => e
    end in
  let software :=
    mkSoftware "nircam_reftools.py" author
      "https://github.com/spacetelescope/jwreftools" "0.7.1" in
  Ok (mkWavelengthrange ref_kw "NRC_WFSS" "micron" "micron"
        wavelengthrange extract_orders orders filters
        [mkHistory history utcnow software]).

(** The call: validation comes first here, the file is written only when
    it passes. *)
Definition create_wfss_wavelengthrange (outname history author : string)
  (wavelengthrange : option (list range_entry))
  (extract_orders : option (list (string * list Z)))
  : result unit * list (string * WavelengthrangeModel) :=
  match wfss_wavelengthrange_ref outname history author wavelengthrange
          extract_orders with
  | Raise e => (Raise e, [])
  | Ok ref =>
      match validate ref with
      | Raise e => (Raise e, [])
      | Ok _ => (Ok tt, [(outname, ref)])
      end
  end.

End Wavelengthrange.

(* ================================================================== *)
(** ** Predicates and sample inputs used in the statements *)

(** A line as [readlines()] gives it, with its line end. *)
Definition nl (s : string) : string := (s ++ String Py.newline "")%string.

(** An exception other than [ValueError]. *)
Definition not_value_error (e : exn) : Prop :=
  match e with
  | ValueError _ => False
  | _ => True
  end.


(** Keys naming the filter and sensitivity files. *)
Definition auxiliary (key : string) : bool :=
  Str.contains "FILTER" key || Str.contains "SENSITIVITY" key.

Definition min_max_error (key : string) : exn :=
  ValueError ("Min/max values expected for " ++ key).

Definition three_token_file : filesystem :=
  fun _ => Some [nl "XRANGE_A -10 1e2"].

Definition bad_three_token_file : filesystem :=
  fun _ => Some [nl "XRANGE_A -10 high"].

Definition auxiliary_file : filesystem :=
  fun _ => Some [nl "INSTRUMENT NIRCAM"; nl "FILTER_A /no/number";
                 nl "SENSITIVITY_A NIRCam.A.1st.sensitivity.fits";
                 nl "MYFILTER 3.5"].

(** [f] is the model with the coefficients [a0] and [a1], as doubles:
    the line [t |-> a0 + a1 * t] in double arithmetic. *)
Definition forward_of (a0 a1 : pynum) (f : Polynomial1D) : Prop :=
  exists x0 x1,
    Py.float a0 = Ok x0 /\ Py.float a1 = Ok x1 /\ f = mkPoly 1 x0 x1
    /\ forall t, evaluate f t = Double.add x0 (Double.mul x1 t).

(** When the slope [a1] is not zero, [g] is the model with the
    coefficients [-a0/a1] and [1./a1], each the result of one rounded
    division: the line [v |-> -a0/a1 + (1./a1) * v] in double arithmetic.
    When [a1] is zero, [g] has both coefficients zero and gives zero at
    every finite argument. *)
Definition inverse_of (a0 a1 : pynum) (g : Polynomial1D) : Prop :=
  (Py.eq_int a1 0 = false ->
   exists q0 q1,
     Py.truediv (Py.neg a0) a1 = Ok q0
     /\ Py.truediv (Flt Double.one) a1 = Ok q1 /\ g = mkPoly 1 q0 q1
     /\ forall v, evaluate g v = Double.add q0 (Double.mul q1 v))
  /\ (Py.eq_int a1 0 = true ->
      g = mkPoly 1 Double.zero Double.zero
      /\ forall v, Double.is_finite v = true -> evaluate g v = Double.zero).




Definition wfss_filters : list string :=
  ["F250M"; "F277W"; "F300M"; "F322W2"; "F335M"; "F356W"; "F360M"; "F410M";
   "F430M"; "F444W"; "F460M"; "F480M"].

(** A character that is no separator: neither whitespace nor a comma. *)
Definition plain_char (c : ascii) : bool :=
  negb (Str.is_space c) && negb (Ascii.eqb c ",").

Definition plain (s : string) : bool := Str.all_chars plain_char s.

(** The line [key value] of a configuration file. *)
Definition key_value_line (key val : string) : string :=
  nl (key ++ String " " val).

Definition int_error (o : string) : exn :=
  ValueError ("invalid literal for int() with base 10: " ++ Py.repr o).

(** The configuration file of one beam: its six coefficient lines. *)
Definition minimal_conf (beam : string) (l0 l1 x0 x1 y0 y1 : string)
  : list string :=
  [ key_value_line ("DISPL_" ++ beam ++ "_0") l0;
    key_value_line ("DISPL_" ++ beam ++ "_1") l1;
    key_value_line ("DISPX_" ++ beam ++ "_0") x0;
    key_value_line ("DISPX_" ++ beam ++ "_1") x1;
    key_value_line ("DISPY_" ++ beam ++ "_0") y0;
    key_value_line ("DISPY_" ++ beam ++ "_1") y1 ].

Definition beam_A_name : string := "NIRCAM_F444W_modA_R.conf".

Definition beam_A_files : filesystem :=
  fun name =>
    if String.eqb name beam_A_name
    then Some (minimal_conf "A" "0" "2" "1.5" "0" "0" "-3e-1")
    else None.

Fixpoint zeros (n : nat) : string :=
  match n with
  | O => EmptyString
  | S k => String "0" (zeros k)
  end.

(** The file of beam [+1] whose first coefficient is the integer
    [10^400]. *)
Definition huge_files : filesystem :=
  fun name =>
    if String.eqb name beam_A_name
    then Some (minimal_conf "+1" (String "1" (zeros 400)) "2" "1.5" "0" "0"
                 "-3e-1")
    else None.

Definition plus1_files : filesystem :=
  fun name =>
    if String.eqb name beam_A_name
    then Some (minimal_conf "+1" "0" "2" "1.5" "0" "0" "-3e-1")
    else None.

Definition reversed_plus1_files : filesystem :=
  fun name =>
    if String.eqb name beam_A_name
    then Some (List.rev (minimal_conf "+1" "0" "2" "1.5" "0" "0" "-3e-1"))
    else None.

Definition accept {A : Type} (_ : A) : result unit := Ok tt.

(** A [key value] line together with the number its value denotes. *)
Definition entry : Type := string * string * pynum.

Definition entry_line (e : entry) : string :=
  key_value_line (fst (fst e)) (snd (fst e)).

Definition entry_item (e : entry) : string * pyval :=
  (fst (fst e), PNum (snd e)).

Definition entry_good (e : entry) : Prop :=
  letters_match (fst (fst e)) = true /\ plain (fst (fst e)) = true
  /\ auxiliary (fst (fst e)) = false /\ Py.eval (snd (fst e)) = Ok (snd e).

Definition set_item (c : Dict.t pyval) (kv : string * pyval) : Dict.t pyval :=
  Dict.set (fst kv) (snd kv) c.

Definition plus1_entries (tl0 tl1 tx0 tx1 ty0 ty1 : string)
  (l0 l1 x0 x1 y0 y1 : pynum) : list entry :=
  [ ("DISPL_+1_0", tl0, l0); ("DISPL_+1_1", tl1, l1);
    ("DISPX_+1_0", tx0, x0); ("DISPX_+1_1", tx1, x1);
    ("DISPY_+1_0", ty0, y0); ("DISPY_+1_1", ty1, y1) ].

Definition no_entry : entry := ("", "", Int 0).

(** The entries of [base] at the positions [p]. *)
Definition pick (base : list entry) (p : list nat) : list entry :=
  map (fun i => nth i base no_entry) p.

(** All the orders in which a list can be written. *)
Fixpoint inserts {A : Type} (x : A) (l : list A) : list (list A) :=
  match l with
  | [] => [[x]]
  | y :: r => (x :: l) :: map (cons y) (inserts x r)
  end.

Fixpoint perms {A : Type} (l : list A) : list (list A) :=
  match l with
  | [] => [[]]
  | x :: r => flat_map (inserts x) (perms r)
  end.

(* ================================================================== *)
(** ** create_tsgrism_wavelengthrange *)

(** The built-in table of the time-series mode. *)
Definition tsgrism_wavelengthrange : list range_entry :=
  [ (1, "F277W", dec 2500411072 9, dec 3807062006 9);
    (1, "F322W2", dec 25011293930000003 16, dec 4215842089 9);
    (1, "F356W", dec 3001085025 9, dec 4302320901 9);
    (1, "F444W", dec 3696969216 9, dec 4899565197 9);
    (2, "F277W", dec 2500411072 9, dec 32642254050000004 16);
    (2, "F322W2", dec 25011293930000003 16, dec 4136119434 9);
    (2, "F356W", dec 2529505253 9, dec 4133416971 9);
    (2, "F444W", dec 25011293930000003 16, dec 4899565197 9) ]%Z.

(** The built-in extraction orders of the time-series mode. *)
Definition tsgrism_extract_orders : list (string * list Z) :=
  [ ("F277W", [1]); ("F322W2", [1]); ("F356W", [1]); ("F444W", [1]) ]%Z.

Section TsgrismWavelengthrange.

Variable utcnow : string.
Variable validate : WavelengthrangeModel -> result unit.

(** The reference object at the point of [ref.validate()]. *)
Definition tsgrism_wavelengthrange_ref (outname history author : string)
  (wavelengthrange : option (list range_entry))
  (extract_orders : option (list (string * list Z)))
  : result WavelengthrangeModel :=
  ref_kw <- common_reference_file_keywords
              (Some "wavelengthrange") (Some "NIRCAM TSGRISM reference file")
              (Some "NIRCAM Grism-Filter Wavelength Ranges")
              (Some "NRC_TSGRISM") author default_useafter
              None None (Some "ANY")
              [("model_type", "WavelengthrangeModel"); ("filename", outname)] ;;
  let wavelengthrange :=
    match wavelengthrange with
    | None => tsgrism_wavelengthrange
    | Some w => w
    end in
  let orders := sorted_set Z.eqb Z.leb (map entry_order wavelengthrange) in
  let filters :=
    sorted_set String.eqb String.leb (map entry_filter wavelengthrange) in
  let extract_orders :=
    match extract_orders with
    | None => tsgrism_extract_orders
    | Some e => e
    end in
  let software :=
    mkSoftware "nircam_reftools.py" author
      "https://github.com/spacetelescope/jwreftools" "0.7.1" in
  Ok (mkWavelengthrange ref_kw "NRC_TSGRISM" "micron" "micron"
        wavelengthrange extract_orders orders filters
        [mkHistory history utcnow software]).

(** The call: validation first, then the file. *)
Definition create_tsgrism_wavelengthrange (outname history author : string)
  (wavelengthrange : option (list range_entry))
  (extract_orders : option (list (string * list Z)))
  : result unit * list (string * WavelengthrangeModel) :=
  match tsgrism_wavelengthrange_ref outname history author wavelengthrange
          extract_orders with
  | Raise e => (Raise e, [])
  | Ok ref =>
      match validate ref with
      | Raise e => (Raise e, [])
      | Ok _ => (Ok tt, [(outname, ref)])
      end
  end.

End TsgrismWavelengthrange.

(* ================================================================== *)
(** ** Further predicates used in the statements *)

(** Strictly increasing, for the order [leb]. *)
Definition below {A : Type} (leb : A -> A -> bool) (x y : A) : Prop :=
  leb x y = true /\ x <> y.

Definition increasing {A : Type} (leb : A -> A -> bool) (l : list A) : Prop :=
  StronglySorted (below leb) l.

(** A line the reader passes over: blank, or not starting with a
    letter. *)
Definition passed_over (line : string) : bool :=
  empty_match line || negb (letters_match line).

(** The values the reader stores: a string that starts with a letter, a
    number, or a pair of numbers. *)
Definition stored_value (v : pyval) : Prop :=
  (exists s, v = PStr s /\ letters_match s = true)
  \/ (exists n, v = PNum n)
  \/ (exists a b, v = PTuple (PNum a) (PNum b)).

Definition no_space (s : string) : bool :=
  Str.all_chars (fun c => negb (Str.is_space c)) s.

Definition commented_file : filesystem :=
  fun _ => Some [nl "# aXe configuration"; nl ""; nl "INSTRUMENT NIRCAM";
                 nl "   "; nl "1st order"; nl "XOFF_A 0.0"].

Definition uncommented_file : filesystem :=
  fun _ => Some [nl "INSTRUMENT NIRCAM"; nl "XOFF_A 0.0"].

Definition rewritten_file : filesystem :=
  fun _ => Some [nl "XOFF_A 1.5"; nl "YOFF_A 2"; key_value_line "XOFF_A" "-3"].

Definition starts_with_e (s : string) : bool :=
  match s with
  | String c _ => Py.is_e c
  | EmptyString => false
  end.

Definition string_value_file : filesystem :=
  fun _ => Some [key_value_line "INSTRUMENT" "NIRCAM"].

Definition exponent_name_file : filesystem :=
  fun _ => Some [key_value_line "GRISM" "E2"].

Definition path_value_file : filesystem :=
  fun _ => Some [nl "XOFF_A 1.5"; key_value_line "TABLE" "/data/t.fits";
                 nl "ALONE"].

(** The shape of a mapping under construction by the reader. *)
Definition well_read (content : Dict.t pyval) : Prop :=
  NoDup (Dict.keys content)
  /\ forall k v, In (k, v) content ->
                 letters_match k = true /\ no_space k = true
                 /\ auxiliary k = false /\ stored_value v.

Definition mixed_file : filesystem :=
  fun _ => Some [nl "INSTRUMENT NIRCAM"; nl "XRANGE_A -10 1e2";
                 nl "XOFF_A 1.5"; nl "XOFF_A 2"].

(** One beam's contribution to the six lists. *)
Definition beam_models (d : Dict.t pyval) (s : models) : Prop :=
  order_models d no_models = Ok s
  /\ List.length (m_displ s) = 1 /\ List.length (m_dispx s) = 1
  /\ List.length (m_dispy s) = 1 /\ List.length (m_invdispl s) = 1
  /\ List.length (m_invdispx s) = 1 /\ List.length (m_invdispy s) = 1.

Definition append_models (m s : models) : models :=
  mkModels (m_invdispl m ++ m_invdispl s) (m_invdispx m ++ m_invdispx s)
    (m_invdispy m ++ m_invdispy s) (m_displ m ++ m_displ s)
    (m_dispx m ++ m_dispx s) (m_dispy m ++ m_dispy s).

Definition has_char (c : ascii) (s : string) : bool :=
  negb (Str.all_chars (fun x => negb (Ascii.eqb x c)) s).

Definition two_beam_files : filesystem :=
  fun name =>
    if String.eqb name beam_A_name
    then Some (minimal_conf "+1" "0" "2" "1.5" "0" "0" "-3e-1"
               ++ minimal_conf "+2" "1" "4" "0" "1" "2" "0")
    else None.

Definition no_dispy_files : filesystem :=
  fun name =>
    if String.eqb name beam_A_name
    then Some [key_value_line "DISPL_+1_0" "0"; key_value_line "DISPL_+1_1" "2";
               key_value_line "DISPX_+1_0" "1"; key_value_line "DISPX_+1_1" "0"]
    else None.

(** The error of reading a local before its first assignment. *)
Definition unbound_error (e : exn) : Prop :=
  exists var, e = UnboundLocalError var.

(** Every inner dictionary has each key once. *)
Definition tidy (rd : beamdict) : Prop :=
  Forall (fun bd => NoDup (Dict.keys (snd bd))) rd.

Definition spaceless {V : Type} (d : Dict.t V) : Prop :=
  Forall (fun k => no_space k = true) (Dict.keys d).

Definition newline_key_dict : Dict.t pyval :=
  [(nl "WX_A_0", PNum (Int 1)); ("WX_A_1", PNum (Int 2))].

Definition three_beam_dict : Dict.t pyval :=
  [("DISPL_+1_0", PNum (Int 1)); ("INSTRUMENT", PStr "NIRCAM");
   ("DISPL_b_0", PNum (Int 3)); ("DISPL_+1_1", PNum (Int 2));
   ("DISPL_B_1", PNum (Int 4));
   ("XOFF_+2", PNum (Int 0))].

Definition lone_suffix_file : filesystem :=
  fun _ => Some [nl "# one line of a pair"; nl "DISPX_+1_0 3"].

(** The two members of the range pair of root [R]. *)
Definition member0 (R : string) : string := (R ++ "_0")%string.
Definition member1 (R : string) : string := (R ++ "_1")%string.

(** The range keys of a beam's mapping. *)
Definition range_keys (d : Dict.t pyval) : list string :=
  filter rangekey_match (Dict.keys d).

(** Both members of every pair are there. *)
Definition pairs_complete (d : Dict.t pyval) : Prop :=
  forall k, In k (range_keys d) ->
            In (member0 (root_of k)) (Dict.keys d)
            /\ In (member1 (root_of k)) (Dict.keys d).

(** No root occurs inside a range key of another root. *)
Definition roots_apart (d : Dict.t pyval) : Prop :=
  forall k m, In k (range_keys d) -> In m (range_keys d) ->
              Str.contains (root_of k) m = true -> root_of m = root_of k.

Definition grism_beam : Dict.t pyval :=
  [("DISPL_0", PNum (Int 1)); ("XOFF", PNum (Int 0)); ("DISPX_1", PNum (Int 4));
   ("DISPL_1", PNum (Int 2)); ("DISPX_0", PNum (Int 3));
   ("DYDX_2", PNum (Int 7))].

(** [v] is the tuple of the two members of root [R] in [d]. *)
Definition merged (d : Dict.t pyval) (R : string) (v : pyval) : Prop :=
  exists v0 v1,
    Dict.lookup (member0 R) d = Some v0
    /\ Dict.lookup (member1 R) d = Some v1 /\ v = PTuple v0 v1.

(** [odict] holds merged pairs of [d] only. *)
Definition holds_pairs (d odict : Dict.t pyval) : Prop :=
  forall R v, Dict.lookup R odict = Some v ->
              (exists k, In k (range_keys d) /\ root_of k = R)
              /\ merged d R v.

(** A beam's mapping with the two pairs of roots [S] and [R]. *)
Definition two_pairs (R S : string) (a b c e : pyval) : Dict.t pyval :=
  [(member0 S, a); (member1 S, b); (member0 R, c); (member1 R, e)].


(* ================================================================== *)
(** * Properties *)

(** ** The builtins and the patterns on sample strings *)

Example eval_numeric_tokens :
  Py.eval "3" = Ok (Int 3) /\ Py.eval "-10" = Ok (Int (-10))
  /\ Py.eval "00" = Ok (Int 0) /\ Py.eval "007" = Raise (EvalError "007")
  /\ Py.eval "3.5" = Ok (Flt (Double.of_frac 7 2))
  /\ Py.eval "-1e-2" = Ok (Flt (Double.of_frac (-1) 100))
  /\ Py.eval "+.5" = Ok (Flt (Double.of_frac 1 2))
  /\ Py.eval "1." = Ok (Flt Double.one)
  /\ Py.eval "0.1" = Ok (Flt (S754_finite false 7205759403792794 (-56)))
  /\ Py.eval "-0.0" = Ok (Flt (S754_zero true))
  /\ Py.eval "1e400" = Ok (Flt (S754_infinity false))
  /\ Py.eval "1e-400" = Ok (Flt Double.zero)
  /\ Py.eval "e5" = Raise (EvalError "e5")
  /\ Py.eval "" = Raise (EvalError "").
Proof. repeat split; vm_compute; reflexivity. Qed.

Example double_arithmetic :
  Double.of_Z (2 ^ 53 + 1) = Double.of_Z (2 ^ 53)
  /\ Double.of_Z (2 ^ 1024 - 2 ^ 970 - 1)
     = S754_finite false 9007199254740991 971
  /\ Py.float (Int (2 ^ 1024 - 2 ^ 970)) = Raise OverflowError
  /\ Py.truediv (Int 1) (Int 3)
     = Ok (S754_finite false 6004799503160661 (-54))
  /\ Py.truediv (Int 0) (Int (-3)) = Ok (S754_zero true)
  /\ Py.truediv (Int (10 ^ 400)) (Int (10 ^ 399)) = Ok (Double.of_Z 10)
  /\ Py.truediv (Int (10 ^ 400)) (Int 1) = Raise OverflowError
  /\ Py.truediv (Int (10 ^ 400)) (Flt Double.one) = Raise OverflowError
  /\ Py.truediv (Flt Double.one) (Flt Double.zero) = Raise ZeroDivisionError.
Proof. repeat split; vm_compute; reflexivity. Qed.

Example repr_quotes :
  Py.repr "A" = "'A'"
  /\ Py.repr "a'b" = String Py.dquote ("a'b" ++ String Py.dquote "")
  /\ Py.repr (String Py.dquote "'") = String "'" (String Py.dquote "\''")
  /\ Py.repr (String Py.newline (String Py.backslash ""))
     = String "'" (String Py.backslash
                     (String "n" (String Py.backslash
                                    (String Py.backslash "'"))))
  /\ Py.repr (String (ascii_of_nat 28) "") = "'\x1c'".
Proof. repeat split; reflexivity. Qed.

Example int_beam_tokens :
  Py.int "+1" = Ok 1%Z /\ Py.int "-2" = Ok (-2)%Z /\ Py.int " 12 " = Ok 12%Z
  /\ Py.int "1_0" = Ok 10%Z
  /\ Py.int (String (ascii_of_nat 28) "1")
     = Raise (ValueError "invalid literal for int() with base 10: '\x1c1'")
  /\ Py.int "A" = Raise (ValueError
                           "invalid literal for int() with base 10: 'A'")
  /\ Py.int "" = Raise (ValueError
                          "invalid literal for int() with base 10: ''").
Proof. repeat split; reflexivity. Qed.

Example re_split_lines :
  re_split "KEY 3.5" 3 = ["KEY"; "3.5"]
  /\ re_split "KEY a,b" 3 = ["KEY"; "a"; "b"]
  /\ re_split "KEY 1,000" 3 = ["KEY"; "1,000"]
  /\ re_split "KEY   1 ,2" 3 = ["KEY"; "1"; ",2"]
  /\ re_split "a, b" 3 = ["a"; ""; "b"]
  /\ re_split "A b c d e" 3 = ["A"; "b"; "c"; "d e"].
Proof. repeat split; reflexivity. Qed.

Example key_patterns :
  token_match "DISPL_+1_0" = true /\ token_match "WX_A_0" = true
  /\ token_match "INSTRUMENT" = false /\ token_match "1_A" = false
  /\ rangekey_match "WX_0" = true /\ rangekey_match "WX_1" = true
  /\ rangekey_match "WX_7" = false /\ rangekey_match "WX_A_0" = false
  /\ beam_of "DISPL_+1_0" = Ok "+1" /\ beam_of "wx_a_0" = Ok "A"
  /\ Str.remove_all "_1" "DISPL_1_1" = "DISPL"
  /\ Str.remove_all "_+1" "DISPL_+1_1" = "DISPL_1".
Proof. repeat split; reflexivity. Qed.

(** ** The result monad *)

Lemma bind_Ok {A B : Type} (m : result A) (k : A -> result B) (b : B) :
  bind m k = Ok b -> exists a, m = Ok a /\ k a = Ok b.
Proof.
  destruct m as [a|e]; simpl; intros H; [exists a; auto | discriminate].
Qed.

Lemma bind_Raise {A B : Type} (m : result A) (k : A -> result B) (e : exn) :
  bind m k = Raise e -> m = Raise e \/ exists a, m = Ok a /\ k a = Raise e.
Proof.
  destruct m as [a|e']; simpl; intros H.
  - right; exists a; auto.
  - left; congruence.
Qed.

Lemma of_option_not_value_error {A : Type} (e0 e : exn) (o : option A) :
  not_value_error e0 -> of_option e0 o = Raise e -> not_value_error e.
Proof.
  destruct o; simpl; intros H E; [discriminate | congruence].
Qed.

(** Splits a hypothesis [bind m k = Raise e] into its two cases, naming
    the intermediate value and equations. *)
Ltac raise_cases H a Ha :=
  apply bind_Raise in H; destruct H as [H | [a [Ha H]]].

(** ** Range keys end in 0, 1 or a line end *)

Lemma last_char_drop_while (p : ascii -> bool) (s : string) :
  Str.drop_while p s <> "" ->
  Str.last_char s = Str.last_char (Str.drop_while p s).
Proof.
  induction s as [|c r IH]; simpl; intros H; [reflexivity|].
  destruct (p c); [|reflexivity].
  rewrite <- (IH H).
  destruct r; [simpl in H; congruence | reflexivity].
Qed.

Lemma rangekey_last_char (k : string) :
  rangekey_match k = true ->
  Str.last_char k = Some "0"%char \/ Str.last_char k = Some "1"%char
  \/ Str.last_char k = Some Py.newline.
Proof.
  unfold rangekey_match; intros H.
  assert (N : Str.drop_while Str.is_letter k <> "")
    by (intros E; rewrite E in H; simpl in H; discriminate H).
  rewrite (last_char_drop_while Str.is_letter k N); clear N.
  destruct (Str.drop_while Str.is_letter k) as [|u [|d rest]];
    try discriminate.
  apply andb_prop in H; destruct H as [H Hr].
  apply andb_prop in H; destruct H as [_ Hd].
  apply orb_prop in Hr; destruct Hr as [Hr | Hr];
    apply String.eqb_eq in Hr; subst rest.
  - apply orb_prop in Hd; destruct Hd as [Hd | Hd];
      apply Ascii.eqb_eq in Hd; subst d; simpl; auto.
  - simpl; auto.
Qed.

Lemma eval_range_digit (k : string) (c : ascii) :
  rangekey_match k = true -> Str.last_char k = Some c ->
  Py.eval (String c "") = Ok (Int 0) \/ Py.eval (String c "") = Ok (Int 1)
  \/ Py.eval (String c "") = Raise (EvalError (String c "")).
Proof.
  intros Hk Hc.
  destruct (rangekey_last_char k Hk) as [H | [H | H]];
    rewrite H in Hc; injection Hc as <-; vm_compute; auto.
Qed.

(** ** [split_order_info] never raises a [ValueError] *)

Lemma bind_members_no_value_error (d : Dict.t pyval) (mlist : list string) :
  Forall (fun m => rangekey_match m = true) mlist ->
  forall st e, bind_members d mlist st = Raise e -> not_value_error e.
Proof.
  induction 1 as [|mk r Hmk Hr IH]; simpl; intros st e H; [discriminate|].
  raise_cases H c Hc.
  { eapply of_option_not_value_error; [|exact H]; exact I. }
  destruct (Str.last_char mk) as [c'|] eqn:L; [|discriminate].
  injection Hc as ->.
  destruct (eval_range_digit mk c Hmk L) as [E | [E | E]];
    rewrite E in H; simpl in H.
  - raise_cases H v Hv.
    + unfold Dict.get in H.
      eapply of_option_not_value_error; [|exact H]; exact I.
    + eauto.
  - raise_cases H v Hv.
    + unfold Dict.get in H.
      eapply of_option_not_value_error; [|exact H]; exact I.
    + eauto.
  - injection H as <-; exact I.
Qed.

Lemma read_pair_no_value_error (st : locals) (e : exn) :
  read_pair st = Raise e -> not_value_error e.
Proof.
  unfold read_pair; intros H.
  raise_cases H z Hz.
  { eapply of_option_not_value_error; [|exact H]; exact I. }
  raise_cases H o Ho; [|discriminate].
  eapply of_option_not_value_error; [|exact H]; exact I.
Qed.

Lemma fold_ranges_no_value_error (d : Dict.t pyval) (rkeys : list string) :
  Forall (fun m => rangekey_match m = true) rkeys ->
  forall ks odict st e,
    fold_ranges d rkeys ks odict st = Raise e -> not_value_error e.
Proof.
  intros Hr ks; induction ks as [|k r IH]; simpl; intros odict st e H;
    [discriminate|].
  raise_cases H m0 Hm0.
  { eapply of_option_not_value_error; [|exact H]; exact I. }
  destruct (negb (Dict.mem (root_of m0) odict)); [|eauto].
  raise_cases H st' Hst'.
  { eapply bind_members_no_value_error; [|exact H].
    apply Forall_forall; intros m Hm.
    apply filter_In in Hm; destruct Hm as [Hm _].
    revert m Hm; apply Forall_forall; exact Hr. }
  raise_cases H tup Htup; [eapply read_pair_no_value_error; eauto | eauto].
Qed.

Lemma del_keys_no_value_error (ks : list string) :
  forall d e, del_keys ks d = Raise e -> not_value_error e.
Proof.
  induction ks as [|k r IH]; simpl; intros d e H; [discriminate|].
  raise_cases H d' Hd'; [|eauto].
  unfold Dict.del in H; destruct (Dict.mem k d); [discriminate|].
  injection H as <-; exact I.
Qed.

Lemma fold_beam_no_value_error (d : Dict.t pyval) (st : locals) (e : exn) :
  fold_beam d st = Raise e -> not_value_error e.
Proof.
  unfold fold_beam; intros H.
  raise_cases H p Hp.
  { eapply fold_ranges_no_value_error; [|exact H].
    apply Forall_forall; intros m Hm; apply filter_In in Hm; tauto. }
  destruct p as [odict st'].
  raise_cases H d' Hd'; [|discriminate].
  eapply del_keys_no_value_error; eauto.
Qed.

Lemma fold_beams_no_value_error (rd : beamdict) :
  forall st e, fold_beams rd st = Raise e -> not_value_error e.
Proof.
  induction rd as [|[b d] r IH]; simpl; intros st e H; [discriminate|].
  raise_cases H p Hp; [eapply fold_beam_no_value_error; eauto|].
  destruct p as [d' st'].
  raise_cases H r' Hr'; [eauto | discriminate].
Qed.

Lemma beam_of_no_value_error (key : string) (e : exn) :
  beam_of key = Raise e -> not_value_error e.
Proof.
  unfold beam_of; intros H.
  raise_cases H b Hb; [|discriminate].
  eapply of_option_not_value_error; [|exact H]; exact I.
Qed.

Lemma prefetch_beams_no_value_error (ks : list string) :
  forall beams e, prefetch_beams ks beams = Raise e -> not_value_error e.
Proof.
  induction ks as [|k r IH]; simpl; intros beams e H; [discriminate|].
  destruct (token_match k); [|eauto].
  raise_cases H b Hb; [eapply beam_of_no_value_error; eauto|].
  destruct (existsb (String.eqb b) beams); eauto.
Qed.

Lemma assign_keys_no_value_error (items : Dict.t pyval) :
  forall rdict e, assign_keys items rdict = Raise e -> not_value_error e.
Proof.
  induction items as [|[k v] r IH]; simpl; intros rdict e H; [discriminate|].
  destruct (token_match k); [|eauto].
  raise_cases H b Hb; [eapply beam_of_no_value_error; eauto|].
  raise_cases H d Hd; [|eauto].
  unfold Dict.get in H.
  eapply of_option_not_value_error; [|exact H]; exact I.
Qed.

Lemma split_order_info_no_value_error (keydict : Dict.t pyval) (e : exn) :
  split_order_info (Mapping keydict) = Raise e -> not_value_error e.
Proof.
  unfold split_order_info; intros H.
  raise_cases H beams Hb; [eapply prefetch_beams_no_value_error; eauto|].
  raise_cases H rdict Hr; [eapply assign_keys_no_value_error; eauto|].
  eapply fold_beams_no_value_error; eauto.
Qed.

(** ** Keys without a beam play no part in [split_order_info] *)




(** ** Claims about [split_order_info] *)

(** C1.  A range root with only one of its two suffixed keys is not
    dropped silently.  Alone in its call, the lone [WX_A_0] makes the
    function read the local [one] before any assignment, and the lone
    [WX_A_1] the local [zero]; after a complete pair of the same call, the
    lone [WX_A_0] is merged under [WX] with the previous pair's second
    value. *)
Theorem split_order_info_lone_suffix :
  (forall v, split_order_info (Mapping [("WX_A_0", v)])
             = Raise (UnboundLocalError "one"))
  /\ (forall v, split_order_info (Mapping [("WX_A_1", v)])
                = Raise (UnboundLocalError "zero"))
  /\ (forall a b c,
        split_order_info
          (Mapping [("DISPL_A_0", a); ("DISPL_A_1", b); ("WX_A_0", c)])
        = Ok [("A", [("DISPL", PTuple a b); ("WX", PTuple c b)])]).
Proof.
  repeat split; intros; reflexivity.
Qed.

(** The lone key [WX_A_7] is filed under beam [A] as [WX_7] and the call
    returns. *)
Lemma split_order_info_digit7_returns :
  split_order_info (Mapping [("WX_A_7", PNum (Flt Double.one))])
  = Ok [("A", [("WX_7", PNum (Flt Double.one))])]
  /\ ~ (exists msg,
          split_order_info (Mapping [("WX_A_7", PNum (Flt Double.one))])
          = Raise (ValueError msg)).
Proof.
  split; [reflexivity|].
  intros [msg H]; vm_compute in H; discriminate H.
Qed.

(** C2.  The error "Unexpected range variable" is never raised, although
    the loop holds the statement that raises it: the only [ValueError]
    of [split_order_info] is the one for an argument that is not a
    dictionary.  The range-key pattern admits the digits 0 and 1 only, so
    a key whose stripped form ends in another digit never reaches the
    test: alone in its dictionary, it is kept, under its stripped name,
    in its beam's mapping. *)
Theorem split_order_info_no_unexpected_range :
  (forall a msg,
      split_order_info a = Raise (ValueError msg) ->
      a = NotADict /\ msg = "Expected an input dictionary")
  /\ (forall c v,
        Str.is_digit c = true -> c <> "0"%char -> c <> "1"%char ->
        split_order_info (Mapping [(("WX_A_" ++ String c "")%string, v)])
        = Ok [("A", [(("WX_" ++ String c "")%string, v)])]).
Proof.
  split.
  - intros [keydict|] msg H.
    + destruct (split_order_info_no_value_error keydict _ H).
    + injection H as <-; auto.
  - intros c v Hd H0 H1.
    destruct c as [[] [] [] [] [] [] [] []];
      try discriminate Hd; try (exfalso; apply H0; reflexivity);
      try (exfalso; apply H1; reflexivity); reflexivity.
Qed.

Lemma split_order_info_no_unexpected_range_witness :
  (Str.is_digit "7" = true /\ "7"%char <> "0"%char /\ "7"%char <> "1"%char)
  /\ split_order_info (Mapping [("WX_A_7", PNum (Flt Double.one))])
     = Ok [("A", [("WX_7", PNum (Flt Double.one))])]
  /\ forall a, split_order_info a
               <> Raise (ValueError "Unexpected range variable WX_7").
Proof.
  split; [|split].
  - repeat split; [intros H; discriminate H | intros H; discriminate H].
  - apply (proj2 split_order_info_no_unexpected_range "7"%char
             (PNum (Flt Double.one)));
      [reflexivity | intros H; discriminate H | intros H; discriminate H].
  - intros a H.
    destruct (proj1 split_order_info_no_unexpected_range a _ H) as [_ E].
    discriminate E.
Defined.




(** ** Strings: reversal, stripping and the first piece of a split *)

Lemma letter_not_space (c : ascii) :
  Str.is_letter c = true -> Str.is_space c = false.
Proof.
  destruct c as [[] [] [] [] [] [] [] []]; vm_compute; congruence.
Qed.

Lemma letter_not_comma (c : ascii) :
  Str.is_letter c = true -> Ascii.eqb c "," = false.
Proof.
  destruct c as [[] [] [] [] [] [] [] []]; vm_compute; congruence.
Qed.

Lemma rev_acc_app_last (x : string) (c : ascii) :
  forall acc,
    Str.rev_acc (x ++ String c "") acc = String c (Str.rev_acc x acc).
Proof.
  induction x as [|a x IH]; intros acc; simpl; [reflexivity | apply IH].
Qed.

Lemma drop_while_app_last (c : ascii) (x : string) :
  Str.is_space c = false ->
  exists x',
    Str.drop_while Str.is_space (x ++ String c "")
    = (x' ++ String c "")%string.
Proof.
  intros Hc; induction x as [|a x IH]; simpl.
  - rewrite Hc; exists ""; reflexivity.
  - destruct (Str.is_space a); [exact IH | exists (String a x); reflexivity].
Qed.

Lemma rev_acc_spec (s : string) :
  forall acc, Str.rev_acc s acc = (Str.rev_acc s "" ++ acc)%string.
Proof.
  induction s as [|c r IH]; intros acc; simpl; [reflexivity|].
  rewrite (IH (String c acc)), (IH (String c "")).
  generalize (Str.rev_acc r "") as x; intros x.
  induction x as [|a x IHx]; simpl; [reflexivity | now rewrite IHx].
Qed.

Lemma strip_head (c : ascii) (r : string) :
  Str.is_space c = false -> exists r', Str.strip (String c r) = String c r'.
Proof.
  intros Hc; unfold Str.strip; simpl; rewrite Hc.
  unfold Str.rev at 2; simpl; rewrite rev_acc_spec.
  destruct (drop_while_app_last c (Str.rev_acc r "") Hc) as [x' ->].
  unfold Str.rev; rewrite rev_acc_app_last; eauto.
Qed.

Lemma re_split_aux_head (s : string) :
  forall prev budget cur c0,
    exists k rest,
      re_split_aux prev false budget s (cur ++ String c0 "")
      = String c0 k :: rest.
Proof.
  induction s as [|c r IH]; intros prev budget cur c0; simpl.
  - unfold Str.rev; rewrite rev_acc_app_last; eauto.
  - destruct budget as [|b].
    + unfold Str.rev; rewrite rev_acc_app_last; simpl; eauto.
    + destruct (Str.is_space c);
        [unfold Str.rev; rewrite rev_acc_app_last; eauto|].
      destruct (comma_sep prev c r);
        [unfold Str.rev; rewrite rev_acc_app_last; eauto|].
      apply (IH (Some c) (S b) (String c cur) c0).
Qed.

(** The key of a line that starts with a letter starts with that
    letter. *)
Lemma key_starts_with_letter (line key : string) (rest : list string) :
  letters_match line = true ->
  re_split (Str.strip line) 3 = key :: rest ->
  letters_match key = true.
Proof.
  destruct line as [|c r]; simpl; intros Hc H; [discriminate|].
  destruct (strip_head c r (letter_not_space c Hc)) as [r' E].
  rewrite E in H; unfold re_split in H; simpl in H.
  rewrite (letter_not_space c Hc) in H.
  unfold comma_sep in H; rewrite (letter_not_comma c Hc) in H; simpl in H.
  destruct (re_split_aux_head r' (Some c) 3 "" c) as [k [rest' E']].
  simpl in E'; rewrite E' in H; injection H as <- _; exact Hc.
Qed.

Lemma letters_not_empty (line : string) :
  letters_match line = true -> empty_match line = false.
Proof.
  destruct line as [|c r]; simpl; intros H; [discriminate|].
  unfold empty_match; simpl; now rewrite (letter_not_space c H).
Qed.

Lemma letters_match_nonempty (key : string) :
  letters_match key = true -> String.eqb key "" = false.
Proof.
  destruct key; simpl; [discriminate | reflexivity].
Qed.

(** ** Dictionaries *)

Lemma lookup_set_same {V : Type} (k : string) (v : V) (d : Dict.t V) :
  Dict.lookup k (Dict.set k v d) = Some v.
Proof.
  induction d as [|[k' v'] r IH]; simpl.
  - now rewrite String.eqb_refl.
  - destruct (String.eqb k k') eqn:E; simpl; rewrite E; [reflexivity | exact IH].
Qed.

Lemma lookup_set_other {V : Type} (k k' : string) (v : V) (d : Dict.t V) :
  k <> k' -> Dict.lookup k (Dict.set k' v d) = Dict.lookup k d.
Proof.
  intros N; apply String.eqb_neq in N.
  induction d as [|[k0 v0] r IH]; simpl.
  - now rewrite N.
  - destruct (String.eqb k' k0) eqn:E; simpl.
    + apply String.eqb_eq in E; subst k0; now rewrite N.
    + now rewrite IH.
Qed.

(** ** Reading lines *)

Lemma read_lines_app (a b : list string) :
  forall content,
    read_lines (a ++ b) content
    = (c <- read_lines a content ;; read_lines b c).
Proof.
  induction a as [|l a IH]; intros content; simpl; [reflexivity|].
  destruct (process_line content l); simpl; [apply IH | reflexivity].
Qed.

Lemma eval_ok_fullmatch (val : string) (n : pynum) :
  Py.eval val = Ok n -> Py.numbers_fullmatch val = true.
Proof.
  unfold Py.eval, Py.numbers_fullmatch.
  destruct (Py.parse_literal val); [reflexivity | discriminate].
Qed.

Lemma store_plain (content : Dict.t pyval) (key : string) (v : pyval) :
  letters_match key = true -> auxiliary key = false ->
  store content (Some key) (Some v) = Dict.set key v content.
Proof.
  unfold auxiliary, store; intros L A.
  rewrite (letters_match_nonempty key L); simpl.
  apply orb_false_elim in A; destruct A as [-> ->]; reflexivity.
Qed.

Lemma store_keeps_auxiliary (content : Dict.t pyval) (key : string)
  (k : option string) (v : option pyval) :
  auxiliary key = true ->
  Dict.lookup key (store content k v) = Dict.lookup key content.
Proof.
  unfold auxiliary, store; intros A.
  destruct k as [k|], v as [v|]; try reflexivity.
  destruct (negb (String.eqb k "")); [|reflexivity].
  destruct (Str.contains "FILTER" k) eqn:F; [reflexivity|].
  destruct (Str.contains "SENSITIVITY" k) eqn:S; [reflexivity|].
  simpl; apply lookup_set_other.
  intros ->; rewrite F, S in A; discriminate A.
Qed.

Lemma read_lines_keeps_auxiliary (key : string) (lines : list string) :
  auxiliary key = true ->
  forall content content',
    read_lines lines content = Ok content' ->
    Dict.lookup key content' = Dict.lookup key content.
Proof.
  intros A; induction lines as [|l r IH]; simpl; intros content content' H.
  - now injection H as <-.
  - apply bind_Ok in H; destruct H as [c1 [H1 H]].
    rewrite (IH _ _ H).
    unfold process_line in H1.
    apply bind_Ok in H1; destruct H1 as [[k v] [_ H1]].
    injection H1 as <-; now apply store_keeps_auxiliary.
Qed.

(** ** Claims about [dict_from_file] *)

Lemma read_line_three (line key val1 val2 : string) :
  letters_match line = true ->
  re_split (Str.strip line) 3 = [key; val1; val2] ->
  read_line line
  = if Py.numbers_fullmatch val1 && Py.numbers_fullmatch val2 then
      n1 <- Py.eval val1 ;;
      n2 <- Py.eval val2 ;;
      Ok (Some key, Some (PTuple (PNum n1) (PNum n2)))
    else Raise (min_max_error key).
Proof.
  intros L S; unfold read_line.
  rewrite (letters_not_empty line L), L, S; reflexivity.
Qed.

(** C6, as the claim states it, fails.  Both tokens of [FILTER 1 2] are
    numeric and the key is not bound; both tokens of [K . 1] are in the
    numeric grammar and evaluating the first one raises; and the line
    [ XRANGE_A -10 high], whose key starts with a letter after a blank,
    has a second token outside the grammar and is passed over without an
    error. *)
Lemma three_token_numeric_not_bound :
  (re_split (Str.strip (nl "FILTER 1 2")) 3 = ["FILTER"; "1"; "2"]
   /\ Py.numbers_fullmatch "1" = true /\ Py.numbers_fullmatch "2" = true
   /\ dict_from_file (fun _ => Some [nl "FILTER 1 2"]) "f.conf" = Ok [])
  /\ (re_split (Str.strip (nl "K . 1")) 3 = ["K"; "."; "1"]
      /\ Py.numbers_fullmatch "." = true /\ Py.numbers_fullmatch "1" = true
      /\ dict_from_file (fun _ => Some [nl "K . 1"]) "f.conf"
         = Raise (EvalError "."))
  /\ (re_split (Str.strip (nl " XRANGE_A -10 high")) 3
      = ["XRANGE_A"; "-10"; "high"]
      /\ Py.numbers_fullmatch "high" = false
      /\ dict_from_file (fun _ => Some [nl " XRANGE_A -10 high"]) "f.conf"
         = Ok []).
Proof.
  repeat split; reflexivity.
Qed.

(** C6, amended.  On a line that starts with a letter (the key, with
    nothing before it) and splits into three tokens:
    if the second or the third token is outside the numeric grammar,
    [dict_from_file] raises "Min/max values expected for <key>"; if both
    tokens evaluate to numbers and the key contains neither [FILTER] nor
    [SENSITIVITY], the key is bound to the tuple of the two values once
    the line is read. *)
Theorem three_token_line
  (fs : filesystem) (filename : string) (before after : list string)
  (content : Dict.t pyval) (line key val1 val2 : string) :
  fs filename = Some (before ++ line :: after) ->
  read_lines before Dict.empty = Ok content ->
  letters_match line = true ->
  re_split (Str.strip line) 3 = [key; val1; val2] ->
  (Py.numbers_fullmatch val1 = false \/ Py.numbers_fullmatch val2 = false ->
   process_line content line = Raise (min_max_error key)
   /\ dict_from_file fs filename = Raise (min_max_error key))
  /\ (forall n1 n2,
        Py.eval val1 = Ok n1 -> Py.eval val2 = Ok n2 ->
        auxiliary key = false ->
        let content' := Dict.set key (PTuple (PNum n1) (PNum n2)) content in
        process_line content line = Ok content'
        /\ read_lines (before ++ [line]) Dict.empty = Ok content'
        /\ Dict.lookup key content' = Some (PTuple (PNum n1) (PNum n2))).
Proof.
  intros F B L S; split.
  - intros Bad.
    assert (P : process_line content line = Raise (min_max_error key)).
    { unfold process_line; rewrite (read_line_three line key val1 val2 L S).
      destruct Bad as [-> | ->]; [reflexivity|].
      now rewrite andb_false_r. }
    split; [exact P|].
    unfold dict_from_file; rewrite F; simpl.
    rewrite read_lines_app, B; simpl; now rewrite P.
  - intros n1 n2 E1 E2 A content'.
    assert (P : process_line content line = Ok content').
    { unfold process_line; rewrite (read_line_three line key val1 val2 L S).
      rewrite (eval_ok_fullmatch val1 n1 E1), (eval_ok_fullmatch val2 n2 E2).
      simpl; rewrite E1, E2; simpl; f_equal.
      apply store_plain; [|exact A].
      exact (key_starts_with_letter line key [val1; val2] L S). }
    repeat split.
    + exact P.
    + rewrite read_lines_app, B; simpl; now rewrite P.
    + apply lookup_set_same.
Qed.

Lemma three_token_line_witness :
  process_line [] (nl "XRANGE_A -10 1e2")
  = Ok [("XRANGE_A", PTuple (PNum (Int (-10))) (PNum (Flt (Double.of_Z 100))))]
  /\ dict_from_file bad_three_token_file "f.conf"
     = Raise (ValueError "Min/max values expected for XRANGE_A").
Proof.
  split.
  - apply (proj2 (three_token_line three_token_file "f.conf" [] []
                    [] (nl "XRANGE_A -10 1e2") "XRANGE_A" "-10" "1e2"
                    eq_refl eq_refl eq_refl eq_refl)
                 (Int (-10)) (Flt (Double.of_Z 100)) eq_refl eq_refl eq_refl).
  - apply (proj1 (three_token_line bad_three_token_file "f.conf" [] []
                    [] (nl "XRANGE_A -10 high") "XRANGE_A" "-10" "high"
                    eq_refl eq_refl eq_refl eq_refl)).
    right; reflexivity.
Defined.

(** C7.  In the mapping [dict_from_file] returns, no key contains
    [FILTER] or [SENSITIVITY], whatever the lines of the file and their
    value tokens were. *)
Theorem dict_from_file_drops_auxiliary
  (fs : filesystem) (filename : string) (content : Dict.t pyval)
  (key : string) :
  dict_from_file fs filename = Ok content ->
  Str.contains "FILTER" key = true \/ Str.contains "SENSITIVITY" key = true ->
  Dict.lookup key content = None.
Proof.
  unfold dict_from_file; intros H A.
  apply bind_Ok in H; destruct H as [lines [_ H]].
  rewrite (read_lines_keeps_auxiliary key lines) with (content := Dict.empty)
                                                      (content' := content).
  - reflexivity.
  - unfold auxiliary; destruct A as [-> | ->];
      [reflexivity | apply orb_true_r].
  - exact H.
Qed.

Lemma dict_from_file_drops_auxiliary_witness :
  dict_from_file auxiliary_file "f.conf" = Ok [("INSTRUMENT", PStr "NIRCAM")]
  /\ Dict.lookup "MYFILTER" [("INSTRUMENT", PStr "NIRCAM")] = None.
Proof.
  split; [reflexivity|].
  apply (dict_from_file_drops_auxiliary auxiliary_file "f.conf"
           [("INSTRUMENT", PStr "NIRCAM")] "MYFILTER" eq_refl).
  left; reflexivity.
Defined.

(** C10.  A line that starts with a letter and splits into four tokens
    or more (the split stops after three separators, so four is the most)
    sets neither key nor value: reading it leaves the mapping as it was
    and raises nothing. *)
Theorem four_token_line_ignored
  (content : Dict.t pyval) (line : string) (rest : list string) :
  letters_match line = true ->
  4 <= List.length (re_split (Str.strip line) 3) ->
  process_line content line = Ok content
  /\ read_lines (line :: rest) content = read_lines rest content.
Proof.
  intros L N.
  assert (P : process_line content line = Ok content).
  { unfold process_line, read_line.
    rewrite (letters_not_empty line L), L; simpl.
    destruct (re_split (Str.strip line) 3) as [|a [|b [|c [|d l]]]];
      simpl in N; try lia; reflexivity. }
  split; [exact P | simpl; now rewrite P].
Qed.

Lemma four_token_line_ignored_witness :
  4 <= List.length (re_split (Str.strip (nl "BEAM_A  -10 20 30 40")) 3)
  /\ process_line [("K", PNum (Int 1))] (nl "BEAM_A  -10 20 30 40")
     = Ok [("K", PNum (Int 1))].
Proof.
  split; [vm_compute; lia|].
  apply (four_token_line_ignored [("K", PNum (Int 1))]
           (nl "BEAM_A  -10 20 30 40") [] eq_refl).
  vm_compute; lia.
Defined.

(** ** Claims about the dispersion models *)

Lemma float_representable (n : pynum) :
  Py.representable n = true -> exists x, Py.float n = Ok x.
Proof.
  destruct n as [z|x]; simpl; intros H; [|eauto].
  apply Z.ltb_lt in H.
  destruct (Z.leb_spec Py.float_limit (Z.abs z)) as [L | L]; [lia | eauto].
Qed.

Lemma neg_representable (n : pynum) :
  Py.representable (Py.neg n) = Py.representable n.
Proof.
  destruct n as [z|x]; simpl; [now rewrite Z.abs_opp | reflexivity].
Qed.

Lemma float_limit_pos : (0 < Py.float_limit)%Z.
Proof. reflexivity. Qed.

(** A division of numbers in range by a divisor that is not zero
    returns. *)
Lemma truediv_returns (a b : pynum) :
  Py.representable a = true -> Py.representable b = true ->
  Py.eq_int b 0 = false -> exists q, Py.truediv a b = Ok q.
Proof.
  intros Ra Rb Nb.
  destruct (float_representable a Ra) as [x Ex].
  destruct (float_representable b Rb) as [y Ey].
  destruct a as [u|u], b as [w|w]; unfold Py.truediv;
    try (rewrite Ex, Ey; cbn [bind]; rewrite Nb; eauto).
  simpl in Nb; rewrite Nb.
  simpl in Ra; apply Z.ltb_lt in Ra; apply Z.eqb_neq in Nb.
  pose proof float_limit_pos as P.
  destruct (Z.leb_spec (Py.float_limit * Z.abs w) (Z.abs u)) as [L | L];
    [|eauto].
  exfalso; revert Ra L P; generalize Py.float_limit; intros F Ra L P.
  assert (1 <= Z.abs w)%Z by lia.
  nia.
Qed.

Lemma zero_model_finite (v : Double.t) :
  Double.is_finite v = true ->
  evaluate (mkPoly 1 Double.zero Double.zero) v = Double.zero.
Proof.
  destruct v as [[]|[]| |[] m e]; intros H; try discriminate H; reflexivity.
Qed.

Lemma forward_poly_spec (a0 a1 : pynum) :
  Py.representable a0 = true -> Py.representable a1 = true ->
  exists f, forward_poly (PNum a0) (PNum a1) = Ok f /\ forward_of a0 a1 f.
Proof.
  intros R0 R1.
  destruct (float_representable a0 R0) as [x0 E0].
  destruct (float_representable a1 R1) as [x1 E1].
  exists (mkPoly 1 x0 x1); split.
  - unfold forward_poly; cbn [number bind]; rewrite E0, E1; reflexivity.
  - exists x0, x1; repeat split; assumption.
Qed.

Lemma inverse_poly_spec (a0 a1 : pynum) :
  Py.representable a0 = true -> Py.representable a1 = true ->
  exists g, inverse_poly (PNum a0) (PNum a1) = Ok g /\ inverse_of a0 a1 g.
Proof.
  intros R0 R1; unfold inverse_poly; cbn [is_zero].
  destruct (Py.eq_int a1 0) eqn:Z.
  - exists (mkPoly 1 Double.zero Double.zero); split; [reflexivity|].
    split; [intros N; congruence|].
    intros _; split; [reflexivity | apply zero_model_finite].
  - destruct (truediv_returns (Py.neg a0) a1) as [q0 E0];
      [now rewrite neg_representable | exact R1 | exact Z |].
    destruct (truediv_returns (Flt Double.one) a1) as [q1 E1];
      [reflexivity | exact R1 | exact Z |].
    exists (mkPoly 1 q0 q1); split.
    + cbn [number bind]; rewrite E0, E1; reflexivity.
    + split; [|intros N; congruence].
      intros _; exists q0, q1; repeat split; assumption.
Qed.

(** The loop body on a beam whose three entries are pairs of numbers in
    range. *)
Lemma order_models_pairs
  (d : Dict.t pyval) (m : models) (l0 l1 x0 x1 y0 y1 : pynum) :
  Dict.lookup "DISPL" d = Some (PTuple (PNum l0) (PNum l1)) ->
  Dict.lookup "DISPX" d = Some (PTuple (PNum x0) (PNum x1)) ->
  Dict.lookup "DISPY" d = Some (PTuple (PNum y0) (PNum y1)) ->
  forallb Py.representable [l0; l1; x0; x1; y0; y1] = true ->
  exists il fl ix fx iy fy,
    order_models d m
    = Ok (mkModels (m_invdispl m ++ [il]) (m_invdispx m ++ [ix])
            (m_invdispy m ++ [iy]) (m_displ m ++ [fl]) (m_dispx m ++ [fx])
            (m_dispy m ++ [fy]))
    /\ forward_of l0 l1 fl /\ inverse_of l0 l1 il
    /\ forward_of x0 x1 fx /\ inverse_of x0 x1 ix
    /\ forward_of y0 y1 fy /\ inverse_of y0 y1 iy.
Proof.
  intros HL HX HY R; cbn [forallb] in R.
  apply andb_prop in R; destruct R as [Rl0 R].
  apply andb_prop in R; destruct R as [Rl1 R].
  apply andb_prop in R; destruct R as [Rx0 R].
  apply andb_prop in R; destruct R as [Rx1 R].
  apply andb_prop in R; destruct R as [Ry0 R].
  apply andb_prop in R; destruct R as [Ry1 _].
  destruct (forward_poly_spec l0 l1 Rl0 Rl1) as [fl [Efl Hfl]].
  destruct (inverse_poly_spec l0 l1 Rl0 Rl1) as [il [Eil Hil]].
  destruct (forward_poly_spec x0 x1 Rx0 Rx1) as [fx [Efx Hfx]].
  destruct (inverse_poly_spec x0 x1 Rx0 Rx1) as [ix [Eix Hix]].
  destruct (forward_poly_spec y0 y1 Ry0 Ry1) as [fy [Efy Hfy]].
  destruct (inverse_poly_spec y0 y1 Ry0 Ry1) as [iy [Eiy Hiy]].
  exists il, fl, ix, fx, iy, fy.
  split; [|tauto].
  unfold order_models, Dict.get; rewrite HL, HX, HY.
  cbn [of_option bind subscript unpack2].
  rewrite Eil, Efl, Efx, Eix, Efy, Eiy; reflexivity.
Qed.




(** ** Claims about the wavelength-range table *)

(** C8.  Called without a table and without an extraction-order
    assignment, [create_wfss_wavelengthrange] hands to validation and to
    the writer an object whose orders are 1, 2, whose filters are twelve
    distinct names in increasing order, and which assigns to each of them,
    in that order, the orders 1, 2; the built-in table is the one
    stored. *)
Theorem wfss_default_table
  (utcnow : string) (validate : WavelengthrangeModel -> result unit)
  (outname history author : string) :
  exists ref,
    wfss_wavelengthrange_ref utcnow outname history author None None = Ok ref
    /\ create_wfss_wavelengthrange utcnow validate outname history author
         None None
       = match validate ref with
         | Ok _ => (Ok tt, [(outname, ref)])
         | Raise e => (Raise e, [])
         end
    /\ wavelengthrange ref = wfss_wavelengthrange
    /\ order ref = [1; 2]%Z
    /\ waverange_selector ref = wfss_filters
    /\ List.length (waverange_selector ref) = 12
    /\ NoDup (waverange_selector ref)
    /\ map fst (extract_orders ref) = waverange_selector ref
    /\ Forall (fun fo => snd fo = [1; 2]%Z) (extract_orders ref).
Proof.
  eexists; split; [reflexivity|].
  split; [reflexivity|].
  split; [reflexivity|].
  split; [vm_compute; reflexivity|].
  assert (F : sorted_set String.eqb String.leb
                (map entry_filter wfss_wavelengthrange) = wfss_filters)
    by (vm_compute; reflexivity).
  assert (O : sorted_set Z.eqb Z.leb (map entry_order wfss_wavelengthrange)
              = [1; 2]%Z) by (vm_compute; reflexivity).
  cbn [waverange_selector extract_orders]; rewrite F, O.
  split; [reflexivity|].
  split; [reflexivity|].
  split.
  { unfold wfss_filters.
    repeat (constructor;
            [simpl; intros H;
             repeat (destruct H as [H | H]; [discriminate H|]); exact H|]).
    constructor. }
  split; [reflexivity|].
  unfold wfss_filters; simpl; repeat constructor.
Qed.

(** ** Splitting a [key value] line *)

Lemma append_nil_r (s : string) : (s ++ "")%string = s.
Proof.
  induction s as [|c r IH]; simpl; [reflexivity | now rewrite IH].
Qed.

Lemma append_assoc (a b c : string) :
  ((a ++ b) ++ c)%string = (a ++ (b ++ c))%string.
Proof.
  induction a as [|x a IH]; simpl; [reflexivity | now rewrite IH].
Qed.

Lemma all_chars_app (p : ascii -> bool) (a b : string) :
  Str.all_chars p (a ++ b) = Str.all_chars p a && Str.all_chars p b.
Proof.
  induction a as [|x a IH]; simpl; [reflexivity|].
  now rewrite IH, andb_assoc.
Qed.

Lemma rev_snoc (x : string) (c : ascii) :
  Str.rev (x ++ String c "") = String c (Str.rev x).
Proof.
  unfold Str.rev; apply rev_acc_app_last.
Qed.

Lemma rev_cons (c : ascii) (s : string) :
  Str.rev (String c s) = (Str.rev s ++ String c "")%string.
Proof.
  unfold Str.rev; simpl; apply rev_acc_spec.
Qed.

Lemma rev_involutive (s : string) : Str.rev (Str.rev s) = s.
Proof.
  induction s as [|c r IH]; [reflexivity|].
  now rewrite rev_cons, rev_snoc, IH.
Qed.

Lemma snoc_cases (s : string) :
  s = "" \/ exists x c, s = (x ++ String c "")%string.
Proof.
  induction s as [|a r [-> | [x [c ->]]]]; [now left | right | right].
  - exists "", a; reflexivity.
  - exists (String a x), c; reflexivity.
Qed.

Lemma plain_char_not_space (c : ascii) :
  plain_char c = true -> Str.is_space c = false.
Proof.
  unfold plain_char; destruct (Str.is_space c); [discriminate | reflexivity].
Qed.

Lemma plain_char_not_comma (c : ascii) :
  plain_char c = true -> Ascii.eqb c "," = false.
Proof.
  unfold plain_char; destruct (Ascii.eqb c ","); [|reflexivity].
  now rewrite andb_false_r.
Qed.

(** Stripping a line made of a text with no whitespace at either end and
    its line end gives the text back. *)
Lemma strip_nl (c : ascii) (r : string) :
  Str.is_space c = false ->
  (forall x c', String c r = (x ++ String c' "")%string ->
                Str.is_space c' = false) ->
  Str.strip (nl (String c r)) = String c r.
Proof.
  intros Hc Hlast; unfold Str.strip, nl.
  simpl Str.drop_while at 2; rewrite Hc.
  change (String c (r ++ String Py.newline ""))
    with (String c r ++ String Py.newline "")%string.
  rewrite rev_snoc.
  change (Str.drop_while Str.is_space
            (String Py.newline (Str.rev (String c r))))
    with (Str.drop_while Str.is_space (Str.rev (String c r))).
  destruct (snoc_cases (String c r)) as [E | [x [c' E]]]; [discriminate E|].
  rewrite E at 1; rewrite rev_snoc; simpl.
  rewrite (Hlast x c' E).
  rewrite <- rev_snoc, <- E; apply rev_involutive.
Qed.

Lemma re_split_aux_plain (w : string) :
  forall prev ws budget cur,
    plain w = true ->
    re_split_aux prev ws budget w cur = [(Str.rev cur ++ w)%string].
Proof.
  unfold plain; induction w as [|c w IH]; intros prev ws budget cur P; simpl.
  - now rewrite append_nil_r.
  - simpl in P; apply andb_prop in P; destruct P as [Pc Pw].
    rewrite (plain_char_not_space c Pc), andb_false_r.
    destruct budget as [|b]; [reflexivity|].
    unfold comma_sep; rewrite (plain_char_not_comma c Pc); simpl.
    rewrite (IH (Some c) false (S b) (String c cur) Pw).
    now rewrite rev_cons, append_assoc.
Qed.

Lemma re_split_aux_word (w : string) :
  forall prev budget cur rest,
    plain w = true ->
    re_split_aux prev false (S budget) (w ++ String " " rest) cur
    = (Str.rev cur ++ w)%string
      :: re_split_aux (Some " "%char) true budget rest "".
Proof.
  unfold plain; induction w as [|c w IH]; intros prev budget cur rest P.
  - simpl; now rewrite append_nil_r.
  - simpl in P; apply andb_prop in P; destruct P as [Pc Pw].
    simpl; rewrite (plain_char_not_space c Pc).
    unfold comma_sep; rewrite (plain_char_not_comma c Pc); simpl.
    rewrite (IH (Some c) budget (String c cur) rest Pw).
    now rewrite rev_cons, append_assoc.
Qed.

Lemma key_value_line_split (key val : string) :
  letters_match key = true -> plain key = true ->
  plain val = true -> val <> "" ->
  letters_match (key_value_line key val) = true
  /\ re_split (Str.strip (key_value_line key val)) 3 = [key; val].
Proof.
  intros L Pk Pv Nv.
  destruct key as [|c k]; [discriminate L|]; simpl in L.
  split; [exact L|].
  unfold key_value_line; simpl append.
  rewrite strip_nl.
  - unfold re_split.
    change (String c (k ++ String " " val))
      with (String c k ++ String " " val)%string.
    rewrite (re_split_aux_word (String c k) None 2 "" val Pk).
    now rewrite (re_split_aux_plain val (Some " "%char) true 2 "" Pv).
  - now apply letter_not_space.
  - intros x c' E.
    destruct (snoc_cases val) as [-> | [y [d ->]]]; [congruence|].
    assert (E' : ((String c k ++ String " " y) ++ String d "")%string
                 = (x ++ String c' "")%string).
    { rewrite <- E; simpl; now rewrite append_assoc. }
    assert (R : Str.rev ((String c k ++ String " " y) ++ String d "")
                = Str.rev (x ++ String c' "")) by now rewrite E'.
    rewrite !rev_snoc in R; injection R as <- _.
    unfold plain in Pv; rewrite all_chars_app in Pv.
    apply andb_prop in Pv; destruct Pv as [_ Pd]; simpl in Pd.
    rewrite andb_true_r in Pd; now apply plain_char_not_space.
Qed.

(** ** Tokens that evaluate are free of separators *)

Lemma digit_plain (c : ascii) : Str.is_digit c = true -> plain_char c = true.
Proof.
  destruct c as [[] [] [] [] [] [] [] []]; vm_compute; congruence.
Qed.

Lemma sign_plain (c : ascii) : Py.is_sign c = true -> plain_char c = true.
Proof.
  destruct c as [[] [] [] [] [] [] [] []]; vm_compute; congruence.
Qed.

Lemma e_plain (c : ascii) : Py.is_e c = true -> plain_char c = true.
Proof.
  destruct c as [[] [] [] [] [] [] [] []]; vm_compute; congruence.
Qed.

Lemma dot_plain (c : ascii) : Ascii.eqb c "." = true -> plain_char c = true.
Proof.
  intros H; apply Ascii.eqb_eq in H; subst c; reflexivity.
Qed.

Lemma span_digits_plain (s : string) :
  forall d r, Py.span_digits s = (d, r) ->
              plain s = plain r.
Proof.
  unfold plain; induction s as [|c s IH]; simpl; intros d r H.
  - now injection H as <- <-.
  - destruct (Str.is_digit c) eqn:D.
    + destruct (Py.span_digits s) as [d' r'].
      injection H as <- <-.
      rewrite (digit_plain c D); simpl; exact (IH d' r' eq_refl).
    + now injection H as <- <-.
Qed.

Lemma take_sign_plain (s : string) :
  forall b r, Py.take_sign s = (b, r) -> plain s = plain r.
Proof.
  unfold plain, Py.take_sign; destruct s as [|c s]; intros b r H.
  - now injection H as <- <-.
  - destruct (Py.is_sign c) eqn:S; injection H as <- <-; [|reflexivity].
    simpl; now rewrite (sign_plain c S).
Qed.

Lemma parse_literal_plain (s : string) (l : Py.literal) :
  Py.parse_literal s = Some l -> plain s = true.
Proof.
  unfold Py.parse_literal.
  destruct (Py.take_sign s) as [neg s1] eqn:E1.
  destruct (Py.span_digits s1) as [ip s2] eqn:E2.
  rewrite (take_sign_plain s neg s1 E1), (span_digits_plain s1 ip s2 E2).
  assert (E3 : exists dot s3,
             match s2 with
             | String c r => if Ascii.eqb c "." then (true, r) else (false, s2)
             | EmptyString => (false, s2)
             end = (dot, s3) /\ plain s2 = plain s3).
  { destruct s2 as [|c r]; [eauto|].
    destruct (Ascii.eqb c ".") eqn:D; [|eauto].
    exists true, r; split; [reflexivity|].
    unfold plain; simpl; now rewrite (dot_plain c D). }
  destruct E3 as [dot [s3 [-> ->]]].
  destruct (Py.span_digits s3) as [fp s4] eqn:E4.
  rewrite (span_digits_plain s3 fp s4 E4).
  destruct s4 as [|c r]; [reflexivity|].
  destruct (Py.is_e c) eqn:E; [|discriminate].
  destruct (Py.take_sign r) as [eneg r1] eqn:E5.
  destruct (Py.span_digits r1) as [ed r2] eqn:E6.
  destruct r2; [|discriminate]; intros _.
  unfold plain; simpl; rewrite (e_plain c E); simpl.
  change (plain r = true).
  now rewrite (take_sign_plain r eneg r1 E5), (span_digits_plain r1 ed "" E6).
Qed.

Lemma eval_ok_plain (val : string) (n : pynum) :
  Py.eval val = Ok n -> plain val = true /\ val <> "".
Proof.
  intros H; split.
  - unfold Py.eval in H.
    destruct (Py.parse_literal val) as [l|] eqn:P; [|discriminate].
    exact (parse_literal_plain val l P).
  - intros ->; vm_compute in H; discriminate H.
Qed.

(** Reading a [key value] line whose value evaluates to a number. *)
Lemma process_key_value (content : Dict.t pyval) (key val : string) (n : pynum) :
  letters_match key = true -> plain key = true -> auxiliary key = false ->
  Py.eval val = Ok n ->
  process_line content (key_value_line key val)
  = Ok (Dict.set key (PNum n) content).
Proof.
  intros L P A E.
  destruct (eval_ok_plain val n E) as [Pv Nv].
  destruct (key_value_line_split key val L P Pv Nv) as [Ll S].
  unfold process_line, read_line.
  rewrite (letters_not_empty _ Ll), Ll, S; cbn [negb].
  rewrite (eval_ok_fullmatch val n E), E; cbn [bind].
  now rewrite (store_plain content key (PNum n) L A).
Qed.

(** ** Claims about [create_grism_specwcs] *)

Lemma int_cases (o : string) :
  (exists n, Py.int o = Ok n) \/ Py.int o = Raise (int_error o).
Proof.
  unfold Py.int, int_error.
  destruct (Py.take_sign _) as [neg body].
  destruct (Py.int_body body false 0); [left; eauto | right; reflexivity].
Qed.

Lemma int_orders_parsed (beams : list string) :
  forall ns, int_orders beams = Ok ns ->
             Forall2 (fun o n => Py.int o = Ok n) beams ns.
Proof.
  induction beams as [|o r IH]; simpl; intros ns H.
  - injection H as <-; constructor.
  - apply bind_Ok in H; destruct H as [n [Hn H]].
    apply bind_Ok in H; destruct H as [ns' [Hns H]].
    injection H as <-; constructor; auto.
Qed.

Lemma int_orders_fails (beams : list string) (o : string) :
  In o beams -> (forall n, Py.int o <> Ok n) ->
  exists o', In o' beams /\ int_orders beams = Raise (int_error o').
Proof.
  intros I N; induction beams as [|b r IH]; [destruct I|].
  simpl; destruct (int_cases b) as [[n E] | E]; rewrite E; simpl.
  - destruct I as [-> | I]; [exfalso; exact (N n E)|].
    destruct (IH I) as [o' [I' E']].
    exists o'; rewrite E'; auto.
  - exists b; auto.
Qed.

(** C3, as the claim states it, fails: with the beam named [A], the six
    lines are read and merged, the models are built, and the conversion
    of the beam to an integer raises; nothing is written. *)
Lemma beam_A_conf_fails :
  dict_from_file beam_A_files beam_A_name
  = Ok [("DISPL_A_0", PNum (Int 0)); ("DISPL_A_1", PNum (Int 2));
        ("DISPX_A_0", PNum (Flt (Double.of_frac 3 2)));
        ("DISPX_A_1", PNum (Int 0)); ("DISPY_A_0", PNum (Int 0));
        ("DISPY_A_1", PNum (Flt (Double.of_frac (-3) 10)))]
  /\ create_grism_specwcs "2024-01-01T00:00:00" accept beam_A_files
       beam_A_name None None None "STScI" "" None
     = (Raise (int_error "A"), []).
Proof.
  split; vm_compute; reflexivity.
Qed.

(** *** The six lines in any order *)

Lemma inserts_in {A : Type} (x : A) (l1 l2 : list A) :
  In (l1 ++ x :: l2) (inserts x (l1 ++ l2)).
Proof.
  induction l1 as [|y l1 IH]; simpl.
  - destruct l2; simpl; auto.
  - right; apply in_map; exact IH.
Qed.

Lemma perms_complete {A : Type} (l : list A) :
  forall l', Permutation l' l -> In l' (perms l).
Proof.
  induction l as [|x r IH]; intros l' P; simpl.
  - apply Permutation_sym, Permutation_nil in P; auto.
  - destruct (Permutation_vs_cons_inv P) as [l1 [l2 ->]].
    apply Permutation_sym, Permutation_cons_app_inv in P.
    apply in_flat_map; exists (l1 ++ l2); split.
    + apply IH; now apply Permutation_sym.
    + apply inserts_in.
Qed.

Lemma in_halves {A : Type} (x : A) (k : nat) (l : list A) :
  In x l -> In x (firstn k l) \/ In x (skipn k l).
Proof.
  intros H; apply in_app_or; now rewrite firstn_skipn.
Qed.

(** Case analysis on membership in an explicit list, by halving. *)
Ltac in_cases H tac :=
  lazymatch type of H with
  | In ?x ?l =>
      let l' := eval vm_compute in l in
      change (In x l') in H;
      lazymatch l' with
      | [] => destruct H
      | [_] => destruct H as [<- | []]; tac
      | _ =>
          let k := eval vm_compute in (Nat.div2 (List.length l')) in
          let H1 := fresh "H" in
          apply (in_halves _ k) in H;
          destruct H as [H1 | H1]; in_cases H1 tac
      end
  end.

Lemma read_entries (es : list entry) :
  Forall entry_good es ->
  forall content,
    read_lines (map entry_line es) content
    = Ok (fold_left set_item (map entry_item es) content).
Proof.
  induction 1 as [|[[k t] n] es [L [P [A E]]] _ IH]; intros content;
    [reflexivity|].
  simpl in L, P, A, E.
  change (map entry_line ((k, t, n) :: es))
    with (key_value_line k t :: map entry_line es).
  change (map entry_item ((k, t, n) :: es))
    with ((k, PNum n) :: map entry_item es).
  cbn [read_lines fold_left].
  rewrite (process_key_value content k t n L P A E); cbn [bind].
  apply IH.
Qed.

Ltac merged_beam :=
  eexists; split;
  [match goal with
   | |- split_order_info (Mapping ?c) = _ =>
       let r := eval vm_compute in (split_order_info (Mapping c)) in
       transitivity r; [vm_compute; reflexivity | reflexivity]
   end
  | repeat split; reflexivity].

(** Whatever the order of the six entries, beam [+1] ends with the three
    merged pairs. *)
Lemma permuted_conf_split (tl0 tl1 tx0 tx1 ty0 ty1 : string)
  (l0 l1 x0 x1 y0 y1 : pynum) (p : list nat) :
  In p (perms [0; 1; 2; 3; 4; 5]) ->
  exists d,
    split_order_info
      (Mapping (fold_left set_item
         (map entry_item
            (pick (plus1_entries tl0 tl1 tx0 tx1 ty0 ty1 l0 l1 x0 x1 y0 y1)
               p))
         Dict.empty))
    = Ok [("+1", d)]
    /\ Dict.lookup "DISPL" d = Some (PTuple (PNum l0) (PNum l1))
    /\ Dict.lookup "DISPX" d = Some (PTuple (PNum x0) (PNum x1))
    /\ Dict.lookup "DISPY" d = Some (PTuple (PNum y0) (PNum y1)).
Proof.
  intros H; in_cases H ltac:(merged_beam).
Qed.

(** C3, amended.  For the configuration file made of the six lines that
    define the one beam [+1] by the keys [DISPL_+1_0], [DISPL_+1_1],
    [DISPX_+1_0], [DISPX_+1_1], [DISPY_+1_0], [DISPY_+1_1], in any order
    and each with a token that evaluates to a number in the range of a
    double (any [float], or an [int] that [float()] accepts), and a call
    whose filter, pupil and module are given or can be read off the file
    name,
    [create_grism_specwcs] builds the reference object, writes it, and
    returns what its validation returns; the object's order list is [1]
    and each of its six model lists has length 1. *)
Theorem minimal_conf_one_order
  (utcnow : string) (validate : NIRCAMGrismModel -> result unit)
  (fs : filesystem) (conffile : string) (filter pupil module : option string)
  (author history : string) (outname : option string)
  (names : string * string * string) (lines : list string)
  (tl0 tl1 tx0 tx1 ty0 ty1 : string) (l0 l1 x0 x1 y0 y1 : pynum) :
  Permutation lines (minimal_conf "+1" tl0 tl1 tx0 tx1 ty0 ty1) ->
  fs conffile = Some lines ->
  names_from conffile filter pupil module = Ok names ->
  Py.eval tl0 = Ok l0 -> Py.eval tl1 = Ok l1 ->
  Py.eval tx0 = Ok x0 -> Py.eval tx1 = Ok x1 ->
  Py.eval ty0 = Ok y0 -> Py.eval ty1 = Ok y1 ->
  forallb Py.representable [l0; l1; x0; x1; y0; y1] = true ->
  exists name ref,
    create_grism_specwcs utcnow validate fs conffile filter pupil module
      author history outname
    = (validate ref, [(name, ref)])
    /\ orders ref = [1%Z]
    /\ List.length (displ ref) = 1 /\ List.length (dispx ref) = 1
    /\ List.length (dispy ref) = 1 /\ List.length (invdispl ref) = 1
    /\ List.length (invdispx ref) = 1 /\ List.length (invdispy ref) = 1.
Proof.
  intros P F N El0 El1 Ex0 Ex1 Ey0 Ey1 R.
  set (es := plus1_entries tl0 tl1 tx0 tx1 ty0 ty1 l0 l1 x0 x1 y0 y1).
  change (minimal_conf "+1" tl0 tl1 tx0 tx1 ty0 ty1)
    with (map (fun i => entry_line (nth i es no_entry)) [0; 1; 2; 3; 4; 5])
    in P.
  destruct (Permutation_map_inv _ _ P) as [p [-> Pp]].
  assert (G : Forall entry_good (pick es p)).
  { unfold pick; apply Forall_map.
    apply (Permutation_Forall Pp).
    repeat constructor; assumption. }
  assert (C : dict_from_file fs conffile
              = Ok (fold_left set_item (map entry_item (pick es p))
                      Dict.empty)).
  { unfold dict_from_file; rewrite F; cbn [of_option bind].
    rewrite <- (read_entries (pick es p) G Dict.empty).
    unfold pick; now rewrite map_map. }
  destruct (permuted_conf_split tl0 tl1 tx0 tx1 ty0 ty1 l0 l1 x0 x1 y0 y1 p)
    as [d [B [HL [HX HY]]]].
  { apply perms_complete; now apply Permutation_sym. }
  fold es in B.
  destruct (order_models_pairs d no_models l0 l1 x0 x1 y0 y1 HL HX HY R)
    as [il [fl [ix [fx [iy [fy [M _]]]]]]].
  destruct names as [[f pu] m].
  unfold create_grism_specwcs, grism_specwcs_ref.
  rewrite N; cbn [bind common_reference_file_keywords].
  rewrite C; cbn [bind]; rewrite B; cbn [bind all_models].
  rewrite M; cbn [bind Dict.keys map fst].
  change (int_orders ["+1"]) with (@Ok (list Z) [1%Z]); cbn [bind].
  eexists; eexists; split; [reflexivity|].
  repeat split.
Qed.

Lemma minimal_conf_one_order_witness :
  exists name ref,
    create_grism_specwcs "2024-01-01T00:00:00" accept reversed_plus1_files
      beam_A_name None None None "STScI" "" None
    = (accept ref, [(name, ref)])
    /\ orders ref = [1%Z]
    /\ List.length (displ ref) = 1 /\ List.length (dispx ref) = 1
    /\ List.length (dispy ref) = 1 /\ List.length (invdispl ref) = 1
    /\ List.length (invdispx ref) = 1 /\ List.length (invdispy ref) = 1.
Proof.
  apply (minimal_conf_one_order "2024-01-01T00:00:00" accept
           reversed_plus1_files beam_A_name None None None "STScI" "" None
           ("F444W", "GRISMR", "A")
           (List.rev (minimal_conf "+1" "0" "2" "1.5" "0" "0" "-3e-1"))
           "0" "2" "1.5" "0" "0" "-3e-1"
           (Int 0) (Int 2) (Flt (Double.of_frac 3 2)) (Int 0) (Int 0)
           (Flt (Double.of_frac (-3) 10)));
    try reflexivity.
  apply Permutation_sym, Permutation_rev.
Defined.

(** An integer coefficient outside the range of a double: every line is
    read, and the division [-l0/l1] of the integers [10^400] and [2]
    raises; nothing is written. *)
Example huge_coefficient_overflows :
  (exists conf,
      dict_from_file huge_files beam_A_name = Ok conf
      /\ Dict.lookup "DISPL_+1_0" conf = Some (PNum (Int (10 ^ 400))))
  /\ create_grism_specwcs "2024-01-01T00:00:00" accept huge_files
       beam_A_name None None None "STScI" "" None
     = (Raise OverflowError, []).
Proof.
  split; [eexists; split|]; vm_compute; reflexivity.
Qed.

(** C9.  The order list of the reference object is the list of the
    beams, each parsed as an integer.  When some beam does not parse,
    the call raises and writes no file; and when nothing before the
    conversion raised, what it raises is the conversion's own error. *)
Theorem grism_orders_parsed
  (utcnow : string) (validate : NIRCAMGrismModel -> result unit)
  (fs : filesystem) (conffile : string) (filter pupil module : option string)
  (author history : string) (outname : option string) :
  (forall name ref,
      grism_specwcs_ref utcnow fs conffile filter pupil module author
        history outname = Ok (name, ref) ->
      exists conf bd,
        dict_from_file fs conffile = Ok conf
        /\ split_order_info (Mapping conf) = Ok bd
        /\ Forall2 (fun o n => Py.int o = Ok n) (Dict.keys bd) (orders ref))
  /\ (forall conf bd o,
         dict_from_file fs conffile = Ok conf ->
         split_order_info (Mapping conf) = Ok bd ->
         In o (Dict.keys bd) -> (forall n, Py.int o <> Ok n) ->
         (exists e,
             create_grism_specwcs utcnow validate fs conffile filter pupil
               module author history outname = (Raise e, []))
         /\ (forall names m,
                names_from conffile filter pupil module = Ok names ->
                all_models bd no_models = Ok m ->
                exists o',
                  In o' (Dict.keys bd)
                  /\ create_grism_specwcs utcnow validate fs conffile filter
                       pupil module author history outname
                     = (Raise (int_error o'), []))).
Proof.
  split.
  - intros name ref H; unfold grism_specwcs_ref in H.
    apply bind_Ok in H; destruct H as [[[f p] m] [_ H]].
    apply bind_Ok in H; destruct H as [kw [_ H]].
    apply bind_Ok in H; destruct H as [conf [C H]].
    apply bind_Ok in H; destruct H as [bd [B H]].
    apply bind_Ok in H; destruct H as [ms [_ H]].
    apply bind_Ok in H; destruct H as [oo [O H]].
    injection H as _ <-; simpl.
    exists conf, bd; repeat split; auto using int_orders_parsed.
  - intros conf bd o C B I N.
    destruct (int_orders_fails (Dict.keys bd) o I N) as [o' [I' E]].
    unfold create_grism_specwcs, grism_specwcs_ref.
    split.
    + destruct (names_from conffile filter pupil module)
        as [[[f p] m]|e]; cbn [bind]; [|eauto].
      cbn [common_reference_file_keywords bind].
      rewrite C; cbn [bind]; rewrite B; cbn [bind].
      destruct (all_models bd no_models) as [ms|e]; cbn [bind]; [|eauto].
      rewrite E; cbn [bind]; eauto.
    + intros [[f p] m] ms Hn Hm; exists o'; split; [exact I'|].
      rewrite Hn; cbn [bind common_reference_file_keywords].
      rewrite C; cbn [bind]; rewrite B; cbn [bind].
      rewrite Hm; cbn [bind]; rewrite E; reflexivity.
Qed.

Lemma grism_orders_parsed_witness :
  (exists e,
      create_grism_specwcs "2024-01-01T00:00:00" accept beam_A_files
        beam_A_name None None None "STScI" "" None = (Raise e, []))
  /\ (exists o,
         create_grism_specwcs "2024-01-01T00:00:00" accept beam_A_files
           beam_A_name None None None "STScI" "" None
         = (Raise (int_error o), []))
  /\ (exists name ref conf bd,
         grism_specwcs_ref "2024-01-01T00:00:00" plus1_files beam_A_name
           None None None "STScI" "" None = Ok (name, ref)
         /\ dict_from_file plus1_files beam_A_name = Ok conf
         /\ split_order_info (Mapping conf) = Ok bd
         /\ Forall2 (fun o n => Py.int o = Ok n) (Dict.keys bd) (orders ref)).
Proof.
  pose proof (grism_orders_parsed "2024-01-01T00:00:00" accept beam_A_files
                beam_A_name None None None "STScI" "" None) as [_ A].
  set (bdA := [("A", [("DISPL", PTuple (PNum (Int 0)) (PNum (Int 2)));
                      ("DISPX", PTuple (PNum (Flt (Double.of_frac 3 2)))
                                  (PNum (Int 0)));
                      ("DISPY", PTuple (PNum (Int 0))
                                  (PNum (Flt (Double.of_frac (-3) 10))))])]).
  specialize (A [("DISPL_A_0", PNum (Int 0)); ("DISPL_A_1", PNum (Int 2));
                 ("DISPX_A_0", PNum (Flt (Double.of_frac 3 2)));
                 ("DISPX_A_1", PNum (Int 0)); ("DISPY_A_0", PNum (Int 0));
                 ("DISPY_A_1", PNum (Flt (Double.of_frac (-3) 10)))]
                bdA "A" eq_refl eq_refl (or_introl eq_refl)).
  destruct A as [A1 A2].
  { intros n H; vm_compute in H; discriminate H. }
  split; [exact A1|].
  split.
  - assert (M : exists ms, all_models bdA no_models = Ok ms)
      by (eexists; vm_compute; reflexivity).
    destruct M as [ms M].
    destruct (A2 ("F444W", "GRISMR", "A") ms eq_refl M) as [o [_ E]].
    exists o; exact E.
  - pose proof (grism_orders_parsed "2024-01-01T00:00:00" accept plus1_files
                  beam_A_name None None None "STScI" "" None) as [B _].
    assert (H : exists nr,
               grism_specwcs_ref "2024-01-01T00:00:00" plus1_files
                 beam_A_name None None None "STScI" "" None = Ok nr)
      by (eexists; vm_compute; reflexivity).
    destruct H as [[name ref] H].
    destruct (B name ref H) as [conf [bd [C [S O]]]].
    exists name, ref, conf, bd; auto.
Defined.

(* ================================================================== *)
(** * Further properties *)

(** ** Distinct sorted values *)

Section SortedSetFacts.

Context {A : Type} (eqb leb : A -> A -> bool).
Hypothesis eqb_eq : forall x y, eqb x y = true <-> x = y.
Hypothesis leb_total : forall x y, leb x y = true \/ leb y x = true.
Hypothesis leb_trans :
  forall x y z, leb x y = true -> leb y z = true -> leb x z = true.
Hypothesis leb_antisym :
  forall x y, leb x y = true -> leb y x = true -> x = y.

Lemma below_trans (x y z : A) :
  below leb x y -> below leb y z -> below leb x z.
Proof.
  intros [Hxy Nxy] [Hyz Nyz]; split; [eauto|].
  intros ->; apply Nxy; auto.
Qed.

Lemma insert_In (x z : A) (l : list A) :
  In z (insert eqb leb x l) <-> z = x \/ In z l.
Proof.
  induction l as [|y r IH]; simpl; [intuition|].
  destruct (eqb x y) eqn:E.
  - apply eqb_eq in E; subst y; simpl; intuition.
  - destruct (leb x y); simpl; [intuition|].
    rewrite IH; intuition.
Qed.

Lemma insert_increasing (x : A) (l : list A) :
  increasing leb l -> increasing leb (insert eqb leb x l).
Proof.
  unfold increasing; induction 1 as [|y r Hr IH Hy]; simpl.
  - repeat constructor.
  - destruct (eqb x y) eqn:E; [now constructor|].
    assert (N : x <> y) by (intros ->; rewrite (proj2 (eqb_eq y y) eq_refl) in E;
                            discriminate E).
    destruct (leb x y) eqn:L.
    + constructor; [now constructor|].
      constructor; [now split|].
      rewrite Forall_forall in *; intros z Hz.
      apply (below_trans x y z); [now split | auto].
    + constructor; [exact IH|].
      rewrite Forall_forall in *; intros z Hz.
      apply insert_In in Hz; destruct Hz as [-> | Hz]; [|auto].
      split; [|congruence].
      destruct (leb_total x y) as [H | H]; [congruence | exact H].
Qed.

Lemma sorted_set_In (z : A) (xs : list A) :
  In z (sorted_set eqb leb xs) <-> In z xs.
Proof.
  unfold sorted_set.
  assert (G : forall acc, In z (fold_left (fun acc x => insert eqb leb x acc)
                                  xs acc) <-> In z xs \/ In z acc).
  { induction xs as [|x xs IH]; intros acc; simpl; [intuition|].
    rewrite IH, insert_In; intuition. }
  rewrite G; simpl; intuition.
Qed.

Lemma sorted_set_increasing (xs : list A) :
  increasing leb (sorted_set eqb leb xs).
Proof.
  unfold sorted_set.
  assert (G : forall acc, increasing leb acc ->
                          increasing leb
                            (fold_left (fun acc x => insert eqb leb x acc)
                               xs acc)).
  { induction xs as [|x xs IH]; intros acc H; simpl; [exact H|].
    apply IH, insert_increasing, H. }
  apply G; constructor.
Qed.

Lemma increasing_NoDup (l : list A) : increasing leb l -> NoDup l.
Proof.
  unfold increasing; induction 1 as [|y r Hr IH Hy]; constructor; [|exact IH].
  intros I; rewrite Forall_forall in Hy.
  destruct (Hy y I) as [_ N]; now apply N.
Qed.

End SortedSetFacts.

Lemma string_compare_refl (s : string) : String.compare s s = Eq.
Proof.
  induction s as [|c s IH]; simpl; [reflexivity|].
  unfold Ascii.compare; now rewrite N.compare_refl.
Qed.

Lemma string_compare_lt_trans (s1 : string) :
  forall s2 s3,
    String.compare s1 s2 = Lt -> String.compare s2 s3 = Lt ->
    String.compare s1 s3 = Lt.
Proof.
  induction s1 as [|a s1 IH]; intros [|b s2] [|c s3]; simpl;
    try discriminate; try reflexivity.
  unfold Ascii.compare.
  destruct (N.compare_spec (N_of_ascii a) (N_of_ascii b)) as [E | L | G];
    try discriminate.
  - rewrite E.
    destruct (N.compare_spec (N_of_ascii b) (N_of_ascii c)) as [E' | L' | G'];
      try discriminate; [apply IH | reflexivity].
  - intros _.
    destruct (N.compare_spec (N_of_ascii b) (N_of_ascii c)) as [E' | L' | G'];
      try discriminate; intros _.
    + rewrite <- E'; now rewrite (proj2 (N.compare_lt_iff _ _) L).
    + now rewrite (proj2 (N.compare_lt_iff _ _) (N.lt_trans _ _ _ L L')).
Qed.

Lemma string_leb_trans (x y z : string) :
  String.leb x y = true -> String.leb y z = true -> String.leb x z = true.
Proof.
  unfold String.leb; intros Hxy Hyz.
  destruct (String.compare x y) eqn:Cxy; try discriminate.
  - apply String.compare_eq_iff in Cxy; now subst y.
  - destruct (String.compare y z) eqn:Cyz; try discriminate.
    + apply String.compare_eq_iff in Cyz; subst z; now rewrite Cxy.
    + now rewrite (string_compare_lt_trans x y z Cxy Cyz).
Qed.

Lemma Z_leb_trans (x y z : Z) :
  Z.leb x y = true -> Z.leb y z = true -> Z.leb x z = true.
Proof. rewrite !Z.leb_le; lia. Qed.

Lemma Z_leb_antisym (x y : Z) :
  Z.leb x y = true -> Z.leb y x = true -> x = y.
Proof. rewrite !Z.leb_le; lia. Qed.

Lemma Z_leb_total (x y : Z) : Z.leb x y = true \/ Z.leb y x = true.
Proof. rewrite !Z.leb_le; lia. Qed.

(** ** The wavelength-range tables *)

(** X1.  Whatever table is in effect, the order list of the wide-field
    reference object is strictly increasing and holds exactly the orders
    of the table, its filter list is strictly increasing and holds
    exactly the filters of the table, and without an extraction-order
    argument every filter of the table is paired, once and in that order,
    with the whole order list. *)
Theorem wfss_orders_and_filters
  (utcnow outname history author : string)
  (table : option (list range_entry))
  (extract : option (list (string * list Z))) :
  exists ref,
    wfss_wavelengthrange_ref utcnow outname history author table extract
    = Ok ref
    /\ wavelengthrange ref
       = match table with Some w => w | None => wfss_wavelengthrange end
    /\ increasing Z.leb (order ref) /\ NoDup (order ref)
    /\ (forall o, In o (order ref)
                  <-> In o (map entry_order (wavelengthrange ref)))
    /\ increasing String.leb (waverange_selector ref)
    /\ NoDup (waverange_selector ref)
    /\ (forall f, In f (waverange_selector ref)
                  <-> In f (map entry_filter (wavelengthrange ref)))
    /\ match extract with
       | Some e => extract_orders ref = e
       | None =>
           extract_orders ref
           = map (fun f => (f, order ref)) (waverange_selector ref)
       end.
Proof.
  eexists; split; [reflexivity|].
  cbn [wavelengthrange order waverange_selector extract_orders].
  split; [reflexivity|].
  split; [apply (sorted_set_increasing Z.eqb Z.leb Z.eqb_eq Z_leb_total
                   Z_leb_trans Z_leb_antisym)|].
  split; [apply (increasing_NoDup Z.leb),
          (sorted_set_increasing Z.eqb Z.leb Z.eqb_eq Z_leb_total
             Z_leb_trans Z_leb_antisym)|].
  split; [intros o; apply (sorted_set_In Z.eqb Z.leb Z.eqb_eq)|].
  split; [apply (sorted_set_increasing String.eqb String.leb String.eqb_eq
                   String.leb_total string_leb_trans String.leb_antisym)|].
  split; [apply (increasing_NoDup String.leb),
          (sorted_set_increasing String.eqb String.leb String.eqb_eq
             String.leb_total string_leb_trans String.leb_antisym)|].
  split; [intros f; apply (sorted_set_In String.eqb String.leb
                             String.eqb_eq)|].
  destruct extract; reflexivity.
Qed.

(** X2.  The same for the time-series table, except that without an
    extraction-order argument the four built-in filters are assigned
    order 1, whatever the table. *)
Theorem tsgrism_orders_and_filters
  (utcnow outname history author : string)
  (table : option (list range_entry))
  (extract : option (list (string * list Z))) :
  exists ref,
    tsgrism_wavelengthrange_ref utcnow outname history author table extract
    = Ok ref
    /\ wavelengthrange ref
       = match table with Some w => w | None => tsgrism_wavelengthrange end
    /\ increasing Z.leb (order ref) /\ NoDup (order ref)
    /\ (forall o, In o (order ref)
                  <-> In o (map entry_order (wavelengthrange ref)))
    /\ increasing String.leb (waverange_selector ref)
    /\ NoDup (waverange_selector ref)
    /\ (forall f, In f (waverange_selector ref)
                  <-> In f (map entry_filter (wavelengthrange ref)))
    /\ extract_orders ref
       = match extract with
         | Some e => e
         | None => [("F277W", [1]); ("F322W2", [1]); ("F356W", [1]);
                    ("F444W", [1])]%Z
         end.
Proof.
  eexists; split; [reflexivity|].
  cbn [wavelengthrange order waverange_selector extract_orders].
  split; [reflexivity|].
  split; [apply (sorted_set_increasing Z.eqb Z.leb Z.eqb_eq Z_leb_total
                   Z_leb_trans Z_leb_antisym)|].
  split; [apply (increasing_NoDup Z.leb),
          (sorted_set_increasing Z.eqb Z.leb Z.eqb_eq Z_leb_total
             Z_leb_trans Z_leb_antisym)|].
  split; [intros o; apply (sorted_set_In Z.eqb Z.leb Z.eqb_eq)|].
  split; [apply (sorted_set_increasing String.eqb String.leb String.eqb_eq
                   String.leb_total string_leb_trans String.leb_antisym)|].
  split; [apply (increasing_NoDup String.leb),
          (sorted_set_increasing String.eqb String.leb String.eqb_eq
             String.leb_total string_leb_trans String.leb_antisym)|].
  split; [intros f; apply (sorted_set_In String.eqb String.leb
                             String.eqb_eq)|].
  destruct extract; reflexivity.
Qed.

(** ** More on [dict_from_file] *)

Lemma passed_over_line (content : Dict.t pyval) (line : string) :
  passed_over line = true -> process_line content line = Ok content.
Proof.
  unfold passed_over, process_line, read_line; intros H.
  destruct (empty_match line); [reflexivity|].
  simpl in H; destruct (letters_match line); [discriminate H | reflexivity].
Qed.

Lemma read_lines_passed_over (lines : list string) :
  forall content,
    read_lines lines content
    = read_lines (filter (fun l => negb (passed_over l)) lines) content.
Proof.
  induction lines as [|l r IH]; intros content; [reflexivity|].
  simpl; destruct (passed_over l) eqn:P; simpl.
  - rewrite (passed_over_line content l P); simpl; apply IH.
  - destruct (process_line content l); simpl; [apply IH | reflexivity].
Qed.

(** X4.  Blank lines and lines that do not start with a letter (comment
    lines, lines starting with a digit or with white space) change
    nothing: a file and the same file without them are read to the same
    mapping or the same error. *)
Theorem dict_from_file_passes_over
  (fs fs' : filesystem) (name name' : string) (lines : list string) :
  fs name = Some lines ->
  fs' name' = Some (filter (fun l => negb (passed_over l)) lines) ->
  dict_from_file fs name = dict_from_file fs' name'.
Proof.
  intros F F'; unfold dict_from_file; rewrite F, F'; simpl.
  apply read_lines_passed_over.
Qed.

Lemma dict_from_file_passes_over_witness :
  dict_from_file commented_file "a.conf"
  = dict_from_file uncommented_file "b.conf"
  /\ dict_from_file uncommented_file "b.conf"
     = Ok [("INSTRUMENT", PStr "NIRCAM"); ("XOFF_A", PNum (Flt Double.zero))].
Proof.
  split; [|reflexivity].
  apply (dict_from_file_passes_over commented_file uncommented_file
           "a.conf" "b.conf"
           [nl "# aXe configuration"; nl ""; nl "INSTRUMENT NIRCAM";
            nl "   "; nl "1st order"; nl "XOFF_A 0.0"]);
    reflexivity.
Defined.

Lemma keys_set_present {V : Type} (k : string) (v : V) (d : Dict.t V) :
  Dict.mem k d = true -> Dict.keys (Dict.set k v d) = Dict.keys d.
Proof.
  unfold Dict.mem; induction d as [|[k' v'] r IH]; simpl; [discriminate|].
  destruct (String.eqb k k') eqn:E; simpl; [reflexivity|].
  intros H; now rewrite IH.
Qed.

Lemma keys_set_absent {V : Type} (k : string) (v : V) (d : Dict.t V) :
  Dict.mem k d = false -> Dict.keys (Dict.set k v d) = Dict.keys d ++ [k].
Proof.
  unfold Dict.mem; induction d as [|[k' v'] r IH]; simpl; [reflexivity|].
  destruct (String.eqb k k') eqn:E; simpl; [discriminate|].
  intros H; now rewrite IH.
Qed.

(** X5.  A last line [key value] whose key starts with a letter, has
    neither white space nor comma and contains neither [FILTER] nor
    [SENSITIVITY], and whose value evaluates to a number, binds the key
    to that number, whatever the lines before it bound: the last line
    read for a key decides.  The other keys keep their values; a key
    already present keeps its place among the keys, a new one goes
    last. *)
Theorem two_token_number
  (fs : filesystem) (name : string) (before : list string)
  (content : Dict.t pyval) (key val : string) (n : pynum) :
  fs name = Some (before ++ [key_value_line key val]) ->
  read_lines before Dict.empty = Ok content ->
  letters_match key = true -> plain key = true -> auxiliary key = false ->
  Py.eval val = Ok n ->
  exists content',
    dict_from_file fs name = Ok content'
    /\ Dict.lookup key content' = Some (PNum n)
    /\ (forall k, k <> key -> Dict.lookup k content' = Dict.lookup k content)
    /\ Dict.keys content'
       = if Dict.mem key content then Dict.keys content
         else Dict.keys content ++ [key].
Proof.
  intros F B L P A E.
  exists (Dict.set key (PNum n) content); repeat split.
  - unfold dict_from_file; rewrite F; simpl.
    rewrite read_lines_app, B; simpl.
    now rewrite (process_key_value content key val n L P A E).
  - apply lookup_set_same.
  - intros k N; now apply lookup_set_other.
  - destruct (Dict.mem key content) eqn:M;
      [now apply keys_set_present | now apply keys_set_absent].
Qed.

Lemma two_token_number_witness :
  exists content',
    dict_from_file rewritten_file "a.conf" = Ok content'
    /\ Dict.lookup "XOFF_A" content' = Some (PNum (Int (-3)))
    /\ (forall k, k <> "XOFF_A" ->
                  Dict.lookup k content'
                  = Dict.lookup k
                      [("XOFF_A", PNum (Flt (Double.of_frac 3 2)));
                       ("YOFF_A", PNum (Int 2))])
    /\ Dict.keys content' = ["XOFF_A"; "YOFF_A"].
Proof.
  apply (two_token_number rewritten_file "a.conf"
           [nl "XOFF_A 1.5"; nl "YOFF_A 2"]
           [("XOFF_A", PNum (Flt (Double.of_frac 3 2)));
            ("YOFF_A", PNum (Int 2))]
           "XOFF_A" "-3" (Int (-3)));
    reflexivity.
Defined.

Lemma letter_not_numeric (val : string) :
  letters_match val = true -> starts_with_e val = false ->
  Py.numbers_fullmatch val = false.
Proof.
  destruct val as [|c r]; simpl; [discriminate|].
  intros L E; unfold Py.numbers_fullmatch, Py.parse_literal, Py.take_sign.
  assert (S : Py.is_sign c = false)
    by (revert L; clear; destruct c as [[] [] [] [] [] [] [] []];
        vm_compute; congruence).
  assert (D : Str.is_digit c = false)
    by (revert L; clear; destruct c as [[] [] [] [] [] [] [] []];
        vm_compute; congruence).
  assert (P : Ascii.eqb c "." = false)
    by (revert L; clear; destruct c as [[] [] [] [] [] [] [] []];
        vm_compute; congruence).
  rewrite S; simpl; rewrite D, P; simpl; rewrite D, E; reflexivity.
Qed.

Lemma letter_plain (val : string) :
  letters_match val = true -> val <> "".
Proof. destruct val; [discriminate | discriminate]. Qed.

(** X6.  A last line [key value] whose key starts with a letter, has
    neither white space nor comma and contains neither [FILTER] nor
    [SENSITIVITY], and whose value starts with a letter, has neither
    white space nor comma and is not in the numeric grammar (so any such
    value whose first letter is not [e] or [E]) binds the key to the
    value as a string. *)
Theorem two_token_string
  (fs : filesystem) (name : string) (before : list string)
  (content : Dict.t pyval) (key val : string) :
  fs name = Some (before ++ [key_value_line key val]) ->
  read_lines before Dict.empty = Ok content ->
  letters_match key = true -> plain key = true -> auxiliary key = false ->
  letters_match val = true -> plain val = true ->
  starts_with_e val = false \/ Py.numbers_fullmatch val = false ->
  dict_from_file fs name = Ok (Dict.set key (PStr val) content)
  /\ Dict.lookup key (Dict.set key (PStr val) content) = Some (PStr val).
Proof.
  intros F B L P A Lv Pv N.
  assert (NF : Py.numbers_fullmatch val = false)
    by (destruct N as [N | N]; [now apply letter_not_numeric | exact N]).
  destruct (key_value_line_split key val L P Pv (letter_plain val Lv))
    as [Ll S].
  split; [|apply lookup_set_same].
  unfold dict_from_file; rewrite F; simpl.
  rewrite read_lines_app, B; simpl.
  unfold process_line, read_line.
  rewrite (letters_not_empty _ Ll), Ll, S; cbn [negb].
  rewrite NF, Lv; cbn [bind].
  now rewrite (store_plain content key (PStr val) L A).
Qed.

Lemma two_token_string_witness :
  dict_from_file string_value_file "a.conf"
  = Ok [("INSTRUMENT", PStr "NIRCAM")]
  /\ Dict.lookup "INSTRUMENT" [("INSTRUMENT", PStr "NIRCAM")]
     = Some (PStr "NIRCAM").
Proof.
  apply (two_token_string string_value_file "a.conf" [] []
           "INSTRUMENT" "NIRCAM" eq_refl eq_refl eq_refl eq_refl eq_refl
           eq_refl eq_refl (or_introl eq_refl)).
Defined.

Lemma span_all_digits (ds : string) :
  Str.all_chars Str.is_digit ds = true -> Py.span_digits ds = (ds, "").
Proof.
  induction ds as [|c r IH]; simpl; [reflexivity|].
  intros H; apply andb_prop in H; destruct H as [Hc Hr].
  now rewrite Hc, (IH Hr).
Qed.

Lemma digits_no_sign (ds : string) :
  Str.all_chars Str.is_digit ds = true -> Py.take_sign ds = (false, ds).
Proof.
  destruct ds as [|c r]; simpl; [reflexivity|].
  intros H; apply andb_prop in H; destruct H as [Hc _].
  assert (S : Py.is_sign c = false)
    by (revert Hc; clear; destruct c as [[] [] [] [] [] [] [] []];
        vm_compute; congruence).
  now rewrite S.
Qed.

Lemma exponent_name_eval (c : ascii) (ds : string) :
  Py.is_e c = true -> Str.all_chars Str.is_digit ds = true ->
  Py.numbers_fullmatch (String c ds) = true
  /\ Py.eval (String c ds) = Raise (EvalError (String c ds))
  /\ plain (String c ds) = true.
Proof.
  intros E D.
  assert (S : Py.is_sign c = false)
    by (revert E; clear; destruct c as [[] [] [] [] [] [] [] []];
        vm_compute; congruence).
  assert (G : Str.is_digit c = false)
    by (revert E; clear; destruct c as [[] [] [] [] [] [] [] []];
        vm_compute; congruence).
  assert (P : Ascii.eqb c "." = false)
    by (revert E; clear; destruct c as [[] [] [] [] [] [] [] []];
        vm_compute; congruence).
  assert (L : Py.parse_literal (String c ds)
              = Some (Py.mkLiteral false "" false "" (Some (false, ds)))).
  { unfold Py.parse_literal, Py.take_sign at 1; rewrite S; simpl.
    rewrite G, P; simpl; rewrite G, E.
    now rewrite (digits_no_sign ds D), (span_all_digits ds D). }
  repeat split.
  - unfold Py.numbers_fullmatch; now rewrite L.
  - unfold Py.eval; now rewrite L.
  - unfold plain; simpl; rewrite (e_plain c E); simpl.
    clear - D; induction ds as [|d r IH]; simpl; [reflexivity|].
    simpl in D; apply andb_prop in D; destruct D as [Dd Dr].
    now rewrite (digit_plain d Dd), (IH Dr).
Qed.

(** X7.  A value made of [e] or [E] followed by digits only (such as
    [E], [e5], [E12]) is in the numeric grammar but is a name to [eval]:
    the line makes [dict_from_file] raise instead of storing the string,
    also when the key is one that would be left out. *)
Theorem exponent_name_raises
  (fs : filesystem) (name : string) (before after : list string)
  (content : Dict.t pyval) (key : string) (c : ascii) (ds : string) :
  fs name = Some (before ++ key_value_line key (String c ds) :: after) ->
  read_lines before Dict.empty = Ok content ->
  letters_match key = true -> plain key = true ->
  Py.is_e c = true -> Str.all_chars Str.is_digit ds = true ->
  dict_from_file fs name = Raise (EvalError (String c ds)).
Proof.
  intros F B L P E D.
  destruct (exponent_name_eval c ds E D) as [NF [Ev Pv]].
  assert (Nv : String c ds <> "") by discriminate.
  destruct (key_value_line_split key (String c ds) L P Pv Nv) as [Ll S].
  unfold dict_from_file; rewrite F; simpl.
  rewrite read_lines_app, B; simpl.
  unfold process_line, read_line.
  rewrite (letters_not_empty _ Ll), Ll, S; cbn [negb].
  now rewrite NF, Ev.
Qed.

Lemma exponent_name_raises_witness :
  dict_from_file exponent_name_file "a.conf" = Raise (EvalError "E2").
Proof.
  apply (exponent_name_raises exponent_name_file "a.conf" [] [] []
           "GRISM" "E" "2" eq_refl eq_refl eq_refl eq_refl eq_refl eq_refl).
Defined.

(** X8.  A line [key value] whose value neither starts with a letter nor
    is in the numeric grammar (a path, say), and a line made of a key
    alone, store nothing and raise nothing. *)
Theorem unreadable_value_ignored
  (content : Dict.t pyval) (key val : string) (rest : list string) :
  letters_match key = true -> plain key = true ->
  (plain val = true /\ val <> "" /\ letters_match val = false
   /\ Py.numbers_fullmatch val = false ->
   read_lines (key_value_line key val :: rest) content
   = read_lines rest content)
  /\ read_lines (nl key :: rest) content = read_lines rest content.
Proof.
  intros L P; split.
  - intros [Pv [Nv [Lv NF]]].
    destruct (key_value_line_split key val L P Pv Nv) as [Ll S].
    simpl; unfold process_line, read_line.
    rewrite (letters_not_empty _ Ll), Ll, S; cbn [negb].
    now rewrite NF, Lv.
  - destruct key as [|c k]; [discriminate L|].
    simpl in L; simpl read_lines; unfold process_line, read_line.
    assert (Ll : letters_match (nl (String c k)) = true) by exact L.
    rewrite (letters_not_empty _ Ll), Ll; cbn [negb].
    rewrite strip_nl.
    + unfold re_split.
      now rewrite (re_split_aux_plain (String c k) None false 3 "" P).
    + now apply letter_not_space.
    + intros x c' E.
      unfold plain in P; rewrite E, all_chars_app in P.
      apply andb_prop in P; destruct P as [_ P]; simpl in P.
      rewrite andb_true_r in P; now apply plain_char_not_space.
Qed.

Lemma unreadable_value_ignored_witness :
  dict_from_file path_value_file "a.conf"
  = Ok [("XOFF_A", PNum (Flt (Double.of_frac 3 2)))].
Proof.
  unfold dict_from_file, path_value_file; cbn [of_option bind].
  change (read_lines [nl "XOFF_A 1.5"; key_value_line "TABLE" "/data/t.fits";
                      nl "ALONE"] Dict.empty)
    with (c <- process_line Dict.empty (nl "XOFF_A 1.5") ;;
          read_lines [key_value_line "TABLE" "/data/t.fits"; nl "ALONE"] c).
  change (process_line Dict.empty (nl "XOFF_A 1.5"))
    with (@Ok (Dict.t pyval) [("XOFF_A", PNum (Flt (Double.of_frac 3 2)))]).
  cbn [bind].
  rewrite (proj1 (unreadable_value_ignored
                    [("XOFF_A", PNum (Flt (Double.of_frac 3 2)))]
                    "TABLE" "/data/t.fits" [nl "ALONE"] eq_refl eq_refl));
    [|repeat split; discriminate].
  rewrite (proj2 (unreadable_value_ignored
                    [("XOFF_A", PNum (Flt (Double.of_frac 3 2)))]
                    "ALONE" "" [] eq_refl eq_refl)).
  reflexivity.
Defined.

(** ** What [dict_from_file] returns and raises *)

Lemma all_chars_rev_acc (p : ascii -> bool) (s : string) :
  forall acc,
    Str.all_chars p (Str.rev_acc s acc)
    = Str.all_chars p s && Str.all_chars p acc.
Proof.
  induction s as [|c r IH]; intros acc; simpl; [reflexivity|].
  rewrite IH; simpl.
  now rewrite andb_assoc, (andb_comm (Str.all_chars p r) (p c)).
Qed.

Lemma all_chars_rev (p : ascii -> bool) (s : string) :
  Str.all_chars p (Str.rev s) = Str.all_chars p s.
Proof.
  unfold Str.rev; rewrite all_chars_rev_acc; simpl; apply andb_true_r.
Qed.


Lemma re_split_aux_first_no_space (s : string) :
  forall prev ws budget cur k rest,
    no_space cur = true ->
    re_split_aux prev ws (S budget) s cur = k :: rest ->
    no_space k = true.
Proof.
  unfold no_space.
  induction s as [|c r IH]; intros prev ws budget cur k rest C H; simpl in H.
  - injection H as <- _; now rewrite all_chars_rev.
  - destruct (ws && Str.is_space c); [eauto|].
    destruct (Str.is_space c) eqn:Sp.
    + injection H as <- _; now rewrite all_chars_rev.
    + destruct (comma_sep prev c r).
      * injection H as <- _; now rewrite all_chars_rev.
      * refine (IH _ _ _ _ _ _ _ H); simpl; now rewrite Sp.
Qed.

Lemma key_no_space (line key : string) (rest : list string) :
  re_split (Str.strip line) 3 = key :: rest -> no_space key = true.
Proof.
  unfold re_split; intros H.
  exact (re_split_aux_first_no_space (Str.strip line) None false 2 "" key
           rest eq_refl H).
Qed.

(** What a line that sets both [key] and [value] sets them to. *)
Lemma read_line_stored (line key : string) (v : pyval) :
  read_line line = Ok (Some key, Some v) ->
  letters_match key = true /\ no_space key = true /\ stored_value v.
Proof.
  unfold read_line; intros H.
  destruct (negb (empty_match line)); [|discriminate].
  destruct (letters_match line) eqn:L; [|discriminate].
  destruct (re_split (Str.strip line) 3) as [|a [|b [|c [|d l]]]] eqn:S;
    try discriminate.
  - assert (K : letters_match a = true /\ no_space a = true)
      by (split; [exact (key_starts_with_letter line a [b] L S)
                 | exact (key_no_space line a [b] S)]).
    destruct (Py.numbers_fullmatch b).
    + apply bind_Ok in H; destruct H as [n [_ H]].
      injection H as <- <-; unfold stored_value; intuition eauto.
    + destruct (letters_match b) eqn:Lb; [|discriminate].
      injection H as <- <-; unfold stored_value; intuition eauto.
  - assert (K : letters_match a = true /\ no_space a = true)
      by (split; [exact (key_starts_with_letter line a [b; c] L S)
                 | exact (key_no_space line a [b; c] S)]).
    destruct (Py.numbers_fullmatch b && Py.numbers_fullmatch c);
      [|discriminate].
    apply bind_Ok in H; destruct H as [n1 [_ H]].
    apply bind_Ok in H; destruct H as [n2 [_ H]].
    injection H as <- <-; unfold stored_value; intuition eauto.
Qed.

Lemma in_keys_set {V : Type} (k k' : string) (v : V) (d : Dict.t V) :
  In k' (Dict.keys (Dict.set k v d)) <-> k' = k \/ In k' (Dict.keys d).
Proof.
  induction d as [|[k0 v0] r IH]; simpl; [intuition|].
  destruct (String.eqb k k0) eqn:E; simpl.
  - apply String.eqb_eq in E; subst k0; intuition.
  - rewrite IH; intuition.
Qed.

Lemma NoDup_keys_set {V : Type} (k : string) (v : V) (d : Dict.t V) :
  NoDup (Dict.keys d) -> NoDup (Dict.keys (Dict.set k v d)).
Proof.
  induction d as [|[k0 v0] r IH]; simpl; intros H.
  - repeat constructor; intros [].
  - inversion H as [|? ? N H']; subst.
    destruct (String.eqb k k0) eqn:E; simpl; [now constructor|].
    constructor; [|auto].
    rewrite in_keys_set; intros [-> | I]; [|contradiction].
    now rewrite String.eqb_refl in E.
Qed.

Lemma in_set {V : Type} (k k' : string) (v v' : V) (d : Dict.t V) :
  In (k', v') (Dict.set k v d) -> (k' = k /\ v' = v) \/ In (k', v') d.
Proof.
  induction d as [|[k0 v0] r IH]; simpl.
  - intros [H | []]; injection H as <- <-; auto.
  - destruct (String.eqb k k0) eqn:E; simpl.
    + apply String.eqb_eq in E; subst k0.
      intros [H | H]; [injection H as <- <-; auto | auto].
    + intros [H | H]; [auto | destruct (IH H); auto].
Qed.

Lemma store_well_read (content : Dict.t pyval) (line : string)
  (key : option string) (value : option pyval) :
  read_line line = Ok (key, value) ->
  well_read content -> well_read (store content key value).
Proof.
  intros R [N W]; unfold store.
  destruct key as [k|], value as [v|]; try (split; assumption).
  destruct (negb (String.eqb k "")); [|split; assumption].
  destruct (Str.contains "FILTER" k) eqn:F; [split; assumption|].
  destruct (Str.contains "SENSITIVITY" k) eqn:S; [split; assumption|].
  simpl; split; [now apply NoDup_keys_set|].
  intros k' v' I; apply in_set in I; destruct I as [[-> ->] | I]; [|auto].
  destruct (read_line_stored line k v R) as [L [Sp Sv]].
  unfold auxiliary; rewrite F, S; auto.
Qed.

Lemma read_lines_well_read (lines : list string) :
  forall content content',
    well_read content -> read_lines lines content = Ok content' ->
    well_read content'.
Proof.
  induction lines as [|l r IH]; simpl; intros content content' W H.
  - now injection H as <-.
  - apply bind_Ok in H; destruct H as [c1 [H1 H]].
    apply (IH c1 content'); [|exact H].
    unfold process_line in H1.
    apply bind_Ok in H1; destruct H1 as [[k v] [R H1]].
    injection H1 as <-; now apply (store_well_read content l).
Qed.

(** X9.  In the mapping [dict_from_file] returns every key occurs once,
    starts with a letter and contains no white space, and every value is
    a string that starts with a letter, a number, or a pair of
    numbers. *)
Theorem dict_from_file_well_read
  (fs : filesystem) (name : string) (content : Dict.t pyval) :
  dict_from_file fs name = Ok content ->
  NoDup (Dict.keys content)
  /\ forall k v, In (k, v) content ->
                 letters_match k = true /\ no_space k = true
                 /\ stored_value v.
Proof.
  unfold dict_from_file; intros H.
  apply bind_Ok in H; destruct H as [lines [_ H]].
  assert (W0 : well_read (@Dict.empty pyval))
    by (split; [constructor | intros k v []]).
  destruct (read_lines_well_read lines _ _ W0 H) as [N W].
  split; [exact N|].
  intros k v I; destruct (W k v I) as [L [S [_ V]]]; auto.
Qed.

Lemma dict_from_file_well_read_witness :
  dict_from_file mixed_file "a.conf"
  = Ok [("INSTRUMENT", PStr "NIRCAM");
        ("XRANGE_A", PTuple (PNum (Int (-10))) (PNum (Flt (Double.of_Z 100))));
        ("XOFF_A", PNum (Int 2))]
  /\ NoDup ["INSTRUMENT"; "XRANGE_A"; "XOFF_A"].
Proof.
  split; [reflexivity|].
  exact (proj1 (dict_from_file_well_read mixed_file "a.conf"
                  [("INSTRUMENT", PStr "NIRCAM");
                   ("XRANGE_A", PTuple (PNum (Int (-10)))
                                  (PNum (Flt (Double.of_Z 100))));
                   ("XOFF_A", PNum (Int 2))] eq_refl)).
Defined.

Lemma eval_raises (tok : string) (e : exn) :
  Py.eval tok = Raise e -> e = EvalError tok.
Proof.
  unfold Py.eval.
  destruct (Py.parse_literal tok) as [l|];
    [destruct (Py.well_formed l); [discriminate|] |]; congruence.
Qed.

Lemma process_line_raises (content : Dict.t pyval) (line : string) (e : exn) :
  process_line content line = Raise e ->
  (exists key, e = min_max_error key /\ letters_match key = true)
  \/ (exists tok, Py.numbers_fullmatch tok = true /\ Py.eval tok = Raise e).
Proof.
  unfold process_line; intros H.
  apply bind_Raise in H; destruct H as [H | [[k v] [_ H]]]; [|discriminate].
  unfold read_line in H.
  destruct (negb (empty_match line)); [|discriminate].
  destruct (letters_match line) eqn:L; [|discriminate].
  destruct (re_split (Str.strip line) 3) as [|a [|b [|c [|d l]]]] eqn:S;
    try discriminate.
  - destruct (Py.numbers_fullmatch b) eqn:NF; [|discriminate].
    apply bind_Raise in H; destruct H as [H | [n [_ H]]]; [|discriminate].
    right; eauto.
  - destruct (Py.numbers_fullmatch b) eqn:NFb; simpl in H.
    + destruct (Py.numbers_fullmatch c) eqn:NFc; simpl in H.
      * right.
        apply bind_Raise in H; destruct H as [H | [n1 [_ H]]]; [eauto|].
        apply bind_Raise in H; destruct H as [H | [n2 [_ H]]];
          [eauto | discriminate].
      * left; exists a; split; [injection H as <-; reflexivity|].
        exact (key_starts_with_letter line a [b; c] L S).
    + left; exists a; split; [injection H as <-; reflexivity|].
      exact (key_starts_with_letter line a [b; c] L S).
Qed.

(** X10.  [dict_from_file] raises in three ways only: the file cannot be
    opened; a three-token line has a token outside the numeric grammar
    ("Min/max values expected for <key>"); a token of the numeric grammar
    is not a Python expression that evaluates. *)
Theorem dict_from_file_raises
  (fs : filesystem) (name : string) (e : exn) :
  dict_from_file fs name = Raise e ->
  (fs name = None /\ e = FileNotFoundError name)
  \/ (exists key, e = min_max_error key /\ letters_match key = true)
  \/ (exists tok, e = EvalError tok /\ Py.numbers_fullmatch tok = true
                  /\ Py.eval tok = Raise e).
Proof.
  unfold dict_from_file; intros H.
  destruct (fs name) as [lines|]; simpl in H; [right | left; split; congruence].
  revert H; generalize (@Dict.empty pyval) as content.
  induction lines as [|l r IH]; simpl; intros content H; [discriminate|].
  apply bind_Raise in H; destruct H as [H | [c1 [_ H]]]; [|eauto].
  destruct (process_line_raises content l e H) as [K | [tok [NF Ev]]];
    [left; exact K | right].
  exists tok; repeat split; [exact (eval_raises tok e Ev) | exact NF | exact Ev].
Qed.

Lemma dict_from_file_raises_witness :
  (exponent_name_file "a.conf" = None
   /\ EvalError "E2" = FileNotFoundError "a.conf")
  \/ (exists key, EvalError "E2" = min_max_error key
                  /\ letters_match key = true)
  \/ (exists tok, EvalError "E2" = EvalError tok
                  /\ Py.numbers_fullmatch tok = true
                  /\ Py.eval tok = Raise (EvalError "E2")).
Proof.
  apply (dict_from_file_raises exponent_name_file "a.conf" (EvalError "E2")).
  reflexivity.
Defined.

(** ** More on [create_grism_specwcs] *)

Lemma order_models_append (d : Dict.t pyval) (m : models) :
  order_models d m
  = (s <- order_models d no_models ;; Ok (append_models m s)).
Proof.
  unfold order_models.
  destruct (Dict.get "DISPL" d) as [vl|]; [|reflexivity]; cbn [bind].
  destruct (subscript vl 0) as [l0|]; [|reflexivity]; cbn [bind].
  destruct (subscript vl 1) as [l1|]; [|reflexivity]; cbn [bind].
  destruct (inverse_poly l0 l1) as [il|]; [|reflexivity]; cbn [bind].
  destruct (forward_poly l0 l1) as [fl|]; [|reflexivity]; cbn [bind].
  destruct (Dict.get "DISPX" d) as [vx|]; [|reflexivity]; cbn [bind].
  destruct (unpack2 vx) as [[x0 x1]|]; [|reflexivity]; cbn [bind].
  destruct (forward_poly x0 x1) as [fx|]; [|reflexivity]; cbn [bind].
  destruct (inverse_poly x0 x1) as [ix|]; [|reflexivity]; cbn [bind].
  destruct (Dict.get "DISPY" d) as [vy|]; [|reflexivity]; cbn [bind].
  destruct (unpack2 vy) as [[y0 y1]|]; [|reflexivity]; cbn [bind].
  destruct (forward_poly y0 y1) as [fy|]; [|reflexivity]; cbn [bind].
  destruct (inverse_poly y0 y1) as [iy|]; reflexivity.
Qed.

Lemma order_models_singletons (d : Dict.t pyval) (s : models) :
  order_models d no_models = Ok s -> beam_models d s.
Proof.
  intros H; split; [exact H|].
  unfold order_models in H.
  repeat (apply bind_Ok in H; destruct H as [? [_ H]];
          try match goal with p : (_ * _)%type |- _ => destruct p end).
  injection H as <-; repeat split.
Qed.

Lemma all_models_beams (bd : beamdict) :
  forall m m',
    all_models bd m = Ok m' ->
    exists ss,
      Forall2 (fun b s => beam_models (snd b) s) bd ss
      /\ m' = fold_left append_models ss m.
Proof.
  induction bd as [|[b d] r IH]; simpl; intros m m' H.
  - injection H as <-; exists []; split; [constructor | reflexivity].
  - rewrite order_models_append in H.
    apply bind_Ok in H; destruct H as [m1 [H1 H]].
    apply bind_Ok in H1; destruct H1 as [s [Hs H1]]; injection H1 as <-.
    destruct (IH _ _ H) as [ss [F ->]].
    exists (s :: ss); split; [|reflexivity].
    constructor; [now apply order_models_singletons | exact F].
Qed.

Lemma fold_append_models (ss : list models) :
  forall m,
    let m' := fold_left append_models ss m in
    m_displ m' = m_displ m ++ flat_map m_displ ss
    /\ m_dispx m' = m_dispx m ++ flat_map m_dispx ss
    /\ m_dispy m' = m_dispy m ++ flat_map m_dispy ss
    /\ m_invdispl m' = m_invdispl m ++ flat_map m_invdispl ss
    /\ m_invdispx m' = m_invdispx m ++ flat_map m_invdispx ss
    /\ m_invdispy m' = m_invdispy m ++ flat_map m_invdispy ss.
Proof.
  induction ss as [|s ss IH]; intros m; simpl.
  - now rewrite !app_nil_r.
  - destruct (IH (append_models m s)) as [A [B [C [D [E F]]]]].
    rewrite A, B, C, D, E, F; simpl; now rewrite <- !app_assoc.
Qed.

Lemma flat_map_singletons {A B : Type} (f : A -> list B) (l : list A) :
  Forall (fun x => List.length (f x) = 1) l ->
  List.length (flat_map f l) = List.length l.
Proof.
  induction 1 as [|x l Hx _ IH]; simpl; [reflexivity|].
  now rewrite length_app, Hx, IH.
Qed.

(** X11.  When [create_grism_specwcs] gets to build its object, each of
    the six model lists is the beams' contributions put end to end in
    the order of the beams, one model per beam and list, and the order
    list has one integer per beam: position [i] of every list belongs to
    beam [i]. *)
Theorem grism_lists_follow_beams
  (utcnow : string) (fs : filesystem) (conffile : string)
  (filter pupil module : option string) (author history : string)
  (outname : option string) (name : string) (ref : NIRCAMGrismModel) :
  grism_specwcs_ref utcnow fs conffile filter pupil module author history
    outname = Ok (name, ref) ->
  exists conf bd ss,
    dict_from_file fs conffile = Ok conf
    /\ split_order_info (Mapping conf) = Ok bd
    /\ Forall2 (fun b s => beam_models (snd b) s) bd ss
    /\ displ ref = flat_map m_displ ss /\ dispx ref = flat_map m_dispx ss
    /\ dispy ref = flat_map m_dispy ss
    /\ invdispl ref = flat_map m_invdispl ss
    /\ invdispx ref = flat_map m_invdispx ss
    /\ invdispy ref = flat_map m_invdispy ss
    /\ Forall2 (fun b n => Py.int (fst b) = Ok n) bd (orders ref)
    /\ List.length (displ ref) = List.length bd
    /\ List.length (dispx ref) = List.length bd
    /\ List.length (dispy ref) = List.length bd
    /\ List.length (invdispl ref) = List.length bd
    /\ List.length (invdispx ref) = List.length bd
    /\ List.length (invdispy ref) = List.length bd
    /\ List.length (orders ref) = List.length bd.
Proof.
  intros H; unfold grism_specwcs_ref in H.
  apply bind_Ok in H; destruct H as [[[f p] m] [_ H]].
  apply bind_Ok in H; destruct H as [kw [_ H]].
  apply bind_Ok in H; destruct H as [conf [C H]].
  apply bind_Ok in H; destruct H as [bd [B H]].
  apply bind_Ok in H; destruct H as [ms [M H]].
  apply bind_Ok in H; destruct H as [oo [O H]].
  injection H as _ <-; cbn [displ dispx dispy invdispl invdispx invdispy orders].
  destruct (all_models_beams bd _ _ M) as [ss [F ->]].
  destruct (fold_append_models ss no_models) as [E1 [E2 [E3 [E4 [E5 E6]]]]].
  cbv zeta in E1, E2, E3, E4, E5, E6; simpl in E1, E2, E3, E4, E5, E6.
  assert (L : List.length ss = List.length bd)
    by (symmetry; exact (Forall2_length F)).
  assert (S : forall pr : models -> list Polynomial1D,
             (forall d s, beam_models d s -> List.length (pr s) = 1) ->
             List.length (flat_map pr ss) = List.length bd).
  { intros pr P; rewrite <- L; apply flat_map_singletons.
    clear - F P; induction F as [|[b d] s bd ss Hs _ IH]; constructor; eauto. }
  assert (O' : Forall2 (fun b n => Py.int (fst b) = Ok n) bd oo).
  { apply int_orders_parsed in O; unfold Dict.keys in O.
    clear - O; remember (map fst bd) as ks eqn:E; revert bd E.
    induction O as [|k n ks ns Hk _ IH]; intros [|[b d] bd] E;
      try discriminate; constructor.
    - simpl in E; injection E as -> _; exact Hk.
    - simpl in E; injection E as _ E; now apply IH. }
  exists conf, bd, ss.
  rewrite E1, E2, E3, E4, E5, E6.
  repeat split; auto;
    try (apply S; intros d s Hs; unfold beam_models in Hs; tauto).
  symmetry; exact (Forall2_length O').
Qed.

Lemma grism_lists_follow_beams_witness :
  exists name ref,
    grism_specwcs_ref "2024-01-01T00:00:00" two_beam_files beam_A_name
      None None None "STScI" "" None = Ok (name, ref)
    /\ orders ref = [1; 2]%Z
    /\ List.length (displ ref) = 2 /\ List.length (invdispy ref) = 2.
Proof.
  assert (H : exists nr,
             grism_specwcs_ref "2024-01-01T00:00:00" two_beam_files
               beam_A_name None None None "STScI" "" None = Ok nr
             /\ orders (snd nr) = [1; 2]%Z)
    by (eexists; split; vm_compute; reflexivity).
  destruct H as [[name ref] [H O]].
  destruct (grism_lists_follow_beams _ _ _ _ _ _ _ _ _ name ref H)
    as [conf [bd [ss [_ [_ [_ [_ [_ [_ [_ [_ [_ [_ [L1 [_ [_ [_ [_ [L6 Lo]]]]]]]]]]]]]]]]]]].
  exists name, ref; simpl in O; rewrite O in Lo; simpl in Lo.
  repeat split; [exact H | exact O | congruence | congruence].
Defined.

Lemma order_models_missing (d : Dict.t pyval) :
  Dict.lookup "DISPL" d = None \/ Dict.lookup "DISPX" d = None
  \/ Dict.lookup "DISPY" d = None ->
  forall m, exists e, order_models d m = Raise e.
Proof.
  intros H m; unfold order_models, Dict.get.
  destruct (Dict.lookup "DISPL" d) as [vl|]; cbn [of_option bind]; [|eauto].
  destruct (subscript vl 0) as [l0|]; cbn [bind]; [|eauto].
  destruct (subscript vl 1) as [l1|]; cbn [bind]; [|eauto].
  destruct (inverse_poly l0 l1) as [il|]; cbn [bind]; [|eauto].
  destruct (forward_poly l0 l1) as [fl|]; cbn [bind]; [|eauto].
  destruct (Dict.lookup "DISPX" d) as [vx|]; cbn [of_option bind]; [|eauto].
  destruct (unpack2 vx) as [[x0 x1]|]; cbn [bind]; [|eauto].
  destruct (forward_poly x0 x1) as [fx|]; cbn [bind]; [|eauto].
  destruct (inverse_poly x0 x1) as [ix|]; cbn [bind]; [|eauto].
  destruct (Dict.lookup "DISPY" d) as [vy|]; cbn [of_option bind]; [|eauto].
  destruct H as [H | [H | H]]; discriminate H.
Qed.

Lemma all_models_fails (bd : beamdict) (b : string) (d : Dict.t pyval) :
  In (b, d) bd -> (forall m, exists e, order_models d m = Raise e) ->
  forall m, exists e, all_models bd m = Raise e.
Proof.
  intros I F; induction bd as [|[b0 d0] r IH]; [destruct I|].
  intros m; simpl.
  destruct I as [I | I].
  - injection I as -> ->; destruct (F m) as [e ->]; simpl; eauto.
  - destruct (order_models d0 m) as [m1|e]; simpl; [apply IH, I | eauto].
Qed.

(** X12.  If a beam is left without [DISPL], [DISPX] or [DISPY] (a
    coefficient line is missing, or only one of its two lines is there
    and it was merged away), the call raises and writes no file; when it
    is the first beam that has no [DISPL] and the names are in hand, what
    it raises is [KeyError 'DISPL']. *)
Theorem grism_missing_coefficients
  (utcnow : string) (validate : NIRCAMGrismModel -> result unit)
  (fs : filesystem) (conffile : string) (filter pupil module : option string)
  (author history : string) (outname : option string)
  (conf : Dict.t pyval) (bd : beamdict) (b : string) (d : Dict.t pyval) :
  dict_from_file fs conffile = Ok conf ->
  split_order_info (Mapping conf) = Ok bd ->
  In (b, d) bd ->
  Dict.lookup "DISPL" d = None \/ Dict.lookup "DISPX" d = None
  \/ Dict.lookup "DISPY" d = None ->
  (exists e,
      create_grism_specwcs utcnow validate fs conffile filter pupil module
        author history outname = (Raise e, []))
  /\ (forall names rest,
         names_from conffile filter pupil module = Ok names ->
         bd = (b, d) :: rest -> Dict.lookup "DISPL" d = None ->
         create_grism_specwcs utcnow validate fs conffile filter pupil module
           author history outname = (Raise (KeyError "DISPL"), [])).
Proof.
  intros C B I M.
  unfold create_grism_specwcs, grism_specwcs_ref; split.
  - destruct (names_from conffile filter pupil module)
      as [[[f p] m]|e]; cbn [bind]; [|eauto].
    cbn [common_reference_file_keywords bind].
    rewrite C; cbn [bind]; rewrite B; cbn [bind].
    destruct (all_models_fails bd b d I (order_models_missing d M) no_models)
      as [e ->]; cbn [bind]; eauto.
  - intros [[f p] m] rest N -> L.
    rewrite N; cbn [bind common_reference_file_keywords].
    rewrite C; cbn [bind]; rewrite B; cbn [bind all_models].
    unfold order_models, Dict.get; rewrite L; reflexivity.
Qed.

Lemma grism_missing_coefficients_witness :
  exists e,
    create_grism_specwcs "2024-01-01T00:00:00" accept no_dispy_files
      beam_A_name None None None "STScI" "" None = (Raise e, []).
Proof.
  refine (proj1 (grism_missing_coefficients "2024-01-01T00:00:00" accept
                   no_dispy_files beam_A_name None None None "STScI" "" None
                   [("DISPL_+1_0", PNum (Int 0)); ("DISPL_+1_1", PNum (Int 2));
                    ("DISPX_+1_0", PNum (Int 1)); ("DISPX_+1_1", PNum (Int 0))]
                   [("+1", [("DISPL", PTuple (PNum (Int 0)) (PNum (Int 2)));
                            ("DISPX", PTuple (PNum (Int 1)) (PNum (Int 0)))])]
                   "+1" [("DISPL", PTuple (PNum (Int 0)) (PNum (Int 2)));
                         ("DISPX", PTuple (PNum (Int 1)) (PNum (Int 0)))]
                   _ _ _ _)).
  - vm_compute; reflexivity.
  - vm_compute; reflexivity.
  - left; reflexivity.
  - right; right; reflexivity.
Defined.

(** ** File names *)

Lemma split_aux_no_sep (sep : ascii) (s : string) :
  forall cur,
    has_char sep s = false ->
    Str.split_aux sep s cur = [(Str.rev cur ++ s)%string].
Proof.
  unfold has_char; induction s as [|c r IH]; intros cur H; simpl.
  - now rewrite append_nil_r.
  - apply negb_false_iff in H; simpl in H.
    apply andb_prop in H; destruct H as [Hc Hr].
    apply negb_true_iff in Hc; rewrite Hc.
    rewrite IH by (now apply negb_false_iff).
    now rewrite rev_cons, append_assoc.
Qed.

Lemma split_aux_at_sep (sep : ascii) (a r : string) :
  forall cur,
    has_char sep a = false ->
    Str.split_aux sep (a ++ String sep r) cur
    = (Str.rev cur ++ a)%string :: Str.split_aux sep r "".
Proof.
  unfold has_char; induction a as [|c a IH]; intros cur H; simpl.
  - now rewrite Ascii.eqb_refl, append_nil_r.
  - apply negb_false_iff in H; simpl in H.
    apply andb_prop in H; destruct H as [Hc Ha].
    apply negb_true_iff in Hc; rewrite Hc.
    rewrite IH by (now apply negb_false_iff).
    now rewrite rev_cons, append_assoc.
Qed.

Lemma split_aux_head (sep : ascii) (s : string) :
  forall cur, exists h t, Str.split_aux sep s cur = h :: t.
Proof.
  induction s as [|c r IH]; intros cur; simpl; [eauto|].
  destruct (Ascii.eqb c sep); eauto.
Qed.

(** X13.  Names read off the file name.  A name of the form
    [a_f_....ext], where [a] and [f] have no underscore, gives the
    filter [f]; the part before the first dot gives the pupil, [GRISM]
    followed by its last character, and the module, its third character
    from the end.  When the filter is not given and the name has no
    underscore, the call raises [IndexError] before any file is opened,
    and writes nothing. *)
Theorem names_from_file_name
  (a f tail pre ext : string) (m u p : ascii) (stem : string) :
  stem = (a ++ String "_" (f ++ String "_" tail))%string ->
  stem = (pre ++ String m (String u (String p "")))%string ->
  has_char "_" a = false -> has_char "_" f = false ->
  has_char "." stem = false ->
  names_from (stem ++ String "." ext) None None None
  = Ok (f, ("GRISM" ++ String p "")%string, String m "")
  /\ (forall utcnow validate fs conffile pupil module author history outname,
         has_char "_" conffile = false ->
         create_grism_specwcs utcnow validate fs conffile None pupil module
           author history outname = (Raise IndexError, [])).
Proof.
  intros Ea Ep Ha Hf Hs; split.
  - unfold names_from.
    assert (F : nth_error (Str.split "_" (stem ++ String "." ext)) 1 = Some f).
    { rewrite Ea; unfold Str.split.
      rewrite append_assoc; simpl append.
      rewrite (split_aux_at_sep "_" a _ "" Ha); simpl.
      rewrite append_assoc; simpl append.
      now rewrite (split_aux_at_sep "_" f _ "" Hf). }
    rewrite F; cbn [of_option bind].
    assert (S : hd "" (Str.split "." (stem ++ String "." ext)) = stem).
    { unfold Str.split; now rewrite (split_aux_at_sep "." stem ext "" Hs). }
    rewrite S.
    assert (R : Str.rev stem
                = String p (String u (String m (Str.rev pre)))).
    { rewrite Ep.
      change (pre ++ String m (String u (String p "")))%string
        with (pre ++ (String m "" ++ (String u "" ++ String p "")))%string.
      rewrite <- !append_assoc; now rewrite !rev_snoc. }
    unfold Str.nth_from_end; rewrite R; reflexivity.
  - intros utcnow validate fs conffile pupil module author history outname H.
    unfold create_grism_specwcs, grism_specwcs_ref, names_from, Str.split.
    now rewrite (split_aux_no_sep "_" conffile "" H).
Qed.

Lemma names_from_file_name_witness :
  names_from "NIRCAM_F444W_modB_R.conf" None None None
  = Ok ("F444W", "GRISMR", "B")
  /\ create_grism_specwcs "2024-01-01T00:00:00" accept plus1_files
       "grism.conf" None None None "STScI" "" None = (Raise IndexError, []).
Proof.
  pose proof (names_from_file_name "NIRCAM" "F444W" "modB_R"
                "NIRCAM_F444W_mod" "conf" "B" "_" "R" "NIRCAM_F444W_modB_R"
                eq_refl eq_refl eq_refl eq_refl eq_refl) as [A B].
  split; [exact A|].
  apply B; reflexivity.
Defined.

(** ** Dictionaries, continued *)

Lemma lookup_in_keys {V : Type} (k : string) (d : Dict.t V) :
  In k (Dict.keys d) -> exists v, Dict.lookup k d = Some v.
Proof.
  induction d as [|[k0 v0] r IH]; simpl; [intros []|].
  destruct (String.eqb_spec k k0) as [-> | N]; [eauto|].
  intros [E | I]; [congruence | auto].
Qed.

Lemma lookup_some_in {V : Type} (k : string) (v : V) (d : Dict.t V) :
  Dict.lookup k d = Some v -> In (k, v) d.
Proof.
  induction d as [|[k0 v0] r IH]; simpl; [discriminate|].
  destruct (String.eqb_spec k k0) as [-> | N].
  - intros H; injection H as ->; auto.
  - auto.
Qed.

Lemma lookup_none_keys {V : Type} (k : string) (d : Dict.t V) :
  Dict.lookup k d = None <-> ~ In k (Dict.keys d).
Proof.
  split.
  - intros H I; destruct (lookup_in_keys k d I) as [v E]; congruence.
  - intros N; destruct (Dict.lookup k d) as [v|] eqn:E; [|reflexivity].
    exfalso; apply N; apply lookup_some_in in E.
    unfold Dict.keys; now apply (in_map fst) in E.
Qed.

Lemma mem_keys {V : Type} (k : string) (d : Dict.t V) :
  Dict.mem k d = true <-> In k (Dict.keys d).
Proof.
  unfold Dict.mem; split.
  - destruct (Dict.lookup k d) as [v|] eqn:E; [|discriminate].
    intros _; apply lookup_some_in in E.
    unfold Dict.keys; now apply (in_map fst) in E.
  - intros I; destruct (lookup_in_keys k d I) as [v ->]; reflexivity.
Qed.

Lemma Forall_set {V : Type} (P : string * V -> Prop) (k : string) (v : V)
  (d : Dict.t V) :
  Forall P d -> P (k, v) -> Forall P (Dict.set k v d).
Proof.
  induction 1 as [|[k0 v0] r H0 Hr IH]; simpl; intros Hk.
  - repeat constructor; exact Hk.
  - destruct (String.eqb_spec k k0) as [-> | N]; constructor; auto.
Qed.

Lemma in_keys_update {V : Type} (o : Dict.t V) :
  forall (d : Dict.t V) k,
    In k (Dict.keys (Dict.update d o))
    <-> In k (Dict.keys d) \/ In k (Dict.keys o).
Proof.
  unfold Dict.update; induction o as [|[k0 v0] r IH]; intros d k; simpl.
  - intuition.
  - rewrite IH, in_keys_set; intuition.
Qed.

Lemma NoDup_keys_update {V : Type} (o : Dict.t V) :
  forall d : Dict.t V,
    NoDup (Dict.keys d) -> NoDup (Dict.keys (Dict.update d o)).
Proof.
  unfold Dict.update; induction o as [|[k0 v0] r IH]; intros d N; simpl;
    [exact N|].
  apply IH, NoDup_keys_set, N.
Qed.

Lemma in_keys_remove {V : Type} (k k' : string) (d : Dict.t V) :
  NoDup (Dict.keys d) ->
  (In k' (Dict.keys (Dict.remove k d)) <-> k' <> k /\ In k' (Dict.keys d)).
Proof.
  induction d as [|[k0 v0] r IH]; simpl; intros N; [intuition|].
  inversion N as [|? ? N0 Nr]; subst.
  destruct (String.eqb_spec k k0) as [-> | D]; simpl.
  - split.
    + intros I; split; [intros ->; contradiction | auto].
    + intros [D [E | I]]; [congruence | exact I].
  - rewrite (IH Nr); split.
    + intros [E | [D' I]]; [subst k'; split; auto | auto].
    + intros [D' [E | I]]; auto.
Qed.

Lemma NoDup_keys_remove {V : Type} (k : string) (d : Dict.t V) :
  NoDup (Dict.keys d) -> NoDup (Dict.keys (Dict.remove k d)).
Proof.
  induction d as [|[k0 v0] r IH]; simpl; intros N; [exact N|].
  inversion N as [|? ? N0 Nr]; subst.
  destruct (String.eqb_spec k k0) as [-> | D]; simpl; [exact Nr|].
  constructor; [|auto].
  rewrite (in_keys_remove k k0 r Nr); tauto.
Qed.

(** ** Keys with a beam have a second field *)

Lemma letter_not_underscore (c : ascii) :
  Str.is_letter c = true -> Ascii.eqb c "_" = false.
Proof.
  destruct c as [[] [] [] [] [] [] [] []]; vm_compute; congruence.
Qed.

Lemma split_second (s : string) :
  forall cur u r,
    Str.drop_while Str.is_letter s = String u r -> Ascii.eqb u "_" = true ->
    exists x, nth_error (Str.split_aux "_" s cur) 1 = Some x.
Proof.
  induction s as [|c s IH]; simpl; intros cur u r H U; [discriminate|].
  destruct (Str.is_letter c) eqn:L.
  - rewrite (letter_not_underscore c L); eauto.
  - injection H as <- <-; rewrite U.
    destruct (split_aux_head "_" s "") as [h [t ->]]; simpl; eauto.
Qed.

Lemma token_match_beam_of (key : string) :
  token_match key = true -> exists b, beam_of key = Ok b.
Proof.
  unfold token_match, token_prefix, beam_of, Str.split; intros H.
  destruct (Str.drop_while Str.is_letter key) as [|u r] eqn:D;
    [discriminate|].
  destruct (Ascii.eqb u "_") eqn:U; [|discriminate].
  destruct (split_second key "" u r D U) as [x ->]; simpl; eauto.
Qed.

(** ** The beams of the result *)

Lemma prefetch_beams_spec (ks : list string) :
  forall beams,
    NoDup beams ->
    exists beams',
      prefetch_beams ks beams = Ok beams'
      /\ NoDup beams'
      /\ (forall b, In b beams'
                    <-> In b beams
                        \/ exists key, In key ks /\ token_match key = true
                                       /\ beam_of key = Ok b).
Proof.
  induction ks as [|k r IH]; intros beams N; simpl.
  - exists beams; repeat split; auto; intros [H | [key [[] _]]]; exact H.
  - destruct (token_match k) eqn:T.
    + destruct (token_match_beam_of k T) as [b0 B]; rewrite B; cbn [bind].
      destruct (existsb (String.eqb b0) beams) eqn:X.
      * destruct (IH beams N) as [beams' [E [N' S]]].
        exists beams'; repeat split; auto.
        -- intros I; apply S in I; destruct I as [I | [key [I [Tk Bk]]]];
             [auto | right; exists key; auto].
        -- intros [I | [key [[<- | I] [Tk Bk]]]]; apply S.
           ++ auto.
           ++ left; apply existsb_exists in X; destruct X as [x [Ix Ex]].
              apply String.eqb_eq in Ex; subst x.
              rewrite B in Bk; now injection Bk as <-.
           ++ right; exists key; auto.
      * assert (N1 : NoDup (beams ++ [b0])).
        { apply NoDup_app; [exact N | repeat constructor; intros [] |].
          intros x Ix [E | []]; subst x.
          assert (existsb (String.eqb b0) beams = true)
            by (apply existsb_exists; exists b0; split;
                [exact Ix | apply String.eqb_refl]).
          congruence. }
        destruct (IH (beams ++ [b0]) N1) as [beams' [E [N' S]]].
        exists beams'; repeat split; auto.
        -- intros I; apply S in I; destruct I as [I | [key [I [Tk Bk]]]].
           ++ apply in_app_or in I; destruct I as [I | [<- | []]]; [auto|].
              right; exists k; auto.
           ++ right; exists key; auto.
        -- intros [I | [key [[<- | I] [Tk Bk]]]]; apply S.
           ++ left; apply in_or_app; auto.
           ++ left; apply in_or_app; right; left.
              rewrite B in Bk; now injection Bk.
           ++ right; exists key; auto.
    + destruct (IH beams N) as [beams' [E [N' S]]].
      exists beams'; repeat split; auto.
      * intros I; apply S in I; destruct I as [I | [key [I [Tk Bk]]]];
          [auto | right; exists key; auto].
      * intros [I | [key [[<- | I] [Tk Bk]]]]; apply S;
          [auto | congruence | right; exists key; auto].
Qed.

Lemma init_rdict_spec (beams : list string) :
  NoDup beams ->
  Dict.keys (init_rdict beams) = beams /\ tidy (init_rdict beams).
Proof.
  unfold init_rdict.
  assert (G : forall rd : beamdict,
             NoDup (Dict.keys rd ++ beams) -> tidy rd ->
             Dict.keys (fold_left (fun rd b => Dict.set b Dict.empty rd)
                          beams rd) = Dict.keys rd ++ beams
             /\ tidy (fold_left (fun rd b => Dict.set b Dict.empty rd)
                        beams rd)).
  { induction beams as [|b r IH]; intros rd N T; simpl.
    - now rewrite app_nil_r.
    - assert (M : Dict.mem b rd = false).
      { destruct (Dict.mem b rd) eqn:M; [|reflexivity].
        apply mem_keys in M.
        apply NoDup_remove_2 in N; exfalso; apply N.
        apply in_or_app; auto. }
      destruct (IH (Dict.set b Dict.empty rd)) as [K T'].
      + rewrite (keys_set_absent b Dict.empty rd M), <- app_assoc; exact N.
      + apply Forall_set; [exact T | constructor].
      + split; [|exact T'].
        now rewrite K, (keys_set_absent b Dict.empty rd M), <- app_assoc. }
  intros N; apply (G Dict.empty); [exact N | constructor].
Qed.

Lemma all_chars_remove_all_aux (p : ascii -> bool) (pat s : string) :
  forall skip,
    Str.all_chars p s = true ->
    Str.all_chars p (Str.remove_all_aux pat s skip) = true.
Proof.
  induction s as [|c r IH]; intros skip H; [reflexivity|].
  simpl in H; apply andb_prop in H; destruct H as [Hc Hr].
  cbn [Str.remove_all_aux].
  destruct skip as [|k]; [|auto].
  destruct (prefix pat (String c r)); [auto|].
  cbn [Str.all_chars]; apply andb_true_intro; auto.
Qed.

Lemma no_space_remove_all (pat s : string) :
  no_space s = true -> no_space (Str.remove_all pat s) = true.
Proof.
  unfold no_space, Str.remove_all; intros H.
  destruct pat; [exact H | now apply all_chars_remove_all_aux].
Qed.

Lemma assign_keys_spec (items : Dict.t pyval) :
  forall rd,
    tidy rd ->
    (forall key b, In key (Dict.keys items) -> token_match key = true ->
                   beam_of key = Ok b -> In b (Dict.keys rd)) ->
    exists rd',
      assign_keys items rd = Ok rd'
      /\ Dict.keys rd' = Dict.keys rd /\ tidy rd'
      /\ (spaceless items -> Forall (fun bd => spaceless (snd bd)) rd ->
          Forall (fun bd => spaceless (snd bd)) rd').
Proof.
  induction items as [|[key v] r IH]; intros rd T B; simpl.
  - exists rd; auto.
  - destruct (token_match key) eqn:M.
    + destruct (token_match_beam_of key M) as [b Eb]; rewrite Eb; cbn [bind].
      assert (Ib : In b (Dict.keys rd)) by (apply (B key b); simpl; auto).
      destruct (lookup_in_keys b rd Ib) as [d Ed].
      unfold Dict.get; rewrite Ed; cbn [of_option bind].
      pose proof (lookup_some_in b d rd Ed) as Id.
      set (d1 := Dict.set (Str.remove_all ("_" ++ b) key) v d).
      assert (K : Dict.keys (Dict.set b d1 rd) = Dict.keys rd)
        by (apply keys_set_present, mem_keys, Ib).
      destruct (IH (Dict.set b d1 rd)) as [rd' [E [K' [T' S']]]].
      * apply Forall_set; [exact T|]; simpl.
        apply NoDup_keys_set.
        unfold tidy in T; rewrite Forall_forall in T; exact (T _ Id).
      * intros key' b' I; rewrite K; apply B; simpl; auto.
      * exists rd'; repeat split; [exact E | congruence | exact T' |].
        intros Sp F; apply S'.
        -- inversion Sp; assumption.
        -- apply Forall_set; [exact F|]; simpl.
           unfold spaceless; apply Forall_forall; intros k Ik.
           apply in_keys_set in Ik; destruct Ik as [-> | Ik].
           ++ apply no_space_remove_all; now inversion Sp.
           ++ rewrite Forall_forall in F.
              pose proof (F _ Id) as Fd; simpl in Fd.
              unfold spaceless in Fd; rewrite Forall_forall in Fd; auto.
    + destruct (IH rd T) as [rd' [E [K' [T' S']]]].
      * intros key' b' I; apply B; simpl; auto.
      * exists rd'; repeat split; auto.
        intros Sp F; apply S'; [inversion Sp; assumption | exact F].
Qed.

(** ** What the range loop raises *)

Lemma all_chars_last (p : ascii -> bool) (s : string) (c : ascii) :
  Str.all_chars p s = true -> Str.last_char s = Some c -> p c = true.
Proof.
  induction s as [|a r IH]; simpl; [discriminate|].
  intros H L; apply andb_prop in H; destruct H as [Ha Hr].
  destruct r as [|b r']; [injection L as <-; exact Ha | auto].
Qed.

Lemma bind_members_raises (d : Dict.t pyval) (mlist : list string) :
  Forall (fun m => rangekey_match m = true /\ In m (Dict.keys d)) mlist ->
  forall st e,
    bind_members d mlist st = Raise e ->
    e = EvalError (String Py.newline "")
    /\ exists mk, In mk mlist /\ Str.last_char mk = Some Py.newline.
Proof.
  induction 1 as [|mk r [Hr Hi] _ IH]; simpl; intros st e H; [discriminate|].
  destruct (lookup_in_keys mk d Hi) as [v Ev].
  destruct (rangekey_last_char mk Hr) as [L | [L | L]]; rewrite L in H;
    cbn [of_option bind] in H.
  - change (Py.eval "0") with (@Ok pynum (Int 0)) in H; cbn [bind] in H.
    change (Py.eq_int (Int 0) 0) with true in H; cbv iota in H.
    unfold Dict.get in H; rewrite Ev in H; cbn [of_option bind] in H.
    destruct (IH _ _ H) as [E [m [Im Lm]]]; split; [exact E|].
    exists m; simpl; auto.
  - change (Py.eval "1") with (@Ok pynum (Int 1)) in H; cbn [bind] in H.
    change (Py.eq_int (Int 1) 0) with false in H; cbv iota in H.
    change (Py.eq_int (Int 1) 1) with true in H; cbv iota in H.
    unfold Dict.get in H; rewrite Ev in H; cbn [of_option bind] in H.
    destruct (IH _ _ H) as [E [m [Im Lm]]]; split; [exact E|].
    exists m; simpl; auto.
  - change (Py.eval (String Py.newline ""))
      with (@Raise pynum (EvalError (String Py.newline ""))) in H.
    cbn [bind] in H; injection H as <-; split; [reflexivity|].
    exists mk; simpl; auto.
Qed.

Lemma read_pair_raises (st : locals) (e : exn) :
  read_pair st = Raise e -> unbound_error e.
Proof.
  unfold read_pair, unbound_error; destruct st as [[z|] [o|]]; simpl;
    intros H; try discriminate; injection H as <-; eauto.
Qed.

Lemma split_aux_hd_prefix (sep : ascii) (s : string) :
  forall cur, exists t,
    hd "" (Str.split_aux sep s cur) = (Str.rev cur ++ t)%string
    /\ prefix t s = true /\ has_char sep t = false.
Proof.
  induction s as [|c r IH]; intros cur; simpl.
  - exists ""; now rewrite append_nil_r.
  - destruct (Ascii.eqb c sep) eqn:E; simpl.
    + exists ""; now rewrite append_nil_r.
    + destruct (IH (String c cur)) as [t [H [P N]]].
      exists (String c t); rewrite H, rev_cons, append_assoc; simpl.
      repeat split.
      * destruct (ascii_dec c c); [exact P | congruence].
      * unfold has_char in *; simpl; rewrite E; simpl; exact N.
Qed.

Lemma contains_root (k : string) : Str.contains (root_of k) k = true.
Proof.
  unfold root_of, Str.split.
  destruct (split_aux_hd_prefix "_" k "") as [t [-> [P _]]]; simpl.
  destruct k; simpl in *; now rewrite P.
Qed.

Lemma root_no_underscore (k : string) : has_char "_" (root_of k) = false.
Proof.
  unfold root_of, Str.split.
  destruct (split_aux_hd_prefix "_" k "") as [t [-> [_ N]]]; exact N.
Qed.

Lemma drop_while_has_char (p : ascii -> bool) (s : string) (u : ascii)
  (r : string) :
  Str.drop_while p s = String u r -> has_char u s = true.
Proof.
  unfold has_char; induction s as [|c s IH]; simpl; [discriminate|].
  destruct (p c).
  - intros H; apply IH in H; apply negb_true_iff in H.
    apply negb_true_iff; now rewrite H, andb_false_r.
  - intros H; injection H as -> _; now rewrite Ascii.eqb_refl.
Qed.

Lemma rangekey_has_underscore (k : string) :
  rangekey_match k = true -> has_char "_" k = true.
Proof.
  unfold rangekey_match; intros H.
  destruct (Str.drop_while Str.is_letter k) as [|u [|dg rest]] eqn:D;
    try discriminate.
  apply andb_prop in H; destruct H as [H _].
  apply andb_prop in H; destruct H as [U _].
  apply Ascii.eqb_eq in U; subst u.
  exact (drop_while_has_char _ _ _ _ D).
Qed.

Lemma root_not_rangekey (k : string) : rangekey_match (root_of k) = false.
Proof.
  destruct (rangekey_match (root_of k)) eqn:R; [|reflexivity].
  apply rangekey_has_underscore in R.
  now rewrite root_no_underscore in R.
Qed.

Lemma fold_ranges_raises (d : Dict.t pyval) (rkeys : list string) :
  Forall (fun m => rangekey_match m = true /\ In m (Dict.keys d)) rkeys ->
  forall ks odict st e,
    incl ks rkeys ->
    fold_ranges d rkeys ks odict st = Raise e ->
    unbound_error e
    \/ (e = EvalError (String Py.newline "")
        /\ exists mk, In mk rkeys /\ Str.last_char mk = Some Py.newline).
Proof.
  intros R ks; induction ks as [|k r IH]; simpl; intros odict st e I H;
    [discriminate|].
  assert (Ik : In k rkeys) by (apply I; simpl; auto).
  assert (Ir : incl r rkeys) by (intros x Hx; apply I; simpl; auto).
  set (mlist := filter (fun m => Str.contains (root_of k) m) rkeys) in *.
  assert (Im : In k mlist)
    by (apply filter_In; split; [exact Ik | apply contains_root]).
  destruct mlist as [|m0 ml] eqn:Em; [destruct Im|].
  cbn [nth_error of_option bind] in H.
  destruct (negb (Dict.mem (root_of m0) odict)); [|eauto].
  apply bind_Raise in H; destruct H as [H | [st' [_ H]]].
  - right.
    assert (F : Forall (fun m => rangekey_match m = true
                                 /\ In m (Dict.keys d)) (m0 :: ml)).
    { rewrite <- Em; apply Forall_forall; intros m Hm.
      apply filter_In in Hm; destruct Hm as [Hm _].
      rewrite Forall_forall in R; auto. }
    destruct (bind_members_raises d (m0 :: ml) F st e H) as [E [mk [Imk L]]].
    split; [exact E|]; exists mk; split; [|exact L].
    rewrite <- Em in Imk; apply filter_In in Imk; tauto.
  - apply bind_Raise in H; destruct H as [H | [tup [_ H]]]; [|eauto].
    left; exact (read_pair_raises st' e H).
Qed.

Lemma del_keys_spec (ks : list string) :
  NoDup ks ->
  forall d : Dict.t pyval,
    NoDup (Dict.keys d) -> incl ks (Dict.keys d) ->
    exists d',
      del_keys ks d = Ok d' /\ NoDup (Dict.keys d')
      /\ (forall k, In k (Dict.keys d')
                    <-> In k (Dict.keys d) /\ ~ In k ks).
Proof.
  induction 1 as [|k r Nk Nr IH]; intros d N I; simpl.
  - exists d; repeat split; auto; tauto.
  - assert (Ik : In k (Dict.keys d)) by (apply I; simpl; auto).
    unfold Dict.del; rewrite (proj2 (mem_keys k d) Ik); cbn [bind].
    destruct (IH (Dict.remove k d)) as [d' [E [N' S]]].
    + now apply NoDup_keys_remove.
    + intros x Hx; apply in_keys_remove; [exact N|].
      split; [intros ->; contradiction | apply I; simpl; auto].
    + exists d'; split; [exact E|]; split; [exact N'|].
      intros k0; split.
      * intros Hk; apply S in Hk; destruct Hk as [Hk Hn].
        apply in_keys_remove in Hk; [|exact N]; destruct Hk as [Hne Hk].
        split; [exact Hk|].
        intros [E0 | Hr]; [now apply Hne | now apply Hn].
      * intros [Hk Hn]; apply S; split.
        -- apply in_keys_remove; [exact N|]; split; [|exact Hk].
           intros ->; apply Hn; simpl; auto.
        -- intros Hr; apply Hn; simpl; auto.
Qed.

Lemma fold_ranges_keys (d : Dict.t pyval) (rkeys : list string) :
  forall ks odict st odict' st',
    fold_ranges d rkeys ks odict st = Ok (odict', st') ->
    NoDup (Dict.keys odict) ->
    (forall k, In k (Dict.keys odict) -> rangekey_match k = false) ->
    NoDup (Dict.keys odict')
    /\ forall k, In k (Dict.keys odict') -> rangekey_match k = false.
Proof.
  induction ks as [|k r IH]; simpl; intros odict st odict' st' H N P.
  - injection H as <- _; auto.
  - apply bind_Ok in H; destruct H as [m0 [_ H]].
    destruct (negb (Dict.mem (root_of m0) odict)); [|eauto].
    apply bind_Ok in H; destruct H as [st1 [_ H]].
    apply bind_Ok in H; destruct H as [tup [_ H]].
    apply (IH _ _ _ _ H); [now apply NoDup_keys_set|].
    intros k' Hk; apply in_keys_set in Hk; destruct Hk as [-> | Hk];
      [apply root_not_rangekey | auto].
Qed.

Lemma fold_beam_spec (d : Dict.t pyval) (st : locals) :
  NoDup (Dict.keys d) ->
  (forall e, fold_beam d st = Raise e ->
             unbound_error e
             \/ (e = EvalError (String Py.newline "")
                 /\ exists mk, In mk (Dict.keys d)
                               /\ Str.last_char mk = Some Py.newline))
  /\ (forall d' st', fold_beam d st = Ok (d', st') ->
                     NoDup (Dict.keys d')
                     /\ forall k, In k (Dict.keys d') ->
                                  rangekey_match k = false).
Proof.
  intros N; unfold fold_beam.
  set (rkeys := filter rangekey_match (Dict.keys d)).
  assert (R : Forall (fun m => rangekey_match m = true
                               /\ In m (Dict.keys d)) rkeys)
    by (apply Forall_forall; intros m Hm; apply filter_In in Hm; tauto).
  assert (Nr : NoDup rkeys) by (apply NoDup_filter, N).
  assert (D : forall odict,
             NoDup (Dict.keys odict) ->
             exists d',
               del_keys rkeys (Dict.update d odict) = Ok d'
               /\ NoDup (Dict.keys d')
               /\ (forall k, In k (Dict.keys d')
                             <-> In k (Dict.keys (Dict.update d odict))
                                 /\ ~ In k rkeys)).
  { intros odict No; apply del_keys_spec;
      [exact Nr | now apply NoDup_keys_update |].
    intros k Hk; apply in_keys_update; left.
    apply filter_In in Hk; tauto. }
  split.
  - intros e H.
    apply bind_Raise in H; destruct H as [H | [[odict st1] [Ho H]]].
    + destruct (fold_ranges_raises d rkeys R rkeys _ _ e (incl_refl _) H)
        as [U | [E [mk [Imk L]]]]; [auto | right].
      split; [exact E|]; exists mk; split; [|exact L].
      apply filter_In in Imk; tauto.
    + destruct (fold_ranges_keys d rkeys _ _ _ _ _ Ho) as [No _];
        [constructor | intros k [] |].
      destruct (D odict No) as [d' [E _]].
      rewrite E in H; discriminate H.
  - intros d' st' H.
    apply bind_Ok in H; destruct H as [[odict st1] [Ho H]].
    destruct (fold_ranges_keys d rkeys _ _ _ _ _ Ho) as [No Po];
      [constructor | intros k [] |].
    destruct (D odict No) as [d1 [E [N1 S]]].
    rewrite E in H; cbn [bind] in H; injection H as <- _.
    split; [exact N1|].
    intros k Hk; apply S in Hk; destruct Hk as [Hk Hn].
    apply in_keys_update in Hk; destruct Hk as [Hk | Hk]; [|auto].
    destruct (rangekey_match k) eqn:M; [|reflexivity].
    exfalso; apply Hn; apply filter_In; auto.
Qed.

Lemma fold_beams_spec (rd : beamdict) :
  tidy rd ->
  forall st,
    (forall e, fold_beams rd st = Raise e ->
               unbound_error e
               \/ (e = EvalError (String Py.newline "")
                   /\ ~ Forall (fun bd => spaceless (snd bd)) rd))
    /\ (forall rd', fold_beams rd st = Ok rd' ->
                    Dict.keys rd' = Dict.keys rd
                    /\ Forall (fun bd =>
                                 NoDup (Dict.keys (snd bd))
                                 /\ forall k, In k (Dict.keys (snd bd)) ->
                                              rangekey_match k = false) rd').
Proof.
  induction 1 as [|[b d] r Nd _ IH]; intros st; simpl.
  - split; [discriminate|].
    intros rd' H; injection H as <-; split; [reflexivity | constructor].
  - simpl in Nd; destruct (fold_beam_spec d st Nd) as [Fr Fo].
    split.
    + intros e H.
      apply bind_Raise in H; destruct H as [H | [[d' st'] [Hd H]]].
      * destruct (Fr e H) as [U | [E [mk [Imk L]]]]; [auto | right].
        split; [exact E|].
        intros F; inversion F as [|? ? Sd _]; subst; simpl in Sd.
        unfold spaceless in Sd; rewrite Forall_forall in Sd.
        pose proof (all_chars_last _ mk Py.newline (Sd mk Imk) L) as C.
        discriminate C.
      * apply bind_Raise in H; destruct H as [H | [r' [_ H]]];
          [|discriminate].
        destruct (proj1 (IH st') e H) as [U | [E Ns]]; [auto | right].
        split; [exact E|].
        intros F; apply Ns; now inversion F.
    + intros rd' H.
      apply bind_Ok in H; destruct H as [[d' st'] [Hd H]].
      apply bind_Ok in H; destruct H as [r' [Hr H]].
      injection H as <-.
      destruct (proj2 (IH st') r' Hr) as [K F].
      split; [simpl; now rewrite K|].
      constructor; [exact (Fo d' st' Hd) | exact F].
Qed.

(** ** What [split_order_info] returns and raises *)

Lemma upper_char_idem (c : ascii) :
  Str.upper_char (Str.upper_char c) = Str.upper_char c.
Proof.
  destruct c as [[] [] [] [] [] [] [] []]; reflexivity.
Qed.

Lemma upper_idem (s : string) : Str.upper (Str.upper s) = Str.upper s.
Proof.
  induction s as [|c r IH]; simpl; [reflexivity|].
  now rewrite upper_char_idem, IH.
Qed.

Lemma beam_of_upper (key b : string) :
  beam_of key = Ok b -> Str.upper b = b.
Proof.
  unfold beam_of; intros H.
  apply bind_Ok in H; destruct H as [x [_ H]].
  injection H as <-; apply upper_idem.
Qed.

(** The first two loops never raise; they leave one dictionary per
    beam. *)
Lemma split_order_info_rdict (keydict : Dict.t pyval) :
  exists beams rdict,
    prefetch_beams (Dict.keys keydict) [] = Ok beams
    /\ assign_keys keydict (init_rdict beams) = Ok rdict
    /\ split_order_info (Mapping keydict) = fold_beams rdict unbound
    /\ Dict.keys rdict = beams /\ NoDup beams /\ tidy rdict
    /\ (forall b, In b beams
                  <-> exists key, In key (Dict.keys keydict)
                                  /\ token_match key = true
                                  /\ beam_of key = Ok b)
    /\ (spaceless keydict -> Forall (fun bd => spaceless (snd bd)) rdict).
Proof.
  destruct (prefetch_beams_spec (Dict.keys keydict) [] (NoDup_nil _))
    as [beams [P [N S]]].
  destruct (init_rdict_spec beams N) as [K T].
  destruct (assign_keys_spec keydict (init_rdict beams) T)
    as [rdict [A [K' [T' Sp]]]].
  { intros key b I M B; rewrite K; apply S; right; exists key; auto. }
  exists beams, rdict; repeat split; auto.
  - unfold split_order_info; rewrite P; cbn [bind]; now rewrite A.
  - congruence.
  - intros I; apply S in I; destruct I as [[] | I]; exact I.
  - intros I; apply S; now right.
  - intros Hs; apply Sp; [exact Hs|].
    clear - beams; unfold init_rdict.
    assert (G : forall rd : beamdict,
               Forall (fun bd => spaceless (snd bd)) rd ->
               Forall (fun bd => spaceless (snd bd))
                 (fold_left (fun rd b => Dict.set b Dict.empty rd) beams rd)).
    { induction beams as [|b r IH]; intros rd F; simpl; [exact F|].
      apply IH, Forall_set; [exact F | constructor]. }
    apply G; constructor.
Qed.

(** X14.  The beams of the result are the second fields, in upper case,
    of the keys that carry a beam, each once: the result has a mapping
    for a beam exactly when some key of the input names it. *)
Theorem split_order_info_beams
  (keydict : Dict.t pyval) (rdict : beamdict) :
  split_order_info (Mapping keydict) = Ok rdict ->
  NoDup (Dict.keys rdict)
  /\ (forall b, In b (Dict.keys rdict)
                <-> exists key, In key (Dict.keys keydict)
                                /\ token_match key = true
                                /\ beam_of key = Ok b)
  /\ (forall b, In b (Dict.keys rdict) -> Str.upper b = b).
Proof.
  intros H.
  destruct (split_order_info_rdict keydict)
    as [beams [rd [_ [_ [E [K [N [T [S _]]]]]]]]].
  rewrite E in H.
  destruct (proj2 (fold_beams_spec rd T unbound) rdict H) as [K' _].
  rewrite K', K; repeat split; [exact N | apply S | apply S |].
  intros b I; apply S in I; destruct I as [key [_ [_ B]]].
  exact (beam_of_upper key b B).
Qed.

Lemma split_order_info_beams_witness :
  NoDup ["+1"; "B"; "+2"]
  /\ split_order_info (Mapping three_beam_dict)
     = Ok [("+1", [("DISPL", PTuple (PNum (Int 1)) (PNum (Int 2)))]);
           ("B", [("DISPL_b_0", PNum (Int 3));
                         ("DISPL", PTuple (PNum (Int 1)) (PNum (Int 4)))]);
           ("+2", [("XOFF", PNum (Int 0))])].
Proof.
  split; [|reflexivity].
  exact (proj1 (split_order_info_beams three_beam_dict
                  [("+1", [("DISPL", PTuple (PNum (Int 1)) (PNum (Int 2)))]);
                   ("B", [("DISPL_b_0", PNum (Int 3));
                         ("DISPL", PTuple (PNum (Int 1)) (PNum (Int 4)))]);
                   ("+2", [("XOFF", PNum (Int 0))])] eq_refl)).
Defined.

(** X15.  [split_order_info] raises in three ways only: the argument is
    not a dictionary ("Expected an input dictionary"); a local, [zero]
    or [one], is read before any range key has assigned it; or [eval] is
    given the line end that closes a range key, which needs a key with
    white space in it.  It raises no [KeyError] and no [IndexError]. *)
Theorem split_order_info_raises (a : argument) (e : exn) :
  split_order_info a = Raise e ->
  (a = NotADict /\ e = ValueError "Expected an input dictionary")
  \/ (exists keydict,
         a = Mapping keydict
         /\ (unbound_error e
             \/ (e = EvalError (String Py.newline "")
                 /\ ~ spaceless keydict))).
Proof.
  destruct a as [keydict|]; intros H.
  - right; exists keydict; split; [reflexivity|].
    destruct (split_order_info_rdict keydict)
      as [beams [rd [_ [_ [E [_ [_ [T [_ Sp]]]]]]]]].
    rewrite E in H.
    destruct (proj1 (fold_beams_spec rd T unbound) e H) as [U | [Ee Ns]];
      [auto | right].
    split; [exact Ee | intros S; apply Ns, Sp, S].
  - left; injection H as <-; auto.
Qed.

Lemma split_order_info_raises_witness :
  split_order_info (Mapping newline_key_dict)
  = Raise (EvalError (String Py.newline ""))
  /\ ~ spaceless newline_key_dict
  /\ split_order_info NotADict
     = Raise (ValueError "Expected an input dictionary").
Proof.
  split; [reflexivity|]; split; [|reflexivity].
  destruct (split_order_info_raises (Mapping newline_key_dict)
              (EvalError (String Py.newline "")) eq_refl)
    as [[N _] | [keydict [E [[var U] | [_ S]]]]].
  - discriminate N.
  - discriminate U.
  - injection E as <-; exact S.
Defined.

(** X16.  In every beam's mapping of the result each key occurs once
    and no key has the shape of a range key: whatever ended in [_0] or
    [_1] was merged or dropped. *)
Theorem split_order_info_no_range_keys
  (keydict : Dict.t pyval) (rdict : beamdict) (b : string)
  (d : Dict.t pyval) :
  split_order_info (Mapping keydict) = Ok rdict -> In (b, d) rdict ->
  NoDup (Dict.keys d)
  /\ forall k, In k (Dict.keys d) -> rangekey_match k = false.
Proof.
  intros H I.
  destruct (split_order_info_rdict keydict)
    as [beams [rd [_ [_ [E [_ [_ [T _]]]]]]]].
  rewrite E in H.
  destruct (proj2 (fold_beams_spec rd T unbound) rdict H) as [_ F].
  rewrite Forall_forall in F; exact (F (b, d) I).
Qed.

Lemma split_order_info_no_range_keys_witness :
  NoDup ["DISPL_b_0"; "DISPL"]
  /\ forall k, In k ["DISPL_b_0"; "DISPL"] -> rangekey_match k = false.
Proof.
  apply (split_order_info_no_range_keys three_beam_dict
           [("+1", [("DISPL", PTuple (PNum (Int 1)) (PNum (Int 2)))]);
            ("B", [("DISPL_b_0", PNum (Int 3));
                         ("DISPL", PTuple (PNum (Int 1)) (PNum (Int 4)))]);
            ("+2", [("XOFF", PNum (Int 0))])]
           "B" [("DISPL_b_0", PNum (Int 3));
                ("DISPL", PTuple (PNum (Int 1)) (PNum (Int 4)))]
           eq_refl).
  right; left; reflexivity.
Defined.

(** X17.  On a mapping read by [dict_from_file], [split_order_info]
    either returns or raises for a local read before assignment: the keys
    of a file have no white space, so no range key ends in a line end. *)
Theorem split_after_read_raises
  (fs : filesystem) (name : string) (conf : Dict.t pyval) (e : exn) :
  dict_from_file fs name = Ok conf ->
  split_order_info (Mapping conf) = Raise e ->
  unbound_error e.
Proof.
  intros R H.
  destruct (split_order_info_rdict conf)
    as [beams [rd [_ [_ [E [_ [_ [T [_ Sp]]]]]]]]].
  rewrite E in H.
  destruct (proj1 (fold_beams_spec rd T unbound) e H) as [U | [_ Ns]];
    [exact U | exfalso].
  apply Ns, Sp.
  unfold dict_from_file in R.
  apply bind_Ok in R; destruct R as [lines [_ R]].
  assert (W0 : well_read (@Dict.empty pyval))
    by (split; [constructor | intros k v []]).
  destruct (read_lines_well_read lines _ _ W0 R) as [_ W].
  unfold spaceless, Dict.keys; apply Forall_forall; intros k Ik.
  apply in_map_iff in Ik; destruct Ik as [[k' v] [<- Ik]].
  destruct (W k' v Ik) as [_ [S _]]; exact S.
Qed.

Lemma split_after_read_raises_witness :
  dict_from_file lone_suffix_file "a.conf" = Ok [("DISPX_+1_0", PNum (Int 3))]
  /\ split_order_info (Mapping [("DISPX_+1_0", PNum (Int 3))])
     = Raise (UnboundLocalError "one")
  /\ unbound_error (UnboundLocalError "one").
Proof.
  split; [reflexivity|]; split; [reflexivity|].
  apply (split_after_read_raises lone_suffix_file "a.conf"
           [("DISPX_+1_0", PNum (Int 3))] (UnboundLocalError "one"));
    reflexivity.
Defined.

(** ** Range folding when every pair is complete *)

Lemma drop_while_split (p : ascii -> bool) (s : string) :
  exists R, s = (R ++ Str.drop_while p s)%string /\ Str.all_chars p R = true.
Proof.
  induction s as [|c r [R [E A]]]; simpl.
  - exists ""; auto.
  - destruct (p c) eqn:P.
    + exists (String c R); simpl; rewrite P, A; split; [congruence | auto].
    + exists ""; auto.
Qed.

Lemma letters_no_underscore (R : string) :
  Str.all_chars Str.is_letter R = true -> has_char "_" R = false.
Proof.
  unfold has_char; intros H; apply negb_false_iff.
  induction R as [|c r IH]; simpl in *; [reflexivity|].
  apply andb_prop in H; destruct H as [Hc Hr].
  now rewrite (letter_not_underscore c Hc), IH.
Qed.

Lemma root_of_letters (R t : string) :
  Str.all_chars Str.is_letter R = true ->
  root_of (R ++ String "_" t) = R.
Proof.
  intros H; unfold root_of, Str.split.
  now rewrite (split_aux_at_sep "_" R t "" (letters_no_underscore R H)).
Qed.

Lemma drop_while_letters (R t : string) :
  Str.all_chars Str.is_letter R = true ->
  Str.drop_while Str.is_letter (R ++ String "_" t) = String "_" t.
Proof.
  induction R as [|c r IH]; simpl; intros H; [reflexivity|].
  apply andb_prop in H; destruct H as [Hc Hr]; rewrite Hc; auto.
Qed.

Lemma member_rangekey (R : string) :
  Str.all_chars Str.is_letter R = true ->
  rangekey_match (member0 R) = true /\ rangekey_match (member1 R) = true
  /\ root_of (member0 R) = R /\ root_of (member1 R) = R.
Proof.
  intros H; unfold member0, member1, rangekey_match.
  rewrite !(drop_while_letters R _ H), !(root_of_letters R _ H); auto.
Qed.

Lemma newline_is_space : Str.is_space Py.newline = true.
Proof. reflexivity. Qed.

(** A range key without white space is its root followed by [_0] or
    [_1], and its root is made of letters. *)
Lemma rangekey_shape (k : string) :
  rangekey_match k = true -> no_space k = true ->
  Str.all_chars Str.is_letter (root_of k) = true
  /\ (k = member0 (root_of k) \/ k = member1 (root_of k)).
Proof.
  intros M S; unfold rangekey_match in M.
  destruct (drop_while_split Str.is_letter k) as [R [E A]].
  destruct (Str.drop_while Str.is_letter k) as [|u [|dg rest]];
    try discriminate.
  apply andb_prop in M; destruct M as [M Hr].
  apply andb_prop in M; destruct M as [U D].
  apply Ascii.eqb_eq in U; subst u.
  assert (Rt : root_of k = R) by (rewrite E; now apply root_of_letters).
  rewrite Rt; split; [exact A|].
  assert (rest = "").
  { apply orb_prop in Hr; destruct Hr as [Hr | Hr];
      apply String.eqb_eq in Hr; [exact Hr | subst rest].
    exfalso; unfold no_space in S; rewrite E, all_chars_app in S.
    apply andb_prop in S; destruct S as [_ S].
    assert (B : Str.all_chars (fun c => negb (Str.is_space c))
                  (String "_" (String dg (String Py.newline ""))) = false)
      by (cbn [Str.all_chars]; rewrite newline_is_space;
          now rewrite !andb_false_r).
    congruence. }
  subst rest; unfold member0, member1.
  apply orb_prop in D; destruct D as [D | D]; apply Ascii.eqb_eq in D;
    subst dg; rewrite E at 1; auto.
Qed.

Lemma append_inj_r (a b c : string) :
  (a ++ b)%string = (a ++ c)%string -> b = c.
Proof.
  induction a as [|x a IH]; simpl; intros H; [exact H|].
  injection H as H; auto.
Qed.

Lemma members_differ (R : string) : member0 R <> member1 R.
Proof.
  unfold member0, member1; intros H; apply append_inj_r in H; discriminate H.
Qed.

Lemma last_char_app (x : string) (c : ascii) :
  Str.last_char (x ++ String c "") = Some c.
Proof.
  induction x as [|a x IH]; [reflexivity|].
  simpl append; simpl Str.last_char; rewrite IH.
  destruct x; reflexivity.
Qed.

Lemma last_char_members (R : string) :
  Str.last_char (member0 R) = Some "0"%char
  /\ Str.last_char (member1 R) = Some "1"%char.
Proof.
  unfold member0, member1; split.
  - change (R ++ "_0")%string with (R ++ ("_" ++ "0"))%string.
    rewrite <- append_assoc; apply last_char_app.
  - change (R ++ "_1")%string with (R ++ ("_" ++ "1"))%string.
    rewrite <- append_assoc; apply last_char_app.
Qed.

(** The inner loop over the members of one pair binds both locals. *)
Lemma bind_members_pair (d : Dict.t pyval) (R : string) (v0 v1 : pyval) :
  Dict.lookup (member0 R) d = Some v0 ->
  Dict.lookup (member1 R) d = Some v1 ->
  forall mlist st,
    Forall (fun m => m = member0 R \/ m = member1 R) mlist ->
    bind_members d mlist st
    = Ok (if existsb (String.eqb (member0 R)) mlist then Some v0 else fst st,
          if existsb (String.eqb (member1 R)) mlist then Some v1 else snd st).
Proof.
  intros L0 L1; induction mlist as [|mk r IH]; intros st F; simpl.
  - now destruct st.
  - inversion F as [|? ? Hm Fr]; subst.
    destruct (last_char_members R) as [C0 C1].
    destruct Hm as [-> | ->].
    + rewrite C0; cbn [of_option bind].
      change (Py.eval "0") with (@Ok pynum (Int 0)); cbn [bind].
      change (Py.eq_int (Int 0) 0) with true; cbv iota.
      unfold Dict.get; rewrite L0; cbn [of_option bind].
      rewrite (IH _ Fr); simpl.
      rewrite String.eqb_refl; simpl.
      assert (N : String.eqb (member1 R) (member0 R) = false)
        by (apply String.eqb_neq; intros E; symmetry in E;
            exact (members_differ R E)).
      rewrite N; simpl.
      now destruct (existsb (String.eqb (member0 R)) r).
    + rewrite C1; cbn [of_option bind].
      change (Py.eval "1") with (@Ok pynum (Int 1)); cbn [bind].
      change (Py.eq_int (Int 1) 0) with false; cbv iota.
      change (Py.eq_int (Int 1) 1) with true; cbv iota.
      unfold Dict.get; rewrite L1; cbn [of_option bind].
      rewrite (IH _ Fr); simpl.
      rewrite String.eqb_refl; simpl.
      assert (N : String.eqb (member0 R) (member1 R) = false)
        by (apply String.eqb_neq, members_differ).
      rewrite N; simpl.
      now destruct (existsb (String.eqb (member1 R)) r).
Qed.

Lemma mem_set {V : Type} (k k' : string) (v : V) (d : Dict.t V) :
  Dict.mem k' (Dict.set k v d) = String.eqb k' k || Dict.mem k' d.
Proof.
  unfold Dict.mem.
  destruct (String.eqb_spec k' k) as [-> | N].
  - now rewrite lookup_set_same.
  - now rewrite (lookup_set_other k' k v d N).
Qed.

Section CompletePairs.

Variable d : Dict.t pyval.
Hypothesis keys_once : NoDup (Dict.keys d).
Hypothesis no_spaces : spaceless d.
Hypothesis complete : pairs_complete d.
Hypothesis apart : roots_apart d.

Lemma range_key_facts (k : string) :
  In k (range_keys d) ->
  Str.all_chars Str.is_letter (root_of k) = true
  /\ (k = member0 (root_of k) \/ k = member1 (root_of k)).
Proof.
  intros I; apply filter_In in I; destruct I as [I M].
  apply rangekey_shape; [exact M|].
  unfold spaceless in no_spaces; rewrite Forall_forall in no_spaces; auto.
Qed.

Lemma members_in_range_keys (k : string) :
  In k (range_keys d) ->
  In (member0 (root_of k)) (range_keys d)
  /\ In (member1 (root_of k)) (range_keys d).
Proof.
  intros I; destruct (range_key_facts k I) as [L _].
  destruct (complete k I) as [I0 I1].
  destruct (member_rangekey (root_of k) L) as [M0 [M1 _]].
  split; apply filter_In; auto.
Qed.

Lemma mlist_facts (k : string) :
  In k (range_keys d) ->
  Forall (fun m => m = member0 (root_of k) \/ m = member1 (root_of k))
    (filter (fun m => Str.contains (root_of k) m) (range_keys d))
  /\ In (member0 (root_of k))
       (filter (fun m => Str.contains (root_of k) m) (range_keys d))
  /\ In (member1 (root_of k))
       (filter (fun m => Str.contains (root_of k) m) (range_keys d))
  /\ exists m0 ml,
       filter (fun m => Str.contains (root_of k) m) (range_keys d) = m0 :: ml
       /\ root_of m0 = root_of k.
Proof.
  intros I.
  destruct (range_key_facts k I) as [L _].
  destruct (members_in_range_keys k I) as [I0 I1].
  destruct (member_rangekey (root_of k) L) as [_ [_ [R0 R1]]].
  pose proof (contains_root (member0 (root_of k))) as C0; rewrite R0 in C0.
  pose proof (contains_root (member1 (root_of k))) as C1; rewrite R1 in C1.
  set (mlist := filter (fun m => Str.contains (root_of k) m) (range_keys d)).
  assert (F : Forall (fun m => m = member0 (root_of k)
                               \/ m = member1 (root_of k)) mlist).
  { apply Forall_forall; intros m Hm.
    apply filter_In in Hm; destruct Hm as [Hm C].
    rewrite <- (apart k m I Hm C).
    exact (proj2 (range_key_facts m Hm)). }
  assert (J0 : In (member0 (root_of k)) mlist)
    by (apply filter_In; auto).
  assert (J1 : In (member1 (root_of k)) mlist)
    by (apply filter_In; auto).
  repeat split; auto.
  destruct mlist as [|m0 ml]; [destruct J0|].
  exists m0, ml; split; [reflexivity|].
  inversion F as [|? ? [-> | ->] _]; assumption.
Qed.

Lemma fold_ranges_complete (ks : list string) :
  incl ks (range_keys d) ->
  forall odict st,
    holds_pairs d odict ->
    exists odict' st',
      fold_ranges d (range_keys d) ks odict st = Ok (odict', st')
      /\ holds_pairs d odict'
      /\ (forall k, In k ks -> Dict.mem (root_of k) odict' = true)
      /\ (forall R, Dict.mem R odict = true -> Dict.mem R odict' = true).
Proof.
  induction ks as [|k r IH]; intros I odict st H.
  - exists odict, st; split; [reflexivity|]; split; [exact H|].
    split; [intros k [] | auto].
  - assert (Ik : In k (range_keys d)) by (apply I; simpl; auto).
    assert (Ir : incl r (range_keys d)) by (intros x Hx; apply I; simpl; auto).
    destruct (mlist_facts k Ik) as [F [J0 [J1 [m0 [ml [E R0]]]]]].
    destruct (members_in_range_keys k Ik) as [I0 I1].
    apply filter_In in I0; destruct I0 as [I0 _].
    apply filter_In in I1; destruct I1 as [I1 _].
    destruct (lookup_in_keys _ d I0) as [v0 L0].
    destruct (lookup_in_keys _ d I1) as [v1 L1].
    cbn [fold_ranges]; rewrite E; cbn [nth_error of_option bind].
    rewrite R0.
    destruct (Dict.mem (root_of k) odict) eqn:M; cbn [negb].
    + destruct (IH Ir odict st H) as [odict' [st' [Eo [H' [A B]]]]].
      exists odict', st'; split; [exact Eo|]; split; [exact H'|].
      split; [|exact B].
      intros k' [<- | Hk]; [apply B; exact M | auto].
    + rewrite <- E.
      rewrite (bind_members_pair d (root_of k) v0 v1 L0 L1 _ st F).
      assert (X0 : existsb (String.eqb (member0 (root_of k)))
                     (filter (fun m => Str.contains (root_of k) m)
                        (range_keys d)) = true)
        by (apply existsb_exists; eexists; split;
            [exact J0 | apply String.eqb_refl]).
      assert (X1 : existsb (String.eqb (member1 (root_of k)))
                     (filter (fun m => Str.contains (root_of k) m)
                        (range_keys d)) = true)
        by (apply existsb_exists; eexists; split;
            [exact J1 | apply String.eqb_refl]).
      rewrite X0, X1; cbn [bind read_pair of_option fst snd].
      destruct (IH Ir (Dict.set (root_of k) (PTuple v0 v1) odict)
                  (Some v0, Some v1))
        as [odict' [st' [Eo [H' [A B]]]]].
      * intros R v Lv.
        destruct (String.eqb_spec R (root_of k)) as [-> | N].
        -- rewrite lookup_set_same in Lv; injection Lv as <-.
           split; [exists k; auto | exists v0, v1; auto].
        -- rewrite (lookup_set_other R _ _ odict N) in Lv; auto.
      * exists odict', st'; split; [exact Eo|]; split; [exact H'|].
        split.
        -- intros k' [<- | Hk]; [|auto].
           apply B; rewrite mem_set, String.eqb_refl; reflexivity.
        -- intros R MR; apply B; rewrite mem_set, MR; apply orb_true_r.
Qed.

End CompletePairs.

Lemma lookup_update {V : Type} (o : Dict.t V) :
  NoDup (Dict.keys o) ->
  forall (d : Dict.t V) k,
    Dict.lookup k (Dict.update d o)
    = match Dict.lookup k o with
      | Some v => Some v
      | None => Dict.lookup k d
      end.
Proof.
  unfold Dict.update; induction o as [|[k0 v0] r IH]; intros N d k; simpl;
    [reflexivity|].
  inversion N as [|? ? N0 Nr]; subst.
  rewrite (IH Nr).
  destruct (String.eqb_spec k k0) as [-> | D].
  - rewrite (proj2 (lookup_none_keys k0 r) N0); apply lookup_set_same.
  - destruct (Dict.lookup k r); [reflexivity | now apply lookup_set_other].
Qed.

Lemma lookup_remove_other {V : Type} (k k' : string) (d : Dict.t V) :
  k' <> k -> Dict.lookup k' (Dict.remove k d) = Dict.lookup k' d.
Proof.
  intros N; induction d as [|[k0 v0] r IH]; simpl; [reflexivity|].
  destruct (String.eqb_spec k k0) as [-> | D]; simpl.
  - now rewrite (proj2 (String.eqb_neq k' k0) N).
  - now rewrite IH.
Qed.

Lemma del_keys_lookup (ks : list string) :
  forall (d d' : Dict.t pyval) k,
    del_keys ks d = Ok d' -> ~ In k ks ->
    Dict.lookup k d' = Dict.lookup k d.
Proof.
  induction ks as [|k0 r IH]; simpl; intros d d' k H N.
  - now injection H as <-.
  - apply bind_Ok in H; destruct H as [d1 [H1 H]].
    unfold Dict.del in H1; destruct (Dict.mem k0 d); [|discriminate].
    injection H1 as <-.
    rewrite (IH _ _ k H) by tauto.
    apply lookup_remove_other; intros ->; apply N; auto.
Qed.

(** X18.  Range folding does what it is meant to do when, in a beam's
    mapping without white space in its keys, every range key has its
    partner and no root occurs inside a range key of another root: the
    loop body returns, every root is bound to the tuple of its [_0] and
    [_1] values, the range keys are gone, and a key that is neither a
    range key nor a root keeps its value.  The locals left over from
    earlier beams play no part. *)
Theorem fold_beam_complete_pairs (d : Dict.t pyval) (st : locals) :
  NoDup (Dict.keys d) -> spaceless d -> pairs_complete d -> roots_apart d ->
  exists d' st',
    fold_beam d st = Ok (d', st')
    /\ (forall k v0 v1,
           In k (range_keys d) ->
           Dict.lookup (member0 (root_of k)) d = Some v0 ->
           Dict.lookup (member1 (root_of k)) d = Some v1 ->
           Dict.lookup (root_of k) d' = Some (PTuple v0 v1))
    /\ (forall k, In k (range_keys d) -> Dict.lookup k d' = None)
    /\ (forall k, rangekey_match k = false ->
                  (forall m, In m (range_keys d) -> root_of m <> k) ->
                  Dict.lookup k d' = Dict.lookup k d).
Proof.
  intros N S C A.
  assert (H0 : holds_pairs d Dict.empty) by (intros R v L; discriminate L).
  destruct (fold_ranges_complete d S C A (range_keys d) (incl_refl _)
              Dict.empty st H0) as [odict [st' [Eo [Ho [Mo _]]]]].
  destruct (fold_ranges_keys d (range_keys d) _ _ _ _ _ Eo) as [No _];
    [constructor | intros k [] |].
  destruct (del_keys_spec (range_keys d) (NoDup_filter _ N)
              (Dict.update d odict) (NoDup_keys_update odict d N))
    as [d' [Ed [Nd Sd]]].
  { intros k Hk; apply in_keys_update; left.
    apply filter_In in Hk; tauto. }
  exists d', st'; split; [|split; [|split]].
  - unfold fold_beam; fold (range_keys d); rewrite Eo; cbn [bind].
    now rewrite Ed.
  - intros k v0 v1 Ik L0 L1.
    assert (Nr : ~ In (root_of k) (range_keys d)).
    { intros I; apply filter_In in I; destruct I as [_ M].
      now rewrite root_not_rangekey in M. }
    rewrite (del_keys_lookup _ _ _ _ Ed Nr), (lookup_update odict No).
    pose proof (Mo k Ik) as M; unfold Dict.mem in M.
    destruct (Dict.lookup (root_of k) odict) as [v|] eqn:L; [|discriminate].
    destruct (Ho _ _ L) as [_ [w0 [w1 [W0 [W1 ->]]]]]; congruence.
  - intros k Ik; apply lookup_none_keys; intros I; apply Sd in I; tauto.
  - intros k M R.
    assert (Nr : ~ In k (range_keys d)).
    { intros I; apply filter_In in I; destruct I as [_ M']; congruence. }
    rewrite (del_keys_lookup _ _ _ _ Ed Nr), (lookup_update odict No).
    destruct (Dict.lookup k odict) as [v|] eqn:L; [|reflexivity].
    destruct (Ho _ _ L) as [[m [Im Rm]] _]; exfalso; exact (R m Im Rm).
Qed.

Lemma fold_beam_complete_pairs_witness :
  exists d' st',
    fold_beam grism_beam unbound = Ok (d', st')
    /\ Dict.lookup "DISPL" d' = Some (PTuple (PNum (Int 1)) (PNum (Int 2)))
    /\ Dict.lookup "DISPX" d' = Some (PTuple (PNum (Int 3)) (PNum (Int 4)))
    /\ Dict.lookup "DISPL_0" d' = None
    /\ Dict.lookup "XOFF" d' = Some (PNum (Int 0))
    /\ Dict.lookup "DYDX_2" d' = Some (PNum (Int 7)).
Proof.
  assert (R : range_keys grism_beam
              = ["DISPL_0"; "DISPX_1"; "DISPL_1"; "DISPX_0"]) by reflexivity.
  destruct (fold_beam_complete_pairs grism_beam unbound)
    as [d' [st' [E [A [B C]]]]].
  - repeat constructor; simpl; intuition discriminate.
  - repeat constructor.
  - intros k I; rewrite R in I; simpl in I.
    destruct I as [<- | [<- | [<- | [<- | []]]]]; split; simpl; auto 10.
  - intros k m Ik Im; rewrite R in Ik, Im; simpl in Ik, Im.
    destruct Ik as [<- | [<- | [<- | [<- | []]]]];
      destruct Im as [<- | [<- | [<- | [<- | []]]]];
      intros H; try reflexivity; vm_compute in H; discriminate H.
  - exists d', st'; split; [exact E|].
    split; [apply (A "DISPL_0"); [rewrite R; simpl; auto | reflexivity
                                  | reflexivity]|].
    split; [apply (A "DISPX_0"); [rewrite R; simpl; auto 10 | reflexivity
                                  | reflexivity]|].
    split; [apply B; rewrite R; simpl; auto|].
    split; [rewrite C; [reflexivity | reflexivity |]
           | rewrite C; [reflexivity | reflexivity |]];
      intros m I; rewrite R in I; simpl in I;
      destruct I as [<- | [<- | [<- | [<- | []]]]]; discriminate.
Defined.

(** ** A root inside another root *)

Lemma prefix_letters_app (S : string) :
  Str.all_chars Str.is_letter S = true ->
  forall x t, prefix S (x ++ String "_" t) = prefix S x.
Proof.
  induction S as [|c s IH]; intros L x t; [now destruct x|].
  simpl in L; apply andb_prop in L; destruct L as [Lc Ls].
  destruct x as [|y x]; simpl.
  - destruct (ascii_dec c "_") as [-> | N]; [discriminate Lc | reflexivity].
  - destruct (ascii_dec c y); [now apply IH | reflexivity].
Qed.

Lemma contains_letters_member (S : string) (dg : ascii) :
  Str.all_chars Str.is_letter S = true -> S <> "" ->
  Str.is_letter dg = false ->
  forall x,
    Str.contains S (x ++ String "_" (String dg "")) = Str.contains S x.
Proof.
  intros L N D.
  destruct S as [|c s]; [congruence|].
  assert (Lc : Str.is_letter c = true)
    by (simpl in L; apply andb_prop in L; tauto).
  assert (T : Str.contains (String c s) (String "_" (String dg "")) = false).
  { simpl.
    destruct (ascii_dec c "_") as [-> | _]; [discriminate Lc|].
    destruct (ascii_dec c dg) as [-> | _]; [congruence | reflexivity]. }
  induction x as [|y x IH].
  - cbn [append]; rewrite T; reflexivity.
  - cbn [append Str.contains].
    rewrite IH.
    change (String y (x ++ String "_" (String dg "")))
      with (String y x ++ String "_" (String dg ""))%string.
    now rewrite (prefix_letters_app (String c s) L (String y x)).
Qed.

Lemma contains_length (a : string) :
  forall b, Str.contains a b = true -> String.length a <= String.length b.
Proof.
  assert (P : forall a b, prefix a b = true ->
                          String.length a <= String.length b).
  { induction a0 as [|c a0 IH]; intros [|y b] H; simpl in *;
      try lia; try discriminate.
    destruct (ascii_dec c y); [apply IH in H; lia | discriminate]. }
  induction b as [|y b IH]; cbn [Str.contains]; intros H.
  - rewrite orb_false_r in H; now apply P in H.
  - apply orb_prop in H; destruct H as [H | H];
      [apply P in H; exact H | apply IH in H; simpl; lia].
Qed.

Lemma prefix_same_length (a : string) :
  forall b, prefix a b = true -> String.length a = String.length b -> a = b.
Proof.
  induction a as [|c a IH]; intros [|y b] H E; simpl in *;
    try reflexivity; try discriminate.
  destruct (ascii_dec c y) as [-> | _]; [|discriminate].
  f_equal; apply IH; [exact H | lia].
Qed.

Lemma contains_same_length (a b : string) :
  Str.contains a b = true -> String.length a = String.length b -> a = b.
Proof.
  destruct b as [|y b]; cbn [Str.contains]; intros H E.
  - rewrite orb_false_r in H; now apply prefix_same_length.
  - apply orb_prop in H; destruct H as [H | H].
    + now apply prefix_same_length.
    + apply contains_length in H; simpl in E; lia.
Qed.

Lemma append_inj_l (a b c : string) :
  (a ++ c)%string = (b ++ c)%string -> a = b.
Proof.
  intros H.
  assert (R : Str.rev (a ++ c) = Str.rev (b ++ c)) by now rewrite H.
  assert (G : forall x y, Str.rev (x ++ y) = (Str.rev y ++ Str.rev x)%string).
  { induction x as [|u x IHx]; intros y; simpl.
    - now rewrite append_nil_r.
    - now rewrite !rev_cons, IHx, append_assoc. }
  rewrite !G in R; apply append_inj_r in R.
  rewrite <- (rev_involutive a), <- (rev_involutive b); now rewrite R.
Qed.

Lemma letters_not_member (S R : string) (t : string) :
  Str.all_chars Str.is_letter S = true -> S <> (R ++ String "_" t)%string.
Proof.
  intros L E; apply letters_no_underscore in L.
  rewrite E in L; unfold has_char in L; rewrite all_chars_app in L.
  simpl in L; rewrite andb_false_r in L; discriminate L.
Qed.

Lemma prefix_app_r (a : string) :
  forall b t, prefix a b = true -> prefix a (b ++ t) = true.
Proof.
  induction a as [|c a IH]; intros b t H; [now destruct (b ++ t)%string|].
  destruct b as [|y b]; simpl in *; [discriminate|].
  destruct (ascii_dec c y); [now apply IH | discriminate].
Qed.

Lemma contains_app_r (a t : string) :
  forall b, Str.contains a b = true -> Str.contains a (b ++ t) = true.
Proof.
  induction b as [|y b IH]; cbn [Str.contains append]; intros H.
  - rewrite orb_false_r in H.
    destruct a; [now destruct t | discriminate H].
  - apply orb_prop in H; destruct H as [H | H].
    + change (String y (b ++ t)) with (String y b ++ t)%string.
      now rewrite (prefix_app_r a (String y b) t H).
    + rewrite (IH H); apply orb_true_r.
Qed.

Section Shadowed.

Variables R S : string.
Variables a b c e : pyval.
Hypothesis letters_R : Str.all_chars Str.is_letter R = true.
Hypothesis letters_S : Str.all_chars Str.is_letter S = true.
Hypothesis differ : R <> S.
Hypothesis inside : Str.contains R S = true.

Lemma outer_not_empty : S <> "".
Proof.
  intros E; rewrite E in inside; cbn [Str.contains] in inside.
  rewrite orb_false_r in inside.
  destruct R; [now apply differ | discriminate inside].
Qed.

Lemma outer_not_inside : Str.contains S R = false.
Proof.
  destruct (Str.contains S R) eqn:C; [|reflexivity].
  exfalso; apply differ.
  apply contains_same_length; [exact inside|].
  apply contains_length in C; pose proof (contains_length _ _ inside); lia.
Qed.

Lemma mlist_outer :
  filter (fun m => Str.contains S m)
    [member0 S; member1 S; member0 R; member1 R]
  = [member0 S; member1 S].
Proof.
  destruct (member_rangekey S letters_S) as [_ [_ [R0 R1]]].
  pose proof (contains_root (member0 S)) as C0; rewrite R0 in C0.
  pose proof (contains_root (member1 S)) as C1; rewrite R1 in C1.
  cbn [filter]; rewrite C0, C1.
  unfold member0, member1.
  rewrite (contains_letters_member S "0" letters_S outer_not_empty eq_refl).
  rewrite (contains_letters_member S "1" letters_S outer_not_empty eq_refl).
  now rewrite outer_not_inside.
Qed.

Lemma mlist_inner :
  filter (fun m => Str.contains R m)
    [member0 S; member1 S; member0 R; member1 R]
  = [member0 S; member1 S; member0 R; member1 R].
Proof.
  destruct (member_rangekey R letters_R) as [_ [_ [R0 R1]]].
  pose proof (contains_root (member0 R)) as C0; rewrite R0 in C0.
  pose proof (contains_root (member1 R)) as C1; rewrite R1 in C1.
  cbn [filter]; rewrite C0, C1.
  unfold member0 at 1, member1 at 1.
  now rewrite !(contains_app_r R _ S inside).
Qed.

Lemma outer_not_a_member (T : string) (t : string) :
  String.eqb S (T ++ String "_" t) = false.
Proof.
  apply String.eqb_neq, letters_not_member, letters_S.
Qed.

Lemma shadowed_ranges (st : locals) :
  fold_ranges (two_pairs R S a b c e)
    [member0 S; member1 S; member0 R; member1 R]
    [member0 S; member1 S; member0 R; member1 R] Dict.empty st
  = Ok ([(S, PTuple a b)], (Some a, Some b)).
Proof.
  destruct (member_rangekey S letters_S) as [_ [_ [R0 R1]]].
  destruct (member_rangekey R letters_R) as [_ [_ [Q0 Q1]]].
  assert (N : String.eqb (member1 S) (member0 S) = false)
    by (apply String.eqb_neq; intros E; symmetry in E;
        exact (members_differ S E)).
  assert (L0 : Dict.lookup (member0 S) (two_pairs R S a b c e) = Some a)
    by (unfold two_pairs; cbn [Dict.lookup]; now rewrite String.eqb_refl).
  assert (L1 : Dict.lookup (member1 S) (two_pairs R S a b c e) = Some b)
    by (unfold two_pairs; cbn [Dict.lookup]; now rewrite N, String.eqb_refl).
  assert (F : Forall (fun m => m = member0 S \/ m = member1 S)
                [member0 S; member1 S]) by (repeat constructor; auto).
  assert (M : Dict.mem S [(S, PTuple a b)] = true)
    by (unfold Dict.mem; cbn [Dict.lookup]; now rewrite String.eqb_refl).
  cbn [fold_ranges].
  rewrite R0, R1, Q0, Q1, mlist_outer, mlist_inner.
  cbn [nth_error of_option bind]; rewrite R0.
  change (Dict.mem S Dict.empty) with false; cbn [negb].
  rewrite (bind_members_pair _ S a b L0 L1 _ st F).
  cbn [existsb]; rewrite !String.eqb_refl, N; cbn [orb bind].
  cbn [read_pair of_option fst snd bind Dict.set Dict.empty].
  rewrite M; reflexivity.
Qed.

End Shadowed.

(** X19.  A root that occurs inside another root is lost.  When a beam
    has the complete pairs of two different roots [S] and [R] and [R]
    occurs inside [S] (as [WX] does inside [DISPWX]), with the pair of [S]
    first, the members of [S] head the list gathered for [R] and name the
    root that is looked up; that root is already merged, so nothing is
    stored for [R], and the four range keys are deleted: the mapping is
    left with [S] alone and the values of [R] are gone. *)
Theorem shadowed_pair_lost
  (R S : string) (a b c e : pyval) (st : locals) :
  Str.all_chars Str.is_letter R = true ->
  Str.all_chars Str.is_letter S = true ->
  R <> S -> Str.contains R S = true ->
  fold_beam (two_pairs R S a b c e) st
  = Ok ([(S, PTuple a b)], (Some a, Some b)).
Proof.
  intros LR LS D I.
  destruct (member_rangekey S LS) as [M0 [M1 _]].
  destruct (member_rangekey R LR) as [M2 [M3 _]].
  unfold fold_beam.
  change (Dict.keys (two_pairs R S a b c e))
    with [member0 S; member1 S; member0 R; member1 R].
  cbn [filter]; rewrite M0, M1, M2, M3.
  rewrite (shadowed_ranges R S a b c e LR LS D I st); cbn [bind].
  unfold Dict.update, two_pairs; cbn [fold_left fst snd Dict.set].
  unfold member0, member1.
  rewrite !(outer_not_a_member S LS).
  cbn [del_keys]; unfold Dict.del, Dict.mem.
  cbn [Dict.lookup]; rewrite String.eqb_refl; cbn [bind Dict.remove].
  rewrite String.eqb_refl.
  cbn [Dict.lookup]; rewrite String.eqb_refl; cbn [bind Dict.remove].
  rewrite String.eqb_refl.
  cbn [Dict.lookup]; rewrite String.eqb_refl; cbn [bind Dict.remove].
  rewrite String.eqb_refl.
  cbn [Dict.lookup]; rewrite String.eqb_refl; cbn [bind Dict.remove].
  rewrite String.eqb_refl.
  reflexivity.
Qed.

Lemma shadowed_pair_lost_witness :
  fold_beam [("DISPWX_0", PNum (Int 1)); ("DISPWX_1", PNum (Int 2));
             ("WX_0", PNum (Int 3)); ("WX_1", PNum (Int 4))] unbound
  = Ok ([("DISPWX", PTuple (PNum (Int 1)) (PNum (Int 2)))],
        (Some (PNum (Int 1)), Some (PNum (Int 2)))).
Proof.
  apply (shadowed_pair_lost "WX" "DISPWX" (PNum (Int 1)) (PNum (Int 2))
           (PNum (Int 3)) (PNum (Int 4))
           unbound eq_refl eq_refl);
    [intros H; discriminate H | reflexivity].
Defined.
